(** * Alphintra trading bot: a shallow embedding of the order ledger,
      the signal gates, the position monitor, the Bollinger strategy, the
      wallet environment normaliser and the log endpoint.

    Conventions of the embedding.
    - A Python [float] is an exact rational ([Q]); equality of prices and
      quantities is [Qeq] ([==]).  A nullable column or an [Optional[float]]
      is [option Q]; Python truthiness of such a value is [Py.truthy].
      Sums, products and quotients of prices and quantities are exact.
      Where the code rounds to decimals ([round(x, n)] in the order size),
      a result depends on the last bit of its argument, so that
      computation is carried out in binary64: every operation is followed
      by [Float64.fl], the rounding to the nearest double.
    - A Python exception is a value of [Py.PyExc]; code that may raise
      returns [Py.result]; a [try/except Exception] is a [match] on it.
    - The database is a record of tables, each a list of rows in primary-key
      order.  A method that opens a session takes the database and returns
      the database after [commit] (or the one it received after [rollback]).
    - [datetime.now] and [uuid.uuid4] are inputs of the operations. *)

From Stdlib Require Import ZArith QArith Qabs Qround Lia Lqa Bool.
From Stdlib Require Import Ascii String List.
From stdpp Require Import base option strings list gmap.
Import ListNotations.

Local Open Scope string_scope.
Local Open Scope Q_scope.

(* ===================================================================== *)
(** ** Python values                                                      *)
(* ===================================================================== *)
Module Py.

Inductive PyExc : Type :=
| AttributeError (attr : string)
| TypeError
| KeyError (key : string)
| ZeroDivisionError
| IntegrityError
| StaleDataError
| HTTPException (status_code : Z) (detail : string).

Inductive result (A : Type) : Type :=
| Ok (a : A)
| Raise (e : PyExc).
Arguments Ok {A} a.
Arguments Raise {A} e.

Definition bind {A B : Type} (r : result A) (k : A -> result B) : result B :=
  match r with
  | Ok a => k a
  | Raise e => Raise e
  end.

(** [bool(x)] for an [Optional[float]]: [None] and [0.0] are falsy. *)
Definition truthy (x : option Q) : bool :=
  match x with
  | Some q => negb (Qeq_bool q 0)
  | None => false
  end.

(** [x or y] on optional floats. *)
Definition or_ (x y : option Q) : option Q :=
  if truthy x then x else y.

(** [float(x)]: [float(None)] raises [TypeError]. *)
Definition float (x : option Q) : result Q :=
  match x with
  | Some q => Ok q
  | None => Raise TypeError
  end.

(** [a / b] on floats. *)
Definition div (a b : Q) : result Q :=
  if Qeq_bool b 0 then Raise ZeroDivisionError else Ok (a / b).

(** Comparisons of floats as booleans. *)
Definition le (a b : Q) : bool := Qle_bool a b.
Definition ge (a b : Q) : bool := Qle_bool b a.
Definition lt (a b : Q) : bool := negb (Qle_bool b a).
Definition gt (a b : Q) : bool := negb (Qle_bool a b).

(** [bool(n)] for an optional integer (a nullable id). *)
Definition truthy_int (x : option Z) : bool :=
  match x with
  | Some n => negb (Z.eqb n 0)
  | None => false
  end.

End Py.

Notation "'let!' x ':=' r 'in' k" := (Py.bind r (fun x => k))
  (at level 10, x name, r at level 100, k at level 200, only parsing).

(* ===================================================================== *)
(** ** bot_models.py: the rows of the trading database                    *)
(* ===================================================================== *)

(** [class Order(Base)].  The mapped columns are exactly these; there is no
    [average_price] column. *)
Module Order.
Record t : Type := mk {
  id : Z;
  bot_execution_id : Z;
  user_id : Z;
  order_id : string;
  symbol : string;
  side : string;
  order_type : string;
  price : option Q;
  quantity : Q;
  filled_quantity : option Q;
  status : string;
  created_at : Z;
  filled_at : option Z
}.

(** An ORM instance: the row, and the plain Python attribute
    [average_price] that [TradingManager] assigns on the instance.  The
    class declares no such column, so the attribute is not mapped: it is
    absent on an instance that a query has just loaded (reading it raises
    [AttributeError]), an assignment creates it on that instance only, and
    it is never written to the table. *)
Record instance : Type := mk_instance {
  row : t;
  average_price : option (option Q)
}.

Definition load (o : t) : instance := mk_instance o None.

(** Reading [order.average_price]. *)
Definition get_average_price (i : instance) : Py.result (option Q) :=
  match average_price i with
  | Some v => Py.Ok v
  | None => Py.Raise (Py.AttributeError "average_price")
  end.

Definition set_average_price (v : option Q) (i : instance) : instance :=
  mk_instance (row i) (Some v).

Definition set_row (f : t -> t) (i : instance) : instance :=
  mk_instance (f (row i)) (average_price i).

Definition with_status (s : string) (o : t) : t :=
  mk (id o) (bot_execution_id o) (user_id o) (order_id o) (symbol o) (side o)
     (order_type o) (price o) (quantity o) (filled_quantity o) s
     (created_at o) (filled_at o).

Definition with_filled_quantity (q : option Q) (o : t) : t :=
  mk (id o) (bot_execution_id o) (user_id o) (order_id o) (symbol o) (side o)
     (order_type o) (price o) (quantity o) q (status o)
     (created_at o) (filled_at o).

Definition with_filled_at (ts : option Z) (o : t) : t :=
  mk (id o) (bot_execution_id o) (user_id o) (order_id o) (symbol o) (side o)
     (order_type o) (price o) (quantity o) (filled_quantity o) (status o)
     (created_at o) ts.

Definition with_price (p : option Q) (o : t) : t :=
  mk (id o) (bot_execution_id o) (user_id o) (order_id o) (symbol o) (side o)
     (order_type o) p (quantity o) (filled_quantity o) (status o)
     (created_at o) (filled_at o).
End Order.

(** [class Position(Base)]. *)
Module Position.
Record t : Type := mk {
  id : Z;
  bot_execution_id : Z;
  user_id : Z;
  symbol : string;
  entry_price : Q;
  quantity : Q;
  current_price : option Q;
  unrealized_pnl : option Q;
  stop_loss : option Q;
  take_profit : option Q;
  opened_at : Z
}.

Definition with_entry (ep q : Q) (p : t) : t :=
  mk (id p) (bot_execution_id p) (user_id p) (symbol p) ep q
     (current_price p) (unrealized_pnl p) (stop_loss p) (take_profit p)
     (opened_at p).

Definition with_quantity (q : Q) (p : t) : t :=
  mk (id p) (bot_execution_id p) (user_id p) (symbol p) (entry_price p) q
     (current_price p) (unrealized_pnl p) (stop_loss p) (take_profit p)
     (opened_at p).

Definition with_mark (cp pnl : Q) (p : t) : t :=
  mk (id p) (bot_execution_id p) (user_id p) (symbol p) (entry_price p)
     (quantity p) (Some cp) (Some pnl) (stop_loss p) (take_profit p)
     (opened_at p).
End Position.

(** [class TradeHistory(Base)]. *)
Module TradeHistory.
Record t : Type := mk {
  id : Z;
  bot_execution_id : Z;
  user_id : Z;
  symbol : string;
  buy_price : Q;
  sell_price : Q;
  quantity : Q;
  pnl : Q;
  result : string;
  opened_at : Z;
  closed_at : Z
}.
End TradeHistory.

(** [class BotExecution(Base)]: the columns the trading manager touches. *)
Module BotExecution.
Record t : Type := mk {
  id : Z;
  user_id : Z;
  last_run : option Z
}.
End BotExecution.

(** The trading database.  [next_id] is the next primary key; one
    sequence serves the tables, since only the distinctness of the keys
    matters here. *)
Module DB.
Record t : Type := mk {
  orders : list Order.t;
  positions : list Position.t;
  trade_history : list TradeHistory.t;
  bot_executions : list BotExecution.t;
  next_id : Z
}.

Definition empty : t := mk [] [] [] [] 1.

Definition with_orders (l : list Order.t) (d : t) : t :=
  mk l (positions d) (trade_history d) (bot_executions d) (next_id d).
Definition with_positions (l : list Position.t) (d : t) : t :=
  mk (orders d) l (trade_history d) (bot_executions d) (next_id d).
Definition with_trade_history (l : list TradeHistory.t) (d : t) : t :=
  mk (orders d) (positions d) l (bot_executions d) (next_id d).
Definition with_bot_executions (l : list BotExecution.t) (d : t) : t :=
  mk (orders d) (positions d) (trade_history d) l (next_id d).
Definition bump (d : t) : t :=
  mk (orders d) (positions d) (trade_history d) (bot_executions d)
     (next_id d + 1)%Z.

(** [query(...).filter(p).first()] *)
Definition first {A : Type} (p : A -> bool) (l : list A) : option A :=
  List.find p l.

(** Write back the one row that a predicate identifies (the first). *)
Fixpoint update_first {A : Type} (p : A -> bool) (f : A -> A) (l : list A)
  : list A :=
  match l with
  | [] => []
  | x :: r => if p x then f x :: r else x :: update_first p f r
  end.

Fixpoint delete_first {A : Type} (p : A -> bool) (l : list A) : list A :=
  match l with
  | [] => []
  | x :: r => if p x then r else x :: delete_first p r
  end.
End DB.

(* ===================================================================== *)
(** ** trading_manager.py                                                 *)
(* ===================================================================== *)
Module TradingManager.

(** [self]: the execution and the user the manager was built for.  The
    row of that execution exists for as long as the manager does, so the
    foreign keys of the rows it inserts are satisfied. *)
Record t : Type := mk {
  bot_execution_id : Z;
  user_id : Z
}.

Definition has_order_id (order_id : string) (o : Order.t) : bool :=
  String.eqb (Order.order_id o) order_id.

(** [Position.bot_execution_id == self.bot_execution_id,
     Position.symbol == symbol] *)
Definition position_of (self : t) (symbol : string) (p : Position.t) : bool :=
  Z.eqb (Position.bot_execution_id p) (bot_execution_id self)
  && String.eqb (Position.symbol p) symbol.

(** [create_order]: [uuid12] is [uuid.uuid4().hex[:12].upper()].  The
    commit fails on the unique constraint of [order_id]. *)
Definition create_order (self : t) (db : DB.t) (uuid12 : string) (now : Z)
    (symbol side order_type : string) (quantity : Q) (price : option Q)
  : DB.t * option string :=
  let order_id := "ORD-" ++ uuid12 in
  let order :=
    Order.mk (DB.next_id db) (bot_execution_id self) (user_id self) order_id
             symbol side order_type price quantity (Some 0) "PENDING" now None in
  if existsb (has_order_id order_id) (DB.orders db)
  then (db, None)
  else (DB.bump (DB.with_orders (DB.orders db ++ [order]) db), Some order_id).

(** Lines 85-111 of [partial_fill]: the arithmetic and the status, once
    [previous_filled] and [previous_avg_price] have been read. *)
Definition partial_fill_update (order : Order.instance) (now : Z)
    (previous_filled previous_avg_price filled_quantity filled_price : Q)
  : Py.result (Order.instance * bool) :=
  let new_filled := previous_filled + filled_quantity in
  let! new_avg_price :=
    Py.div ((previous_filled * previous_avg_price)
            + (filled_quantity * filled_price)) new_filled in
  let order := Order.set_row (Order.with_filled_quantity (Some new_filled)) order in
  let order := Order.set_average_price (Some new_avg_price) order in
  let is_complete := Py.ge new_filled (Order.quantity (Order.row order)) in
  let order :=
    if is_complete
    then Order.set_row (Order.with_filled_at (Some now))
           (Order.set_row (Order.with_status "FILLED") order)
    else Order.set_row (Order.with_status "PARTIALLY_FILLED") order in
  Py.Ok (order, is_complete).

(** The [try] block of [partial_fill] after the order was found. *)
Definition partial_fill_try (order : Order.instance) (now : Z)
    (filled_quantity filled_price : Q) : Py.result (Order.instance * bool) :=
  let! previous_filled :=
    Py.float (Py.or_ (Order.filled_quantity (Order.row order)) (Some 0)) in
  let! average_price := Order.get_average_price order in
  let! previous_avg_price :=
    Py.float (Py.or_ average_price (Order.price (Order.row order))) in
  partial_fill_update order now previous_filled previous_avg_price
                      filled_quantity filled_price.

(** [partial_fill]: the database after the call and the value returned. *)
Definition partial_fill (self : t) (db : DB.t) (now : Z) (order_id : string)
    (filled_quantity filled_price : Q) : DB.t * bool :=
  match DB.first (has_order_id order_id) (DB.orders db) with
  | None => (db, false)
  | Some o =>
      match partial_fill_try (Order.load o) now filled_quantity filled_price with
      | Py.Ok (order, is_complete) =>
          (DB.with_orders
             (DB.update_first (has_order_id order_id) (fun _ => Order.row order)
                              (DB.orders db)) db,
           is_complete)
      | Py.Raise _ => (db, false)
      end
  end.

(** [_open_position(db, symbol, entry_price, quantity, stop_loss,
    take_profit)] on the session [db]. *)
Definition _open_position (self : t) (db : DB.t) (now : Z) (symbol : string)
    (entry_price : option Q) (quantity : Q) (stop_loss take_profit : option Q)
  : Py.result DB.t :=
  match DB.first (position_of self symbol) (DB.positions db) with
  | Some position =>
      let! entry_price := Py.float entry_price in
      let total_value :=
        (Position.entry_price position * Position.quantity position)
        + (entry_price * quantity) in
      let total_quantity := Position.quantity position + quantity in
      let! new_entry := Py.div total_value total_quantity in
      Py.Ok (DB.with_positions
               (DB.update_first (position_of self symbol)
                  (Position.with_entry new_entry total_quantity)
                  (DB.positions db)) db)
  | None =>
      (* the log line formats [entry_price] with [:.2f] *)
      let! entry_price := Py.float entry_price in
      let position :=
        Position.mk (DB.next_id db) (bot_execution_id self) (user_id self)
                    symbol entry_price quantity (Some entry_price) (Some 0)
                    stop_loss take_profit now in
      Py.Ok (DB.bump (DB.with_positions (DB.positions db ++ [position]) db))
  end.

(** [_close_position(db, symbol, exit_price, quantity)] on the session. *)
Definition _close_position (self : t) (db : DB.t) (now : Z) (symbol : string)
    (exit_price : option Q) (quantity : Q) : Py.result DB.t :=
  match DB.first (position_of self symbol) (DB.positions db) with
  | None => Py.Ok db
  | Some position =>
      let! exit_price := Py.float exit_price in
      let pnl := (exit_price - Position.entry_price position) * quantity in
      let result := if Py.gt pnl 0 then "PROFIT" else "LOSS" in
      let trade :=
        TradeHistory.mk (DB.next_id db) (bot_execution_id self) (user_id self)
                        symbol (Position.entry_price position) exit_price
                        quantity pnl result (Position.opened_at position) now in
      let db := DB.bump (DB.with_trade_history (DB.trade_history db ++ [trade]) db) in
      if Py.ge quantity (Position.quantity position)
      then Py.Ok (DB.with_positions
                    (DB.delete_first (position_of self symbol) (DB.positions db)) db)
      else Py.Ok (DB.with_positions
                    (DB.update_first (position_of self symbol)
                       (Position.with_quantity (Position.quantity position - quantity))
                       (DB.positions db)) db)
  end.

(** The [try] block of [fill_order] after the order was found: the order
    instance as mutated and the session to commit. *)
Definition fill_order_try (self : t) (db : DB.t) (now : Z) (o : Order.t)
    (filled_price stop_loss take_profit : option Q)
  : Py.result (Order.instance * DB.t) :=
  let order := Order.load o in
  let order := Order.set_row (Order.with_status "FILLED") order in
  let order :=
    Order.set_row (Order.with_filled_quantity
                     (Some (Order.quantity (Order.row order)))) order in
  let order := Order.set_row (Order.with_filled_at (Some now)) order in
  let order :=
    if Py.truthy filled_price
    then Order.set_average_price filled_price
           (Order.set_row (Order.with_price filled_price) order)
    else Order.set_average_price (Order.price (Order.row order)) order in
  let! actual_price := Order.get_average_price order in
  let symbol := Order.symbol (Order.row order) in
  let quantity := Order.quantity (Order.row order) in
  let! db :=
    if String.eqb (Order.side (Order.row order)) "BUY"
    then _open_position self db now symbol actual_price quantity stop_loss take_profit
    else if String.eqb (Order.side (Order.row order)) "SELL"
    then _close_position self db now symbol actual_price quantity
    else Py.Ok db in
  Py.Ok (order, db).

(** [fill_order]: commit on success, rollback on any exception. *)
Definition fill_order (self : t) (db : DB.t) (now : Z) (order_id : string)
    (filled_price stop_loss take_profit : option Q) : DB.t :=
  match DB.first (has_order_id order_id) (DB.orders db) with
  | None => db
  | Some o =>
      match fill_order_try self db now o filled_price stop_loss take_profit with
      | Py.Ok (order, db') =>
          DB.with_orders
            (DB.update_first (has_order_id order_id) (fun _ => Order.row order)
                             (DB.orders db')) db'
      | Py.Raise _ => db
      end
  end.

(** [update_positions_price] *)
Definition update_positions_price (self : t) (db : DB.t) (symbol : string)
    (current_price : Q) : DB.t :=
  DB.with_positions
    (List.map (fun position =>
                 if position_of self symbol position
                 then Position.with_mark current_price
                        ((current_price - Position.entry_price position)
                         * Position.quantity position) position
                 else position)
              (DB.positions db)) db.

(** [cancel_order] *)
Definition cancel_order (self : t) (db : DB.t) (order_id : string) : DB.t :=
  match DB.first (has_order_id order_id) (DB.orders db) with
  | Some _ =>
      DB.with_orders
        (DB.update_first (has_order_id order_id) (Order.with_status "CANCELLED")
                         (DB.orders db)) db
  | None => db
  end.

(** [update_bot_last_run] *)
Definition update_bot_last_run (self : t) (db : DB.t) (now : Z) : DB.t :=
  let is_bot (b : BotExecution.t) := Z.eqb (BotExecution.id b) (bot_execution_id self) in
  DB.with_bot_executions
    (DB.update_first is_bot
       (fun b => BotExecution.mk (BotExecution.id b) (BotExecution.user_id b) (Some now))
       (DB.bot_executions db)) db.

(** The operations on orders, as a caller issues them. *)
Inductive op : Type :=
| Create (uuid12 : string) (symbol side order_type : string) (quantity : Q)
         (price : option Q)
| PartialFill (order_id : string) (filled_quantity filled_price : Q)
| Fill (order_id : string) (filled_price stop_loss take_profit : option Q)
| Cancel (order_id : string).

Definition step (self : t) (now : Z) (db : DB.t) (o : op) : DB.t :=
  match o with
  | Create u sy si ty q p => fst (create_order self db u now sy si ty q p)
  | PartialFill oid q p => fst (partial_fill self db now oid q p)
  | Fill oid p sl tp => fill_order self db now oid p sl tp
  | Cancel oid => cancel_order self db oid
  end.

(** A run: each operation with the manager that issues it and its clock. *)
Definition run (db : DB.t) (ops : list (t * Z * op)) : DB.t :=
  fold_left (fun d '(self, now, o) => step self now d o) ops db.

End TradingManager.

(* ===================================================================== *)
(** ** Binary64 arithmetic                                                *)
(* ===================================================================== *)

(** The value of a Python [float] is a rational; the result of an
    arithmetic operation on floats is the exact result rounded to the
    nearest double, ties to the even significand ([fl]).  Infinities and
    NaN are not values of the model: magnitudes stay below [2^1024]. *)
Module Float64.

(** The nearest integer, ties to the even one. *)
Definition round_half_even (x : Q) : Z :=
  let f := Qfloor x in
  let frac := x - inject_Z f in
  if Qle_bool frac (1 # 2)
  then if Qeq_bool frac (1 # 2)
       then (if Z.even f then f else f + 1)%Z
       else f
  else (f + 1)%Z.

Definition pow2 (e : Z) : Q :=
  if (0 <=? e)%Z then inject_Z (2 ^ e) else / inject_Z (2 ^ (- e)).

(** The exponent [e] with [2^e <= x < 2^(e+1)], for a positive [x]. *)
Definition floor_log2 (x : Q) : Z :=
  let e := (Z.log2 (Qnum x) - Z.log2 (Zpos (Qden x)))%Z in
  if Qle_bool (pow2 e) x then e else (e - 1)%Z.

(** Rounding to 53 significant bits, or to a multiple of [2^-1074] in the
    subnormal range. *)
Definition fl (x : Q) : Q :=
  if Qeq_bool x 0 then 0
  else
    let e := Z.max (floor_log2 (Qabs x) - 52) (-1074) in
    Qred (inject_Z (round_half_even (x / pow2 e)) * pow2 e).

End Float64.

(* ===================================================================== *)
(** ** Python strings and rounding                                        *)
(* ===================================================================== *)

(** A character is a code point below 256; [str.isspace], [str.lower] and
    [str.strip] are the built-ins on that range. *)
Module PyStr.

Definition isspace (c : ascii) : bool :=
  let n := nat_of_ascii c in
  ((9 <=? n) && (n <=? 13) || (28 <=? n) && (n <=? 32)
   || (n =? 133) || (n =? 160))%nat.

Definition lower_char (c : ascii) : ascii :=
  let n := nat_of_ascii c in
  if ((65 <=? n) && (n <=? 90)
      || (192 <=? n) && (n <=? 222) && negb (n =? 215))%nat
  then ascii_of_nat (n + 32) else c.

(** [str.upper] on the ASCII letters (it is applied to ['buy'] and
    ['sell'] only). *)
Definition upper_char (c : ascii) : ascii :=
  let n := nat_of_ascii c in
  if ((97 <=? n) && (n <=? 122))%nat then ascii_of_nat (n - 32) else c.

Fixpoint lower (s : string) : string :=
  match s with
  | EmptyString => EmptyString
  | String c r => String (lower_char c) (lower r)
  end.

Fixpoint upper (s : string) : string :=
  match s with
  | EmptyString => EmptyString
  | String c r => String (upper_char c) (upper r)
  end.

Fixpoint lstrip (s : string) : string :=
  match s with
  | EmptyString => EmptyString
  | String c r => if isspace c then lstrip r else s
  end.

(** Drop the trailing white space: a character is kept when something
    is kept after it or when it is not white space. *)
Fixpoint rstrip (s : string) : string :=
  match s with
  | EmptyString => EmptyString
  | String c r =>
      match rstrip r with
      | EmptyString => if isspace c then EmptyString else String c EmptyString
      | r' => String c r'
      end
  end.

Definition strip (s : string) : string := rstrip (lstrip s).

(** [x in aliases] for a set of strings. *)
Definition mem (x : string) (l : list string) : bool :=
  existsb (String.eqb x) l.

(** [round(q, ndigits)] on a float: the value of the double [q] is taken
    to the nearest multiple of [10^-ndigits], ties to the even one, and the
    result is the double nearest to that decimal (CPython rounds the
    correctly rounded decimal string of the double and reads it back). *)
Definition round_half_even (x : Q) : Z := Float64.round_half_even x.

Definition round (q : Q) (ndigits : nat) : Q :=
  let scale := inject_Z (10 ^ Z.of_nat ndigits) in
  Float64.fl (inject_Z (round_half_even (q * scale)) / scale).

End PyStr.

(* ===================================================================== *)
(** ** strategies/base_strategy.py                                        *)
(* ===================================================================== *)
Module SignalType.
Inductive t : Type := BUY | SELL | HOLD.

Definition eqb (a b : t) : bool :=
  match a, b with
  | BUY, BUY | SELL, SELL | HOLD, HOLD => true
  | _, _ => false
  end.
End SignalType.

(** [@dataclass TradingSignal] ([metadata] is not read by the code below). *)
Module TradingSignal.
Record t : Type := mk {
  signal : SignalType.t;
  confidence : Q;
  reason : string;
  entry_price : option Q;
  stop_loss : option Q;
  take_profit : option Q
}.
End TradingSignal.

(* ===================================================================== *)
(** ** exchange_manager.py, as the signal processor sees it               *)
(* ===================================================================== *)
Module Exchange.

(** One call of [place_market_order(symbol, side, amount)]. *)
Record request : Type := mk_request {
  req_symbol : string;
  req_side : string;
  req_amount : Q
}.

(** The order dictionary that the venue returns: for each key, whether
    it is present, and its value ([None] is a value). *)
Record order : Type := mk_order {
  id : option string;
  price : option (option Q);
  amount : option Q;
  filled : option Q;
  status : option string
}.

(** [d.get(key, default)] *)
Definition get_or (entry : option (option Q)) (default : option Q) : option Q :=
  match entry with
  | Some v => v
  | None => default
  end.

End Exchange.

(* ===================================================================== *)
(** ** signal_processor.py                                                *)
(* ===================================================================== *)
Module SignalProcessor.

(** An entry of [self.positions]. *)
Record position : Type := mk_position {
  pos_side : string;
  pos_entry_price : option Q;
  pos_entry_time : Z;
  pos_order_id : option string;
  pos_amount : option Q;
  pos_stop_loss : option Q;
  pos_take_profit : option Q;
  pos_confidence : Q
}.

(** [self]: the threshold and the trading manager, fixed by [__init__]. *)
Record t : Type := mk {
  min_confidence : Q;
  trading_manager : option TradingManager.t
}.

(** [__init__]: a manager only when both ids are truthy. *)
Definition init (bot_execution_id user_id : option Z) : t :=
  mk 50
     (match bot_execution_id, user_id with
      | Some b, Some u =>
          if Py.truthy_int (Some b) && Py.truthy_int (Some u)
          then Some (TradingManager.mk b u) else None
      | _, _ => None
      end).

(** What the processor changes: the database, its own [positions]
    dictionary, and the venue, seen as the calls of [place_market_order]
    made so far. *)
Record world : Type := mk_world {
  db : DB.t;
  positions : gmap string position;
  placed : list Exchange.request
}.

Section Venue.
(** The venue: the free USDT balance and the answer to a market order,
    both as functions of the orders placed before. *)
Variable get_testnet_balance : list Exchange.request -> Q.
Variable place_market_order :
  list Exchange.request -> Exchange.request -> option Exchange.order.

(** [_calculate_order_size], in binary64: the literals [0.05] and [0.001]
    are the doubles nearest to them, and every operation rounds.  Without
    a usable entry price the quantity is the integer [0]. *)
Definition _calculate_order_size (w : world) (signal : TradingSignal.t) : Q :=
  let fl := Float64.fl in
  let balance := get_testnet_balance (placed w) in
  let risk_percentage :=
    fl (fl (5 # 100)
        + fl (fl (TradingSignal.confidence signal / 100) * fl (5 # 100))) in
  let trade_amount := fl (balance * risk_percentage) in
  let quantity :=
    match TradingSignal.entry_price signal with
    | Some ep =>
        if Py.truthy (Some ep) && Py.gt ep 0 then fl (trade_amount / ep) else 0
    | None => 0
    end in
  if Py.lt quantity (fl (1 # 1000)) then PyStr.round quantity 6
  else if Py.lt quantity 1 then PyStr.round quantity 4
  else PyStr.round quantity 2.

(** [_should_execute] *)
Definition _should_execute (self : t) (w : world) (symbol : string)
    (signal : TradingSignal.t) : bool :=
  let current_position := positions w !! symbol in
  match TradingSignal.signal signal with
  | SignalType.BUY =>
      match current_position with
      | Some p => negb (String.eqb (pos_side p) "buy")
      | None => true
      end
  | SignalType.SELL =>
      match current_position with
      | None => false
      | Some p => negb (String.eqb (pos_side p) "sell")
      end
  | SignalType.HOLD => true
  end.

(** [_update_position] *)
Definition _update_position (w : world) (now : Z) (symbol : string)
    (signal : TradingSignal.t) (order : Exchange.order) : world :=
  let entry :=
    mk_position
      (match TradingSignal.signal signal with
       | SignalType.BUY => "buy" | _ => "sell" end)
      (TradingSignal.entry_price signal) now (Exchange.id order)
      (Exchange.amount order) (TradingSignal.stop_loss signal)
      (TradingSignal.take_profit signal) (TradingSignal.confidence signal) in
  mk_world (db w) (<[symbol := entry]> (positions w)) (placed w).

(** The database tracking of a placed order (lines 140-157). *)
Definition track_order (self : t) (d : DB.t) (uuid12 : string) (now : Z)
    (symbol side : string) (order_size : Q) (signal : TradingSignal.t)
    (order : Exchange.order) : DB.t :=
  match trading_manager self with
  | None => d
  | Some tm =>
      let '(d, order_id) :=
        TradingManager.create_order tm d uuid12 now symbol (PyStr.upper side)
          "MARKET" order_size (TradingSignal.entry_price signal) in
      match order_id with
      | None => d
      | Some order_id =>
          let d :=
            TradingManager.fill_order tm d now order_id
              (Exchange.get_or (Exchange.price order)
                               (TradingSignal.entry_price signal))
              (if String.eqb side "buy"
               then TradingSignal.stop_loss signal else None)
              (if String.eqb side "buy"
               then TradingSignal.take_profit signal else None) in
          TradingManager.update_bot_last_run tm d now
      end
  end.

(** [execute_signal]: the world after the call and the value returned. *)
Definition execute_signal (self : t) (w : world) (uuid12 : string) (now : Z)
    (symbol : string) (signal : TradingSignal.t) (order_size : option Q)
  : world * bool :=
  if SignalType.eqb (TradingSignal.signal signal) SignalType.HOLD
  then (w, false)
  else if Py.lt (TradingSignal.confidence signal) (min_confidence self)
  then (w, false)
  else
    let side :=
      if SignalType.eqb (TradingSignal.signal signal) SignalType.BUY
      then "buy" else "sell" in
    let order_size :=
      match order_size with
      | None => _calculate_order_size w signal
      | Some s => s
      end in
    if Py.le order_size 0 then (w, false)
    else if negb (_should_execute self w symbol signal) then (w, false)
    else
      let req := Exchange.mk_request symbol side order_size in
      let order := place_market_order (placed w) req in
      let w := mk_world (db w) (positions w) (placed w ++ [req]) in
      match order with
      | Some order =>
          let d := track_order self (db w) uuid12 now symbol side order_size
                               signal order in
          let w := mk_world d (positions w) (placed w) in
          let w := _update_position w now symbol signal order in
          (* the success banner formats the price with [:,.2f] *)
          match Py.float (Exchange.get_or (Exchange.price order)
                                          (TradingSignal.entry_price signal)) with
          | Py.Ok _ => (w, true)
          | Py.Raise _ => (w, false)
          end
      | None => (w, false)
      end.
End Venue.

(** [self.signal_processor._execute_sell_order(symbol, current_price,
    reason)], as [bot.py] calls it.  The class [SignalProcessor] defines
    no method of that name (and no [__getattr__]), so the attribute lookup
    raises [AttributeError] before anything is called: the world is as it
    was. *)
Definition _execute_sell_order (w : world) (symbol : string)
    (current_price : Q) (reason : string) : world * Py.result bool :=
  (w, Py.Raise (Py.AttributeError "_execute_sell_order")).

End SignalProcessor.

(* ===================================================================== *)
(** ** bot.py: [TradingBot._monitor_positions]                            *)
(* ===================================================================== *)
Module TradingBot.

(** What one turn of the loop does with a position. *)
Inductive action : Type :=
| NoPrice                                   (* warning, [continue] *)
| Failed (e : Py.PyExc)                     (* [except Exception], [continue] *)
| ForceSell (reason : string) (current_price : Q)
| Mark (current_price current_pnl : Q).     (* the [else] branch *)

(** [stop_loss and current_price <= stop_loss] *)
Definition stop_loss_hit (stop_loss : option Q) (current_price : Q) : bool :=
  match stop_loss with
  | Some sl => Py.truthy (Some sl) && Py.le current_price sl
  | None => false
  end.

(** [take_profit and current_price >= take_profit] *)
Definition take_profit_hit (take_profit : option Q) (current_price : Q) : bool :=
  match take_profit with
  | Some tp => Py.truthy (Some tp) && Py.ge current_price tp
  | None => false
  end.

(** The body of the loop up to the branch it takes (lines 289-343). *)
Definition decide (position : Position.t) (latest_price : option Q) : action :=
  match latest_price with
  | Some current_price =>
      if negb (Py.truthy (Some current_price)) then NoPrice
      else
        let entry_price := Position.entry_price position in
        let stop_loss := Position.stop_loss position in
        let take_profit := Position.take_profit position in
        let quantity := Position.quantity position in
        let current_pnl := (current_price - entry_price) * quantity in
        match Py.div (current_price - entry_price) entry_price with
        | Py.Raise e => Failed e
        | Py.Ok ratio =>
            let current_pnl_pct := ratio * 100 in
            if stop_loss_hit stop_loss current_price
            then ForceSell "Stop Loss Triggered" current_price
            else if take_profit_hit take_profit current_price
            then ForceSell "Take Profit Triggered" current_price
            else Mark current_price current_pnl
        end
  | None => NoPrice
  end.

Definition has_id (position : Position.t) (p : Position.t) : bool :=
  Z.eqb (Position.id p) (Position.id position).

(** [position.current_price = ...; position.unrealized_pnl = ...;
    db.commit()]: an UPDATE of these two columns of the row with the
    position's primary key; it raises when that row is gone. *)
Definition commit_mark (d : DB.t) (position : Position.t)
    (current_price current_pnl : Q) : Py.result DB.t :=
  if existsb (has_id position) (DB.positions d)
  then Py.Ok (DB.with_positions
                (DB.update_first (has_id position)
                   (Position.with_mark current_price current_pnl)
                   (DB.positions d)) d)
  else Py.Raise Py.StaleDataError.

Section Monitor.
(** [self.data_fetcher.get_latest_price] *)
Variable get_latest_price : string -> option Q.

(** One turn of the loop, the world and [positions_closed] after it, for a
    given behaviour [sell] of the call in the two sell branches: the world
    after the call, and its value or exception. *)
Definition monitor_position_with
    (sell : SignalProcessor.world -> string -> Q -> string ->
            SignalProcessor.world * Py.result bool)
    (w : SignalProcessor.world) (positions_closed : nat)
    (position : Position.t) : SignalProcessor.world * nat :=
  let symbol := Position.symbol position in
  match decide position (get_latest_price symbol) with
  | NoPrice => (w, positions_closed)
  | Failed _ => (w, positions_closed)
  | ForceSell reason current_price =>
      let '(w, success) := sell w symbol current_price reason in
      match success with
      | Py.Ok true => (w, S positions_closed)
      | _ => (w, positions_closed)
      end
  | Mark current_price current_pnl =>
      match commit_mark (SignalProcessor.db w) position current_price current_pnl with
      | Py.Ok d =>
          (SignalProcessor.mk_world d (SignalProcessor.positions w)
                                    (SignalProcessor.placed w),
           positions_closed)
      | Py.Raise _ => (w, positions_closed)
      end
  end.

(** The pass for a given [sell]: the rows of this execution, as the query
    returned them, are visited in order. *)
Definition _monitor_positions_with
    (sell : SignalProcessor.world -> string -> Q -> string ->
            SignalProcessor.world * Py.result bool)
    (bot_execution_id : Z) (w : SignalProcessor.world)
  : SignalProcessor.world * nat :=
  let db_positions :=
    List.filter (fun p => Z.eqb (Position.bot_execution_id p) bot_execution_id)
                (DB.positions (SignalProcessor.db w)) in
  fold_left (fun '(w, n) position => monitor_position_with sell w n position)
            db_positions (w, O).

(** The turn and the pass of the code as it is: the call in the sell
    branches is [self.signal_processor._execute_sell_order], which raises
    [AttributeError]; the [except Exception] of the turn catches it. *)
Definition monitor_position (w : SignalProcessor.world) (positions_closed : nat)
    (position : Position.t) : SignalProcessor.world * nat :=
  monitor_position_with SignalProcessor._execute_sell_order w positions_closed
    position.

(** [_monitor_positions] *)
Definition _monitor_positions (bot_execution_id : Z) (w : SignalProcessor.world)
  : SignalProcessor.world * nat :=
  _monitor_positions_with SignalProcessor._execute_sell_order bot_execution_id w.
End Monitor.

End TradingBot.

(* ===================================================================== *)
(** ** Tables of candles (pandas), as the strategies read them            *)
(* ===================================================================== *)
Module DataFrame.

(** A numeric cell; [None] is NaN. *)
Abbreviation cell := (option Q).

Record t : Type := mk {
  nrows : nat;
  cols : gmap string (list cell)
}.

Definition cmap2 (f : Q -> Q -> Q) (a b : cell) : cell :=
  match a, b with
  | Some x, Some y => Some (f x y)
  | _, _ => None
  end.
Definition cadd := cmap2 Qplus.
Definition csub := cmap2 Qminus.
Definition cmul := cmap2 Qmult.
Definition cdiv := cmap2 Qdiv.

(** Comparisons with NaN are false. *)
Definition cgt (a b : cell) : bool :=
  match a, b with
  | Some x, Some y => Py.gt x y
  | _, _ => false
  end.
Definition clt (a b : cell) : bool := cgt b a.

(** [df.empty] *)
Definition empty (df : t) : bool :=
  Nat.eqb (nrows df) 0 || bool_decide (cols df = ∅).

(** [df[name]] *)
Definition column (df : t) (name : string) : Py.result (list cell) :=
  match cols df !! name with
  | Some c => Py.Ok c
  | None => Py.Raise (Py.KeyError name)
  end.

(** [df[name] = values] *)
Definition set_column (name : string) (values : list cell) (df : t) : t :=
  mk (nrows df) (<[name := values]> (cols df)).

(** [df.iloc[-1].get(name, default)] *)
Definition latest_get (df : t) (name : string) (default : cell) : cell :=
  match cols df !! name with
  | Some c => List.last c None
  | None => default
  end.

(** [series.rolling(window).mean().iloc[-1]] *)
Definition rolling_mean_last (window : nat) (c : list cell) : cell :=
  if (length c <? window)%nat then None
  else
    let w := skipn (length c - window) c in
    match fold_right (fun x acc => cadd x acc) (Some 0) w with
    | Some s => Some (s / inject_Z (Z.of_nat window))
    | None => None
    end.

End DataFrame.

(* ===================================================================== *)
(** ** indicators.py                                                      *)
(* ===================================================================== *)
Module TechnicalIndicators.
Import DataFrame.

Section PandasTA.
(** The functions of [pandas_ta]; a result that is [None], or that has
    not the expected column names, is [None] here. *)
Variable ta_ema ta_sma ta_rsi : list cell -> nat -> list cell.
Variable ta_atr : list cell -> list cell -> list cell -> nat -> list cell.
Variable ta_macd : list cell -> option (list cell * list cell * list cell).
Variable ta_bbands : list cell -> option (list cell * list cell * list cell).
Variable ta_stoch :
  list cell -> list cell -> list cell -> option (list cell * list cell).

Definition add_rsi (df : t) (period : nat) : Py.result t :=
  let! close := column df "close" in
  Py.Ok (set_column "rsi" (ta_rsi close period) df).

Definition add_macd (df : t) : Py.result t :=
  let! close := column df "close" in
  match ta_macd close with
  | Some (m, s, h) =>
      Py.Ok (set_column "macd_histogram" h
               (set_column "macd_signal" s (set_column "macd" m df)))
  | None => Py.Ok df
  end.

(** [add_ema] and [add_sma]: one column per period, named
    [ema_<period>] or [sma_<period>]. *)
Fixpoint add_averages (ta : list cell -> nat -> list cell)
    (periods : list (string * nat)) (df : t) : Py.result t :=
  match periods with
  | [] => Py.Ok df
  | (name, period) :: rest =>
      let! close := column df "close" in
      add_averages ta rest (set_column name (ta close period) df)
  end.

Definition add_ema (df : t) (periods : list (string * nat)) : Py.result t :=
  add_averages ta_ema periods df.
Definition add_sma (df : t) (periods : list (string * nat)) : Py.result t :=
  add_averages ta_sma periods df.

Definition add_bollinger_bands (df : t) : Py.result t :=
  let! close := column df "close" in
  match ta_bbands close with
  | Some (l, m, u) =>
      Py.Ok (set_column "bb_upper" u
               (set_column "bb_middle" m (set_column "bb_lower" l df)))
  | None => Py.Ok df
  end.

(** [add_atr]: the column is named [atr]. *)
Definition add_atr (df : t) (period : nat) : Py.result t :=
  let! high := column df "high" in
  let! low := column df "low" in
  let! close := column df "close" in
  Py.Ok (set_column "atr" (ta_atr high low close period) df).

Definition add_stochastic (df : t) : Py.result t :=
  let! high := column df "high" in
  let! low := column df "low" in
  let! close := column df "close" in
  match ta_stoch high low close with
  | Some (k, d) => Py.Ok (set_column "stoch_d" d (set_column "stoch_k" k df))
  | None => Py.Ok df
  end.

Definition add_volume_sma (df : t) (period : nat) : Py.result t :=
  let! volume := column df "volume" in
  Py.Ok (set_column "volume_sma" (ta_sma volume period) df).

(** [add_all_indicators] *)
Definition add_all_indicators (df : t) : Py.result t :=
  if empty df || (nrows df <? 50)%nat then Py.Ok df
  else
    let! df := add_ema df [("ema_9", 9); ("ema_20", 20); ("ema_21", 21);
                           ("ema_50", 50); ("ema_200", 200)]%nat in
    let! df := add_sma df [("sma_20", 20); ("sma_50", 50); ("sma_200", 200)]%nat in
    let! df := add_rsi df 14 in
    let! df := add_macd df in
    let! df := add_stochastic df in
    let! df := add_bollinger_bands df in
    let! df := add_atr df 14 in
    add_volume_sma df 20.
End PandasTA.

End TechnicalIndicators.

(* ===================================================================== *)
(** ** strategies/marketplace/bollinger_breakout.py                       *)
(* ===================================================================== *)
Module BollingerBreakoutStrategy.
Import DataFrame.

(** The [TradingSignal] it builds; a level that is a number may be NaN. *)
Record signal : Type := mk_signal {
  signal_type : SignalType.t;
  confidence : Q;
  reason : list string;
  entry_price : Q;
  stop_loss : option cell;
  take_profit : option cell
}.

Definition volume_threshold : Q := 15 # 10.

Section Format.
(** [f"{x:.2f}"] and [f"{x:.1f}"] *)
Variable fmt2 fmt1 : cell -> string.

(** [analyze(symbol, data, current_price)]; [reason] is the list that
    the code joins with ["; "]. *)
Definition analyze (symbol : string) (data : gmap string DataFrame.t)
    (current_price : Q) : signal :=
  match data !! "1h" with
  | None =>
      mk_signal SignalType.HOLD 0 ["Insufficient data"] current_price None None
  | Some df =>
      if empty df || (nrows df <? 20)%nat
      then mk_signal SignalType.HOLD 0 ["Insufficient data"] current_price None None
      else
        let cp := Some current_price in
        let bb_upper := latest_get df "bb_upper" (Some (current_price * (102 # 100))) in
        let bb_lower := latest_get df "bb_lower" (Some (current_price * (98 # 100))) in
        let volume := latest_get df "volume" (Some 0) in
        let avg_volume :=
          match cols df !! "volume" with
          | Some c => rolling_mean_last 20 c
          | None => Some 1
          end in
        let volume_ratio :=
          if cgt avg_volume (Some 0) then cdiv volume avg_volume else Some 1 in
        let strong := cgt volume_ratio (Some volume_threshold) in
        let volume_reason :=
          if strong then "Strong volume: " ++ fmt1 volume_ratio ++ "x average"
          else "Weak volume: " ++ fmt1 volume_ratio ++ "x average" in
        let '(reasons, confidence, signal_type) :=
          if cgt cp bb_upper
          then (["Price broke above upper BB: $" ++ fmt2 cp ++ " > $" ++ fmt2 bb_upper;
                 volume_reason],
                if strong then 40 + 30 else 40 + 10,
                if strong then SignalType.BUY else SignalType.HOLD)
          else if clt cp bb_lower
          then (["Price broke below lower BB: $" ++ fmt2 cp ++ " < $" ++ fmt2 bb_lower;
                 volume_reason],
                if strong then 40 + 30 else 40 + 10,
                if strong then SignalType.SELL else SignalType.HOLD)
          else (["Price within Bollinger Bands"], 20, SignalType.HOLD) in
        let atr := latest_get df "atr_14" (Some (current_price * (2 # 100))) in
        let stop_loss :=
          match signal_type with
          | SignalType.BUY => Some (csub cp (cmul (Some 2) atr))
          | SignalType.SELL => Some (cadd cp (cmul (Some 2) atr))
          | SignalType.HOLD => None
          end in
        let take_profit :=
          match signal_type with
          | SignalType.BUY => Some (cadd cp (cmul (Some 3) atr))
          | SignalType.SELL => Some (csub cp (cmul (Some 3) atr))
          | SignalType.HOLD => None
          end in
        mk_signal signal_type confidence reasons current_price stop_loss take_profit
  end.
End Format.

End BollingerBreakoutStrategy.

(* ===================================================================== *)
(** ** wallet-service/main.py: [normalize_environment]                    *)
(* ===================================================================== *)
Module WalletService.

Definition production_aliases : list string :=
  ["production"; "prod"; "mainnet"; "live"].
Definition testnet_aliases : list string :=
  ["testnet"; "sandbox"; "demo"].

(** The dictionary, in the order of its items. *)
Definition SUPPORTED_ENVIRONMENTS : list (string * list string) :=
  [("production", production_aliases); ("testnet", testnet_aliases)].

(** The [for target, aliases in ...items()] loop. *)
Fixpoint find_target (normalized : string) (items : list (string * list string))
  : option string :=
  match items with
  | [] => None
  | (target, aliases) :: rest =>
      if String.eqb normalized target || PyStr.mem normalized aliases
      then Some target
      else find_target normalized rest
  end.

Definition unsupported : Py.PyExc :=
  Py.HTTPException 400 "Unsupported environment. Use 'production' or 'testnet'.".

Definition normalize_environment (value : option string) : Py.result string :=
  match value with
  | None => Py.Ok "production"
  | Some EmptyString => Py.Ok "production"
  | Some value =>
      let normalized := PyStr.lower (PyStr.strip value) in
      match find_target normalized SUPPORTED_ENVIRONMENTS with
      | Some target => Py.Ok target
      | None => Py.Raise unsupported
      end
  end.

End WalletService.

(* ===================================================================== *)
(** ** api_server.py: the in-memory log buffer and [GET /logs]            *)
(* ===================================================================== *)
Module ApiServer.

Record log_entry : Type := mk_log {
  timestamp : string;
  level : string;
  message : string;
  bot_execution_id : option Z
}.

Definition MAX_LOG_LINES : nat := 1000.

(** [a or b] on optional ids. *)
Definition or_id (a b : option Z) : option Z :=
  if Py.truthy_int a then a else b.

(** [bot_logs.append(log_entry)], then [pop(0)] above the limit. *)
Definition append_log (bot_logs : list log_entry) (entry : log_entry)
  : list log_entry :=
  let logs := (bot_logs ++ [entry])%list in
  if (MAX_LOG_LINES <? length logs)%nat then List.tl logs else logs.

(** [add_bot_log(level, message, bot_execution_id)] *)
Definition add_bot_log (bot_logs : list log_entry) (current_execution_id : option Z)
    (now : string) (level message : string) (bot_execution_id : option Z)
  : list log_entry :=
  append_log bot_logs
    (mk_log now level message (or_id bot_execution_id current_execution_id)).

(** [InMemoryLogHandler.emit(record)] for the handler of an execution. *)
Definition emit (handler_execution_id : option Z) (bot_logs : list log_entry)
    (current_execution_id : option Z) (now : string)
    (record_name levelname msg : string) : list log_entry :=
  if PyStr.mem record_name ["uvicorn"; "uvicorn.access"; "uvicorn.error"]
  then bot_logs
  else append_log bot_logs
         (mk_log now levelname msg (or_id handler_execution_id current_execution_id)).

(** [get_bot_logs(user_id)]: [user_id] is what [get_current_user_id]
    returned for the caller's token. *)
Definition get_bot_logs (user_id : Z) (bot_logs : list log_entry)
  : list log_entry :=
  List.filter (fun log => Py.truthy_int (bot_execution_id log)) bot_logs.

(** The user that owns an execution, from the [bot_executions] table. *)
Definition owner (d : DB.t) (execution_id : Z) : option Z :=
  match DB.first (fun b => Z.eqb (BotExecution.id b) execution_id)
                 (DB.bot_executions d) with
  | Some b => Some (BotExecution.user_id b)
  | None => None
  end.

End ApiServer.

(* ===================================================================== *)
(** ** Predicates of the statements, and the data of the examples         *)
(* ===================================================================== *)
Module Ledger.

(** [float(order.filled_quantity or 0)] *)
Definition filled_of (o : Order.t) : Q :=
  match Order.filled_quantity o with
  | Some f => f
  | None => 0
  end.

(** The filled quantity of an order does not exceed the requested one. *)
Definition within_quantity (o : Order.t) : Prop :=
  filled_of o <= Order.quantity o.

Definition orders_ok (d : DB.t) : Prop :=
  List.Forall within_quantity (DB.orders d).

(** An order is requested for a quantity that is not negative. *)
Definition requests_nonneg (x : TradingManager.t * Z * TradingManager.op) : Prop :=
  match x with
  | (_, _, TradingManager.Create _ _ _ _ quantity _) => 0 <= quantity
  | _ => True
  end.


(** A level (stop-loss, take-profit) that is a number equal to [q]. *)
Definition level_is (c : option DataFrame.cell) (q : Q) : Prop :=
  match c with
  | Some (Some x) => x == q
  | _ => False
  end.

(** A step of the indicator engine keeps the column [key] as it is. *)
Definition keeps (key : string) (f : DataFrame.t -> Py.result DataFrame.t) : Prop :=
  forall df df', f df = Py.Ok df' ->
                 DataFrame.cols df' !! key = DataFrame.cols df !! key.

End Ledger.

(** White space at the ends of a string. *)
Module Whitespace.

(** Every character is white space. *)
Fixpoint all_space (s : string) : bool :=
  match s with
  | EmptyString => true
  | String c r => PyStr.isspace c && all_space r
  end.

(** The first character is white space. *)
Definition starts_space (s : string) : bool :=
  match s with
  | EmptyString => false
  | String c _ => PyStr.isspace c
  end.

(** The last character is white space. *)
Fixpoint ends_space (s : string) : bool :=
  match s with
  | EmptyString => false
  | String c EmptyString => PyStr.isspace c
  | String _ r => ends_space r
  end.

End Whitespace.

Module Sample.

Definition tm : TradingManager.t := TradingManager.mk 1 7.

(** An order for 3, of which 2 are filled, priced 100. *)
Definition order_2_of_3 : Order.t :=
  Order.mk 1 1 7 "ORD-0123456789AB" "BTC/USDT" "BUY" "LIMIT" (Some 100) 3
           (Some 2) "PARTIALLY_FILLED" 10 None.

Definition db_2_of_3 : DB.t := DB.with_orders [order_2_of_3] DB.empty.

(** A run that requests 3, tries a partial fill of 5, then fills and
    cancels. *)
Definition ops_overfill : list (TradingManager.t * Z * TradingManager.op) :=
  [ (tm, 10%Z, TradingManager.Create "0123456789AB" "BTC/USDT" "BUY" "LIMIT" 3 (Some 100));
    (tm, 11%Z, TradingManager.PartialFill "ORD-0123456789AB" 5 101);
    (tm, 12%Z, TradingManager.Fill "ORD-0123456789AB" (Some 101) None None);
    (tm, 13%Z, TradingManager.Cancel "ORD-0123456789AB") ].



(** A position of 1 bought at 100, with stop-loss 95 and take-profit 110. *)
Definition position_1_at_100 : Position.t :=
  Position.mk 1 1 7 "BTC/USDT" 100 1 (Some 100) (Some 0) (Some 95) (Some 110) 10.

Definition db_position : DB.t := DB.with_positions [position_1_at_100] DB.empty.

(** Three positions of execution 1, one per symbol, with the same levels,
    and their latest prices: the first is at its stop-loss, the second at
    its take-profit, the third between its levels. *)
Definition position_eth : Position.t :=
  Position.mk 2 1 7 "ETH/USDT" 100 2 (Some 100) (Some 0) (Some 95) (Some 110) 10.

Definition position_sol : Position.t :=
  Position.mk 3 1 7 "SOL/USDT" 100 4 (Some 100) (Some 0) (Some 95) (Some 110) 10.

Definition db_three : DB.t :=
  DB.with_positions [position_1_at_100; position_eth; position_sol] DB.empty.

Definition latest_prices (symbol : string) : option Q :=
  if String.eqb symbol "BTC/USDT" then Some 95
  else if String.eqb symbol "ETH/USDT" then Some 110
  else Some (9501 # 100).

(** A venue with 1000 USDT that fills every market order at 100. *)
Definition balance (placed : list Exchange.request) : Q := 1000.
Definition venue (placed : list Exchange.request) (r : Exchange.request)
  : option Exchange.order :=
  Some (Exchange.mk_order (Some "42") (Some (Some 100))
          (Some (Exchange.req_amount r)) (Some (Exchange.req_amount r))
          (Some "closed")).

Definition processor : SignalProcessor.t :=
  SignalProcessor.init (Some 1%Z) (Some 7%Z).

Definition world0 : SignalProcessor.world :=
  SignalProcessor.mk_world
    (DB.with_bot_executions [BotExecution.mk 1 7 None] DB.empty) ∅ [].

Definition signal_hold : TradingSignal.t :=
  TradingSignal.mk SignalType.HOLD 90 "inside the bands" (Some 100) None None.
Definition signal_buy_49 : TradingSignal.t :=
  TradingSignal.mk SignalType.BUY 49 "breakout" (Some 100) (Some 95) (Some 110).
Definition signal_buy_50 : TradingSignal.t :=
  TradingSignal.mk SignalType.BUY 50 "breakout" (Some 100) (Some 95) (Some 110).

(** A sell helper that raises (the attribute does not exist). *)
Definition sell_helper_raises (w : SignalProcessor.world) (symbol : string)
    (current_price : Q) (reason : string)
  : SignalProcessor.world * Py.result bool :=
  (w, Py.Raise (Py.AttributeError "_execute_sell_order")).

(** Fifty 1h candles closing at 98, the last with ten times the volume. *)
Definition candles : DataFrame.t :=
  DataFrame.mk 50
    (list_to_map
       [ ("timestamp", List.map (fun n => Some (inject_Z (Z.of_nat n))) (seq 0 50));
         ("open", repeat (Some 98) 50);
         ("high", repeat (Some 101) 50);
         ("low", repeat (Some 96) 50);
         ("close", repeat (Some 98) 50);
         ("volume", (repeat (Some 10) 49 ++ [Some 100])%list) ]).

(** An indicator library for which the ATR of these candles is 5 and the
    Bollinger bands are 90, 95 and 99. *)
Definition ta_flat (c : list DataFrame.cell) (period : nat) : list DataFrame.cell :=
  List.map (fun _ => None) c.
Definition ta_atr_5 (high low close : list DataFrame.cell) (period : nat)
  : list DataFrame.cell :=
  List.map (fun _ => Some 5) close.
Definition ta_none3 (c : list DataFrame.cell)
  : option (list DataFrame.cell * list DataFrame.cell * list DataFrame.cell) :=
  None.
Definition ta_bands (c : list DataFrame.cell)
  : option (list DataFrame.cell * list DataFrame.cell * list DataFrame.cell) :=
  Some (List.map (fun _ => Some 90) c, List.map (fun _ => Some 95) c,
        List.map (fun _ => Some 99) c).
Definition ta_none2 (high low close : list DataFrame.cell)
  : option (list DataFrame.cell * list DataFrame.cell) :=
  None.

Definition add_all_indicators : DataFrame.t -> Py.result DataFrame.t :=
  TechnicalIndicators.add_all_indicators ta_flat ta_flat ta_flat ta_atr_5
    ta_none3 ta_bands ta_none2.

Definition fmt (c : DataFrame.cell) : string := "?".

(** A buffer with a line of execution 1 (of user 7) and a line of no
    execution. *)
Definition log_of_user_7 : ApiServer.log_entry :=
  ApiServer.mk_log "2026-01-01T00:00:00+00:00" "INFO" "Opened position: BTC/USDT"
                   (Some 1%Z).
Definition log_of_system : ApiServer.log_entry :=
  ApiServer.mk_log "2026-01-01T00:00:01+00:00" "INFO" "Started server process" None.
Definition bot_logs : list ApiServer.log_entry := [log_of_user_7; log_of_system].

End Sample.

(* ===================================================================== *)
(** ** Keys of the tables                                                 *)
(* ===================================================================== *)
Module Books.

(** The exchange order ids of the order table, in row order. *)
Definition order_ids (d : DB.t) : list string :=
  List.map Order.order_id (DB.orders d).

(** What [_open_position] and [_close_position] look a position up by. *)
Definition position_key (p : Position.t) : Z * string :=
  (Position.bot_execution_id p, Position.symbol p).

Definition position_keys (d : DB.t) : list (Z * string) :=
  List.map position_key (DB.positions d).

End Books.

(* ===================================================================== *)
(** ** Further data of the examples                                       *)
(* ===================================================================== *)
Module Scenario.

(** A venue that answers nothing, and one whose answers carry the key
    [price] with [None] (a market order that is not priced yet). *)
Definition venue_down (placed : list Exchange.request) (r : Exchange.request)
  : option Exchange.order := None.

Definition unpriced_order : Exchange.order :=
  Exchange.mk_order (Some "43") (Some None) (Some 1) (Some 0) (Some "open").

Definition venue_unpriced (placed : list Exchange.request) (r : Exchange.request)
  : option Exchange.order := Some unpriced_order.

Definition signal_sell_90 : TradingSignal.t :=
  TradingSignal.mk SignalType.SELL 90 "breakdown" (Some 100) (Some 105) (Some 90).

Definition signal_buy_no_price : TradingSignal.t :=
  TradingSignal.mk SignalType.BUY 90 "breakout" None None None.

(** A position without stop-loss and take-profit, and a sell helper that
    reports success. *)
Definition position_plain : Position.t :=
  Position.mk 1 1 7 "BTC/USDT" 100 1 (Some 100) (Some 0) None None 10.

Definition world_plain : SignalProcessor.world :=
  SignalProcessor.mk_world (DB.with_positions [position_plain] DB.empty) ∅ [].

Definition sell_helper_succeeds (w : SignalProcessor.world) (symbol : string)
    (current_price : Q) (reason : string)
  : SignalProcessor.world * Py.result bool :=
  (w, Py.Ok true).

(** Thirty candles, too few for the engine. *)
Definition few_candles : DataFrame.t :=
  DataFrame.mk 30
    (list_to_map
       [ ("open", repeat (Some 98) 30); ("high", repeat (Some 101) 30);
         ("low", repeat (Some 96) 30); ("close", repeat (Some 98) 30);
         ("volume", (repeat (Some 10) 29 ++ [Some 100])%list) ]).

End Scenario.

(* ===================================================================== *)
(** ** strategies/user_created/custom_scalping_user3.py                   *)
(* ===================================================================== *)
Module CustomScalpingStrategy.
Import DataFrame.

(** [df.iloc[-2].get(name, default)] *)
Definition previous_get (df : DataFrame.t) (name : string) (default : option Q)
  : option Q :=
  match cols df !! name with
  | Some c => match List.rev c with
              | _ :: x :: _ => x
              | _ => None
              end
  | None => default
  end.

(** [a <= b] and [a >= b] on cells; comparisons with NaN are false. *)
Definition cle (a b : option Q) : bool :=
  match a, b with
  | Some x, Some y => Py.le x y
  | _, _ => false
  end.
Definition cge (a b : option Q) : bool := cle b a.

Definition rsi_buy : Q := 40.
Definition rsi_sell : Q := 60.

Section Format.
(** [f"{x:.2f}"] and [f"{x:.1f}"] *)
Variable fmt2 fmt1 : option Q -> string.

(** [analyze(symbol, data, current_price)]; the signal has the shape of
    the one of the Bollinger strategy, and [reason] is the list that the
    code joins with ["; "]. *)
Definition analyze (symbol : string) (data : gmap string DataFrame.t)
    (current_price : Q) : BollingerBreakoutStrategy.signal :=
  match data !! "15m" with
  | None =>
      BollingerBreakoutStrategy.mk_signal SignalType.HOLD 0 ["Insufficient data"]
        current_price None None
  | Some df =>
      if empty df || (nrows df <? 2)%nat
      then BollingerBreakoutStrategy.mk_signal SignalType.HOLD 0
             ["Insufficient data"] current_price None None
      else
        let rsi := latest_get df "rsi_14" (Some 50) in
        let macd := latest_get df "macd" (Some 0) in
        let macd_signal := latest_get df "macd_signal" (Some 0) in
        let prev_macd := previous_get df "macd" (Some 0) in
        let prev_signal := previous_get df "macd_signal" (Some 0) in
        let volume := latest_get df "volume" (Some 0) in
        let avg_volume :=
          match cols df !! "volume" with
          | Some c => rolling_mean_last 10 c
          | None => Some 1
          end in
        let volume_ratio :=
          if cgt avg_volume (Some 0) then cdiv volume avg_volume else Some 1 in
        let good := cgt volume_ratio (Some (12 # 10)) in
        let volume_reasons :=
          if good then ["Good volume: " ++ fmt1 volume_ratio ++ "x"] else [] in
        let '(reasons, confidence, signal_type) :=
          if clt rsi (Some rsi_buy) && cle prev_macd prev_signal
             && cgt macd macd_signal
          then (("RSI oversold: " ++ fmt1 rsi) :: "MACD bullish crossover"
                  :: volume_reasons,
                if good then 50 + 20 else 50,
                if good then SignalType.BUY else SignalType.HOLD)
          else if cgt rsi (Some rsi_sell) && cge prev_macd prev_signal
                  && clt macd macd_signal
          then (("RSI overbought: " ++ fmt1 rsi) :: "MACD bearish crossover"
                  :: volume_reasons,
                if good then 50 + 20 else 50,
                if good then SignalType.SELL else SignalType.HOLD)
          else (["RSI: " ++ fmt1 rsi ++ ", MACD: " ++ fmt2 macd], 25,
                SignalType.HOLD) in
        let stop_loss :=
          match signal_type with
          | SignalType.BUY => Some (Some (current_price * (995 # 1000)))
          | SignalType.SELL => Some (Some (current_price * (1005 # 1000)))
          | SignalType.HOLD => None
          end in
        let take_profit :=
          match signal_type with
          | SignalType.BUY => Some (Some (current_price * (101 # 100)))
          | SignalType.SELL => Some (Some (current_price * (99 # 100)))
          | SignalType.HOLD => None
          end in
        BollingerBreakoutStrategy.mk_signal signal_type confidence reasons
          current_price stop_loss take_profit
  end.
End Format.

End CustomScalpingStrategy.

(* ===================================================================== *)
(** ** Column names of the indicator engine                               *)
(* ===================================================================== *)
Module Engine.

(** The names under which [add_all_indicators] writes. *)
Definition indicator_columns : list string :=
  ["ema_9"; "ema_20"; "ema_21"; "ema_50"; "ema_200";
   "sma_20"; "sma_50"; "sma_200";
   "rsi"; "macd"; "macd_signal"; "macd_histogram";
   "stoch_k"; "stoch_d";
   "bb_lower"; "bb_middle"; "bb_upper";
   "atr"; "volume_sma"].

(** What a step of the engine leaves alone: the number of rows and every
    column that is not one of [names]. *)
Definition step_writes (names : list string)
    (f : DataFrame.t -> Py.result DataFrame.t) : Prop :=
  forall df df', f df = Py.Ok df' ->
    DataFrame.nrows df' = DataFrame.nrows df
    /\ forall key, ~ List.In key names ->
                   DataFrame.cols df' !! key = DataFrame.cols df !! key.

End Engine.

(* ===================================================================== *)
(** ** exchange_manager.py: candles and simulated fills                   *)
(* ===================================================================== *)
Module ExchangeManager.

(** A fill event of [_simulate_partial_fills]. *)
Record fill : Type := mk_fill {
  amount : Q;
  price : Q;
  cost : Q;
  timestamp : Z;
  fee : Q
}.

(** [range(n)] *)
Definition range (n : Z) : list Z :=
  List.map Z.of_nat (List.seq 0 (Z.to_nat n)).

Section Clock.
(** [int(time.time() * 1000)] as read in turn [i] of the loop. *)
Variable now_ms : Z -> Z.

(** The body of the loop of [_simulate_partial_fills] for the index [i],
    on the pair of [remaining] and [fills]. *)
Definition fill_turn (side : string) (base_price : Q) (num_fills : Z)
    (st : Q * list fill) (i : Z) : Py.result (Q * list fill) :=
  let '(remaining, fills) := st in
  let! amounts :=
    if (i =? num_fills - 1)%Z then Py.Ok (remaining, remaining)
    else
      let! base_portion := Py.div remaining (inject_Z (num_fills - i)) in
      let fill_amount := base_portion * ((8 # 10) + inject_Z i * (1 # 10)) in
      Py.Ok (fill_amount, remaining - fill_amount) in
  let '(fill_amount, remaining) := amounts in
  let slippage :=
    if String.eqb side "buy" then 1 + inject_Z i * (3 # 10000)
    else 1 - inject_Z i * (3 # 10000) in
  let fill_price := base_price * slippage in
  Py.Ok (remaining,
         (fills ++ [mk_fill fill_amount fill_price (fill_amount * fill_price)
                      (now_ms i + i * 100)
                      (fill_amount * fill_price * (1 # 1000))])%list).

(** [for i in ...] *)
Fixpoint fill_loop (side : string) (base_price : Q) (num_fills : Z)
    (indices : list Z) (st : Q * list fill) : Py.result (Q * list fill) :=
  match indices with
  | [] => Py.Ok st
  | i :: rest =>
      let! st' := fill_turn side base_price num_fills st i in
      fill_loop side base_price num_fills rest st'
  end.

(** [_simulate_partial_fills(symbol, side, amount, base_price, num_fills)] *)
Definition _simulate_partial_fills (symbol side : string)
    (amount base_price : Q) (num_fills : Z) : Py.result (list fill) :=
  let! st := fill_loop side base_price num_fills (range num_fills)
               (amount, []) in
  Py.Ok (snd st).
End Clock.

(** The sum of the amounts of a list of fills. *)
Definition total_amount (fills : list fill) : Q :=
  List.fold_right (fun f acc => amount f + acc) 0 fills.

(** Cost and fee of a fill follow from its amount and price. *)
Definition priced (f : fill) : Prop :=
  cost f == amount f * price f /\ fee f == cost f * (1 # 1000).

(** The share of [remaining] that a turn before the last one leaves, and
    the share left after the turns [indices]. *)
Definition left_share (num_fills i : Z) : Q :=
  1 - ((8 # 10) + inject_Z i * (1 # 10)) / inject_Z (num_fills - i).

Definition left_after (num_fills : Z) (indices : list Z) : Q :=
  List.fold_right (fun i acc => left_share num_fills i * acc) 1 indices.

Section Mainnet.
Context {candle : Type}.
(** [self.mainnet.fetch_ohlcv(symbol, timeframe, limit)] of ccxt; [calls]
    is the number of requests made before this one. *)
Variable mainnet_fetch_ohlcv :
  nat -> string -> string -> Z -> Py.result (option (list candle)).

(** [fetch_ohlcv(symbol, timeframe, limit)] *)
Definition fetch_ohlcv (calls : nat) (symbol timeframe : string) (limit : Z)
  : option (list candle) :=
  match mainnet_fetch_ohlcv calls symbol timeframe limit with
  | Py.Ok (Some candles) =>
      match candles with
      | [] => Some candles
      | _ :: _ => Some (List.removelast candles)
      end
  | Py.Ok None => None
  | Py.Raise _ => None
  end.
End Mainnet.

End ExchangeManager.

(* ===================================================================== *)
(** ** data_fetcher.py                                                    *)
(* ===================================================================== *)
Module DataFetcher.

Section Fetch.
Context {candle : Type}.
Variable mainnet_fetch_ohlcv :
  nat -> string -> string -> Z -> Py.result (option (list candle)).
(** [_convert_to_dataframe(candles)], the conversion by pandas. *)
Variable _convert_to_dataframe : list candle -> Py.result DataFrame.t.

(** The body of the loop of [fetch_multi_timeframe_data].  The frame is
    stored before the debug line is written, so an exception there leaves
    it in [data]. *)
Definition fetch_turn (symbol : string) (limit : Z) (calls : nat)
    (data : gmap string DataFrame.t) (timeframe : string)
  : gmap string DataFrame.t :=
  match ExchangeManager.fetch_ohlcv mainnet_fetch_ohlcv calls symbol timeframe
          limit with
  | Some (c :: candles) =>
      match _convert_to_dataframe (c :: candles) with
      | Py.Ok df => <[ timeframe := df ]> data
      | Py.Raise _ => data
      end
  | _ => data
  end.

Fixpoint fetch_loop (symbol : string) (limit : Z) (calls : nat)
    (timeframes : list string) (data : gmap string DataFrame.t)
  : gmap string DataFrame.t :=
  match timeframes with
  | [] => data
  | timeframe :: rest =>
      fetch_loop symbol limit (S calls) rest
        (fetch_turn symbol limit calls data timeframe)
  end.

(** [fetch_multi_timeframe_data(symbol, timeframes, limit)] *)
Definition fetch_multi_timeframe_data (symbol : string)
    (timeframes : list string) (limit : Z) : gmap string DataFrame.t :=
  fetch_loop symbol limit 0 timeframes ∅.
End Fetch.

End DataFetcher.

(* ===================================================================== *)
(** ** The log buffer over a sequence of calls                            *)
(* ===================================================================== *)
Module LogBuffer.
Import ApiServer.

(** A call that may write to [bot_logs]: [add_bot_log], or [emit] of a
    handler.  [current_execution_id] is the value of the global at the time
    of the call. *)
Inductive call : Type :=
| Add (current_execution_id : option Z) (now level message : string)
      (bot_execution_id : option Z)
| Emit (handler_execution_id current_execution_id : option Z)
       (now record_name levelname msg : string).

Definition step (bot_logs : list log_entry) (c : call) : list log_entry :=
  match c with
  | Add current now level message bot_execution_id =>
      add_bot_log bot_logs current now level message bot_execution_id
  | Emit handler current now record_name levelname msg =>
      emit handler bot_logs current now record_name levelname msg
  end.

Definition run (bot_logs : list log_entry) (calls : list call)
  : list log_entry :=
  List.fold_left step calls bot_logs.

(** The entry that a call hands to the buffer, if any. *)
Definition written (c : call) : list log_entry :=
  match c with
  | Add current now level message bot_execution_id =>
      [mk_log now level message (or_id bot_execution_id current)]
  | Emit handler current now record_name levelname msg =>
      if PyStr.mem record_name ["uvicorn"; "uvicorn.access"; "uvicorn.error"]
      then []
      else [mk_log now levelname msg (or_id handler current)]
  end.

(** The last [n] elements of a list. *)
Definition newest {A : Type} (n : nat) (l : list A) : list A :=
  List.skipn (length l - n) l.

End LogBuffer.

(* ===================================================================== *)
(** ** A candle feed for the examples                                     *)
(* ===================================================================== *)
Module Feed.

(** A feed that answers every request with three candles (their closing
    prices), and a conversion that keeps them as the [close] column. *)
Definition venue (calls : nat) (symbol timeframe : string) (limit : Z)
  : Py.result (option (list Q)) :=
  Py.Ok (Some [98; 99; 100]).

Definition convert (candles : list Q) : Py.result DataFrame.t :=
  Py.Ok (DataFrame.mk (length candles)
           {[ "close" := List.map Some candles ]}).

End Feed.

(* ===================================================================== *)
(** * Properties                                                          *)
(* ===================================================================== *)

(** ** Python comparisons and truthiness                                  *)

Lemma py_le_true (a b : Q) : Py.le a b = true <-> a <= b.
Proof. unfold Py.le. apply Qle_bool_iff. Qed.

Lemma py_ge_true (a b : Q) : Py.ge a b = true <-> b <= a.
Proof. unfold Py.ge. apply Qle_bool_iff. Qed.

Lemma py_gt_true (a b : Q) : Py.gt a b = true <-> b < a.
Proof.
  unfold Py.gt. rewrite negb_true_iff, <- not_true_iff_false, Qle_bool_iff.
  split; [apply Qnot_le_lt | apply Qlt_not_le].
Qed.

Lemma py_lt_true (a b : Q) : Py.lt a b = true <-> a < b.
Proof.
  unfold Py.lt. rewrite negb_true_iff, <- not_true_iff_false, Qle_bool_iff.
  split; [apply Qnot_le_lt | apply Qlt_not_le].
Qed.

Lemma py_truthy_Some (q : Q) : Py.truthy (Some q) = true <-> ~ q == 0.
Proof.
  simpl. rewrite negb_true_iff, <- not_true_iff_false, Qeq_bool_iff. tauto.
Qed.

Lemma py_div_ok (a b : Q) : ~ b == 0 -> Py.div a b = Py.Ok (a / b).
Proof.
  intros H. unfold Py.div.
  destruct (Qeq_bool b 0) eqn:E; [|reflexivity].
  apply Qeq_bool_iff in E. contradiction.
Qed.

Lemma py_div_zero (a b : Q) : b == 0 -> Py.div a b = Py.Raise Py.ZeroDivisionError.
Proof.
  intros H. unfold Py.div. apply Qeq_bool_iff in H. rewrite H. reflexivity.
Qed.

(** ** Queries and updates of a table                                     *)
Section Tables.
Context {A : Type}.
Variable p : A -> bool.

Lemma first_In (l : list A) (x : A) :
  DB.first p l = Some x -> List.In x l /\ p x = true.
Proof. unfold DB.first. apply List.find_some. Qed.

Lemma first_update_first (f : A -> A) (l : list A) (x : A) :
  DB.first p l = Some x -> p (f x) = true ->
  DB.first p (DB.update_first p f l) = Some (f x).
Proof.
  unfold DB.first. induction l as [|y r IH]; simpl; [discriminate|].
  destruct (p y) eqn:E; intros H Hf.
  - injection H as ->. simpl. rewrite Hf. reflexivity.
  - simpl. rewrite E. apply IH; assumption.
Qed.

Lemma update_first_length (f : A -> A) (l : list A) :
  length (DB.update_first p f l) = length l.
Proof.
  induction l as [|y r IH]; simpl; [reflexivity|].
  destruct (p y); simpl; congruence.
Qed.

Lemma Forall_update_first (P : A -> Prop) (f : A -> A) (l : list A) :
  List.Forall P l -> (forall x, P x -> p x = true -> P (f x)) ->
  List.Forall P (DB.update_first p f l).
Proof.
  intros H Hf. induction H as [|y r Hy Hr IH]; simpl; [constructor|].
  destruct (p y) eqn:E; constructor; auto.
Qed.

Lemma delete_first_length (l : list A) (x : A) :
  DB.first p l = Some x -> S (length (DB.delete_first p l)) = length l.
Proof.
  unfold DB.first. induction l as [|y r IH]; simpl; [discriminate|].
  destruct (p y); intros H; simpl; [reflexivity|].
  rewrite IH; auto.
Qed.
End Tables.

(** ** [partial_fill] (C1)                                                *)

(** The read of [order.average_price] on the instance that the query
    loaded raises, whatever the row and the fill. *)
Lemma partial_fill_try_raises (o : Order.t) (now : Z) (q p : Q) :
  exists e, TradingManager.partial_fill_try (Order.load o) now q p = Py.Raise e.
Proof.
  unfold TradingManager.partial_fill_try.
  destruct (Py.float _) as [pf|e]; simpl; eauto.
Qed.

(** So [partial_fill] returns [False] and commits nothing. *)
Lemma partial_fill_inert (self : TradingManager.t) (d : DB.t) (now : Z)
    (order_id : string) (q p : Q) :
  TradingManager.partial_fill self d now order_id q p = (d, false).
Proof.
  unfold TradingManager.partial_fill.
  destruct (DB.first _ _) as [o|]; [|reflexivity].
  destruct (partial_fill_try_raises o now q p) as [e ->]. reflexivity.
Qed.

(** What lines 85-111 compute once both reads have succeeded: the weighted
    average, the sum, and the status by [new_filled >= quantity]. *)
Lemma partial_fill_update_spec (order : Order.instance) (now : Z)
    (previous_filled previous_avg_price filled_quantity filled_price : Q) :
  ~ previous_filled + filled_quantity == 0 ->
  exists order' is_complete,
    TradingManager.partial_fill_update order now previous_filled
      previous_avg_price filled_quantity filled_price
    = Py.Ok (order', is_complete)
    /\ Order.filled_quantity (Order.row order')
       = Some (previous_filled + filled_quantity)
    /\ Order.average_price order'
       = Some (Some ((previous_filled * previous_avg_price
                      + filled_quantity * filled_price)
                     / (previous_filled + filled_quantity)))
    /\ (is_complete = true
        <-> Order.quantity (Order.row order) <= previous_filled + filled_quantity)
    /\ Order.status (Order.row order')
       = (if is_complete then "FILLED" else "PARTIALLY_FILLED").
Proof.
  intros Hnz. unfold TradingManager.partial_fill_update.
  rewrite (py_div_ok _ _ Hnz). simpl.
  eexists _, _. split; [reflexivity|].
  destruct (Py.ge _ _) eqn:E; simpl; repeat split; try reflexivity;
    try (intros _; apply py_ge_true in E; exact E);
    try (intros H; apply py_ge_true in H; congruence);
    try discriminate.
Qed.

(** C1 (the code at the input of the claim): an order for 3 with 2 filled
    and price 100 receives a partial fill of 1 at 106.  The claim gives
    average price 102, filled quantity 3 and status FILLED; the code
    raises on the read of [order.average_price], which [Order] does not
    declare, rolls back and returns [False]: the row keeps filled quantity
    2 and its status. *)
Theorem C1_partial_fill_aborts_on_average_price :
  TradingManager.partial_fill Sample.tm Sample.db_2_of_3 11
    "ORD-0123456789AB" 1 106 = (Sample.db_2_of_3, false)
  /\ TradingManager.partial_fill_try (Order.load Sample.order_2_of_3) 11 1 106
     = Py.Raise (Py.AttributeError "average_price")
  /\ DB.orders Sample.db_2_of_3 = [Sample.order_2_of_3]
  /\ Order.filled_quantity Sample.order_2_of_3 = Some 2
  /\ Order.status Sample.order_2_of_3 = "PARTIALLY_FILLED".
Proof. repeat split; reflexivity. Qed.

(** ** The order ledger (C2)                                              *)

Lemma open_position_orders (self : TradingManager.t) (d d' : DB.t) (now : Z)
    (symbol : string) (ep : option Q) (q : Q) (sl tp : option Q) :
  TradingManager._open_position self d now symbol ep q sl tp = Py.Ok d' ->
  DB.orders d' = DB.orders d.
Proof.
  unfold TradingManager._open_position.
  destruct (DB.first _ _) as [position|]; destruct ep as [e|]; simpl;
    try discriminate.
  - destruct (Py.div _ _); simpl; [|discriminate].
    intros H; injection H as <-. reflexivity.
  - intros H; injection H as <-. reflexivity.
Qed.

Lemma close_position_orders (self : TradingManager.t) (d d' : DB.t) (now : Z)
    (symbol : string) (xp : option Q) (q : Q) :
  TradingManager._close_position self d now symbol xp q = Py.Ok d' ->
  DB.orders d' = DB.orders d.
Proof.
  unfold TradingManager._close_position.
  destruct (DB.first _ _) as [position|].
  - destruct xp as [x|]; simpl; [|discriminate].
    destruct (Py.ge _ _); intros H; injection H as <-; reflexivity.
  - intros H; injection H as <-. reflexivity.
Qed.

Lemma fill_order_try_order (self : TradingManager.t) (d d' : DB.t) (now : Z)
    (o : Order.t) (fp sl tp : option Q) (order : Order.instance) :
  TradingManager.fill_order_try self d now o fp sl tp = Py.Ok (order, d') ->
  DB.orders d' = DB.orders d
  /\ Order.filled_quantity (Order.row order) = Some (Order.quantity o)
  /\ Order.quantity (Order.row order) = Order.quantity o
  /\ Order.status (Order.row order) = "FILLED".
Proof.
  unfold TradingManager.fill_order_try.
  destruct (Py.truthy fp); simpl.
  - destruct (String.eqb _ _).
    + destruct (TradingManager._open_position _ _ _ _ _ _ _ _) as [d1|] eqn:E;
        simpl; [|discriminate].
      intros H; injection H as <- <-. apply open_position_orders in E. auto.
    + destruct (String.eqb _ _).
      * destruct (TradingManager._close_position _ _ _ _ _ _) as [d1|] eqn:E;
          simpl; [|discriminate].
        intros H; injection H as <- <-. apply close_position_orders in E. auto.
      * simpl. intros H; injection H as <- <-. auto.
  - destruct (String.eqb _ _).
    + destruct (TradingManager._open_position _ _ _ _ _ _ _ _) as [d1|] eqn:E;
        simpl; [|discriminate].
      intros H; injection H as <- <-. apply open_position_orders in E. auto.
    + destruct (String.eqb _ _).
      * destruct (TradingManager._close_position _ _ _ _ _ _) as [d1|] eqn:E;
          simpl; [|discriminate].
        intros H; injection H as <- <-. apply close_position_orders in E. auto.
      * simpl. intros H; injection H as <- <-. auto.
Qed.

Lemma step_preserves_orders_ok (self : TradingManager.t) (now : Z) (d : DB.t)
    (o : TradingManager.op) :
  Ledger.orders_ok d -> Ledger.requests_nonneg (self, now, o) ->
  Ledger.orders_ok (TradingManager.step self now d o).
Proof.
  unfold Ledger.orders_ok. intros Hd Hq.
  destruct o as [u sy si ty q p|oid q p|oid p sl tp|oid]; simpl.
  - unfold TradingManager.create_order.
    destruct (existsb _ _); simpl; [assumption|].
    apply List.Forall_app. split; [assumption|].
    constructor; [|constructor]. exact Hq.
  - rewrite partial_fill_inert. assumption.
  - unfold TradingManager.fill_order.
    destruct (DB.first _ _) as [o|]; [|assumption].
    destruct (TradingManager.fill_order_try _ _ _ _ _ _ _) as [[order d']|] eqn:E;
      [|assumption].
    apply fill_order_try_order in E. destruct E as (Ho & Hf & Hqty & _).
    simpl. rewrite Ho. apply Forall_update_first; [assumption|].
    intros x _ _. unfold Ledger.within_quantity, Ledger.filled_of.
    rewrite Hf, Hqty. apply Qle_refl.
  - unfold TradingManager.cancel_order.
    destruct (DB.first _ _); [|assumption].
    simpl. apply Forall_update_first; [assumption|].
    intros x Hx _. exact Hx.
Qed.

(** From a database whose orders are within their quantity, every run of
    create, partial-fill, fill and cancel operations that requests
    quantities that are not negative leaves every order with
    [filled_quantity <= quantity].  As the code is, a partial fill changes
    nothing at all ([partial_fill_inert]). *)
Lemma run_preserves_orders_ok (d : DB.t)
    (ops : list (TradingManager.t * Z * TradingManager.op)) :
  Ledger.orders_ok d ->
  List.Forall Ledger.requests_nonneg ops ->
  Ledger.orders_ok (TradingManager.run d ops).
Proof.
  unfold TradingManager.run. intros Hd Hops. revert d Hd.
  induction Hops as [|[[self now] o] r Ho Hr IH]; intros d Hd; simpl.
  - assumption.
  - apply IH. apply step_preserves_orders_ok; assumption.
Qed.




(** With partial fills in the run the bound survives as well, for the
    reason of C1: the oversized fill of 5 on an order for 3 is not
    committed. *)
Example run_with_oversized_partial_fill :
  List.map Order.filled_quantity
    (DB.orders (TradingManager.run DB.empty
                  (List.firstn 2 Sample.ops_overfill)))
  = [Some 0].
Proof. reflexivity. Qed.

(** Lines 85-93 on their own add the incremental quantity without a bound:
    with 2 of 3 filled, a fill of 5 gives 7. *)
Example partial_fill_update_adds_unbounded :
  exists order' c,
    TradingManager.partial_fill_update
      (Order.set_average_price (Some 100) (Order.load Sample.order_2_of_3))
      11 2 100 5 101 = Py.Ok (order', c)
    /\ Order.filled_quantity (Order.row order') = Some (2 + 5)
    /\ Order.quantity (Order.row order') = 3.
Proof. eexists _, _. repeat split. Qed.
(** ** Positions and the trade ledger (C3, C4, C10)                       *)

Lemma delete_first_split {A : Type} (p : A -> bool) (l : list A) (x : A) :
  DB.first p l = Some x ->
  exists l1 l2, l = (l1 ++ x :: l2)%list /\ DB.delete_first p l = (l1 ++ l2)%list.
Proof.
  unfold DB.first. induction l as [|y r IH]; simpl; [discriminate|].
  destruct (p y) eqn:E; intros H.
  - injection H as ->. exists [], r. split; reflexivity.
  - destruct (IH H) as (l1 & l2 & -> & ->).
    exists (y :: l1), l2. split; reflexivity.
Qed.

Lemma position_of_with_entry (self : TradingManager.t) (symbol : string)
    (ep q : Q) (position : Position.t) :
  TradingManager.position_of self symbol (Position.with_entry ep q position)
  = TradingManager.position_of self symbol position.
Proof. reflexivity. Qed.

(** C3: a BUY fill of [quantity] at [entry_price].  When the execution has
    a position for the symbol, the position gets the quantity-weighted
    average of its entry price and the fill price and the sum of the
    quantities, and keeps its stop-loss and take-profit; the table keeps
    its length.  When it has none, a position is added with the price,
    quantity, stop-loss and take-profit of the fill. *)
Theorem C3_open_position_merges_or_creates (self : TradingManager.t) (d : DB.t)
    (now : Z) (symbol : string) (entry_price quantity : Q)
    (stop_loss take_profit : option Q) :
  (forall position,
      DB.first (TradingManager.position_of self symbol) (DB.positions d)
      = Some position ->
      ~ Position.quantity position + quantity == 0 ->
      exists d' position',
        TradingManager._open_position self d now symbol (Some entry_price)
          quantity stop_loss take_profit = Py.Ok d'
        /\ DB.first (TradingManager.position_of self symbol) (DB.positions d')
           = Some position'
        /\ Position.entry_price position'
           == (Position.entry_price position * Position.quantity position
               + entry_price * quantity)
              / (Position.quantity position + quantity)
        /\ Position.quantity position' == Position.quantity position + quantity
        /\ Position.stop_loss position' = Position.stop_loss position
        /\ Position.take_profit position' = Position.take_profit position
        /\ length (DB.positions d') = length (DB.positions d))
  /\ (DB.first (TradingManager.position_of self symbol) (DB.positions d) = None ->
      exists d' position',
        TradingManager._open_position self d now symbol (Some entry_price)
          quantity stop_loss take_profit = Py.Ok d'
        /\ DB.positions d' = (DB.positions d ++ [position'])%list
        /\ Position.bot_execution_id position' = TradingManager.bot_execution_id self
        /\ Position.symbol position' = symbol
        /\ Position.entry_price position' = entry_price
        /\ Position.quantity position' = quantity
        /\ Position.stop_loss position' = stop_loss
        /\ Position.take_profit position' = take_profit).
Proof.
  split.
  - intros position Hfirst Hnz.
    unfold TradingManager._open_position. rewrite Hfirst. simpl.
    rewrite (py_div_ok _ _ Hnz). simpl.
    eexists _, _. split; [reflexivity|]. simpl.
    split.
    { apply first_update_first; [exact Hfirst|].
      rewrite position_of_with_entry. apply (first_In _ _ _ Hfirst). }
    simpl. repeat split; try reflexivity.
    apply update_first_length.
  - intros Hnone. unfold TradingManager._open_position. rewrite Hnone. simpl.
    eexists _, _. repeat split.
Qed.

Lemma C3_open_position_merges_or_creates_witness :
  (exists d' position',
      TradingManager._open_position Sample.tm Sample.db_position 11 "BTC/USDT"
        (Some 110) 1 None None = Py.Ok d'
      /\ DB.first (TradingManager.position_of Sample.tm "BTC/USDT")
                  (DB.positions d') = Some position'
      /\ Position.entry_price position' == 105
      /\ Position.quantity position' == 2
      /\ Position.stop_loss position' = Some 95
      /\ Position.take_profit position' = Some 110
      /\ length (DB.positions d') = 1%nat)
  /\ (exists d' position',
         TradingManager._open_position Sample.tm DB.empty 10 "BTC/USDT"
           (Some 100) 1 (Some 95) (Some 110) = Py.Ok d'
         /\ DB.positions d' = [position']
         /\ Position.entry_price position' = 100
         /\ Position.quantity position' = 1).
Proof.
  destruct (C3_open_position_merges_or_creates Sample.tm Sample.db_position 11
              "BTC/USDT" 110 1 None None) as [Hmerge _].
  destruct (C3_open_position_merges_or_creates Sample.tm DB.empty 10
              "BTC/USDT" 100 1 (Some 95) (Some 110)) as [_ Hnew].
  split.
  - destruct (Hmerge Sample.position_1_at_100 eq_refl)
      as (d' & p' & H & Hf & He & Hq & Hsl & Htp & Hlen).
    + vm_compute. discriminate.
    + exists d', p'.
      split; [exact H|]. split; [exact Hf|].
      split; [rewrite He; vm_compute; reflexivity|].
      split; [rewrite Hq; vm_compute; reflexivity|].
      split; [exact Hsl|]. split; [exact Htp|]. exact Hlen.
  - destruct (Hnew eq_refl) as (d' & p' & H & Hp & _ & _ & He & Hq & _).
    exists d', p'. repeat split; assumption.
Defined.

(** The spec's scenario through [fill_order]: buy 1 at 100, then 1 at 110. *)
Example fill_order_buy_twice :
  exists position,
    DB.positions
      (TradingManager.run DB.empty
         [ (Sample.tm, 10%Z, TradingManager.Create "AAAAAAAAAAAA" "BTC/USDT" "BUY"
                               "MARKET" 1 (Some 100));
           (Sample.tm, 10%Z, TradingManager.Fill "ORD-AAAAAAAAAAAA" (Some 100)
                               (Some 95) (Some 110));
           (Sample.tm, 20%Z, TradingManager.Create "BBBBBBBBBBBB" "BTC/USDT" "BUY"
                               "MARKET" 1 (Some 110));
           (Sample.tm, 20%Z, TradingManager.Fill "ORD-BBBBBBBBBBBB" (Some 110)
                               (Some 105) (Some 120)) ])
    = [position]
    /\ Position.quantity position == 2
    /\ Position.entry_price position == 105
    /\ Position.stop_loss position = Some 95
    /\ Position.take_profit position = Some 110.
Proof. eexists. vm_compute. repeat split; reflexivity. Qed.

(** C4: closing (or reducing) a position appends one trade whose prices
    are the position's entry price and the exit price, whose quantity is
    the quantity sold, whose pnl is (sell - buy) x quantity, and whose
    result is LOSS exactly when pnl <= 0 and PROFIT exactly when pnl > 0. *)
Theorem C4_close_records_pnl_and_result (self : TradingManager.t) (d : DB.t)
    (now : Z) (symbol : string) (exit_price quantity : Q) (position : Position.t) :
  DB.first (TradingManager.position_of self symbol) (DB.positions d)
  = Some position ->
  exists d' trade,
    TradingManager._close_position self d now symbol (Some exit_price) quantity
    = Py.Ok d'
    /\ DB.trade_history d' = (DB.trade_history d ++ [trade])%list
    /\ TradeHistory.buy_price trade = Position.entry_price position
    /\ TradeHistory.sell_price trade = exit_price
    /\ TradeHistory.quantity trade = quantity
    /\ TradeHistory.pnl trade
       == (TradeHistory.sell_price trade - TradeHistory.buy_price trade)
          * TradeHistory.quantity trade
    /\ (TradeHistory.result trade = "LOSS" <-> TradeHistory.pnl trade <= 0)
    /\ (TradeHistory.result trade = "PROFIT" <-> 0 < TradeHistory.pnl trade).
Proof.
  intros Hfirst. unfold TradingManager._close_position. rewrite Hfirst. simpl.
  set (pnl := (exit_price - Position.entry_price position) * quantity).
  assert (Hres :
    ((if Py.gt pnl 0 then "PROFIT" else "LOSS") = "LOSS" <-> pnl <= 0)
    /\ ((if Py.gt pnl 0 then "PROFIT" else "LOSS") = "PROFIT" <-> 0 < pnl)).
  { destruct (Py.gt pnl 0) eqn:E.
    - apply py_gt_true in E. split; split; try discriminate; auto.
      intros H. exfalso. exact (Qlt_not_le _ _ E H).
    - assert (Hle : pnl <= 0).
      { apply Qnot_lt_le. intros H. apply py_gt_true in H. congruence. }
      split; split; try discriminate; auto.
      intros H. exfalso. exact (Qlt_not_le _ _ H Hle). }
  destruct Hres as [Hloss Hprofit].
  destruct (Py.ge quantity (Position.quantity position));
    eexists _, _; (split; [reflexivity|]); simpl;
    (split; [reflexivity|]); simpl;
    repeat (split; [reflexivity|]); split; assumption.
Qed.

Lemma C4_close_records_pnl_and_result_witness :
  exists d' trade,
    TradingManager._close_position Sample.tm Sample.db_position 20 "BTC/USDT"
      (Some 100) 1 = Py.Ok d'
    /\ DB.trade_history d' = [trade]
    /\ TradeHistory.pnl trade == 0
    /\ TradeHistory.result trade = "LOSS".
Proof.
  destruct (C4_close_records_pnl_and_result Sample.tm Sample.db_position 20
              "BTC/USDT" 100 1 Sample.position_1_at_100 eq_refl)
    as (d' & t & H & Hh & Hb & Hs & Hq & Hpnl & Hloss & _).
  exists d', t.
  assert (H0 : TradeHistory.pnl t == 0).
  { rewrite Hpnl, Hb, Hs, Hq. vm_compute. reflexivity. }
  split; [exact H|]. split; [exact Hh|]. split; [exact H0|].
  apply Hloss. rewrite H0. apply Qle_refl.
Defined.

(** Sold at 100.01 the same position records PROFIT. *)
Example close_above_entry_is_profit :
  exists d' trade,
    TradingManager._close_position Sample.tm Sample.db_position 20 "BTC/USDT"
      (Some (10001 # 100)) 1 = Py.Ok d'
    /\ DB.trade_history d' = [trade]
    /\ TradeHistory.result trade = "PROFIT".
Proof. eexists _, _. vm_compute. repeat split. Qed.

(** C10: a SELL fill for more than the position holds.  The trade that is
    recorded carries the quantity asked for, and a pnl computed on it, both
    above what the position held; the position row is deleted. *)
Theorem C10_oversized_sell_records_requested_quantity (self : TradingManager.t)
    (d : DB.t) (now : Z) (symbol : string) (exit_price quantity : Q)
    (position : Position.t) :
  DB.first (TradingManager.position_of self symbol) (DB.positions d)
  = Some position ->
  Position.quantity position < quantity ->
  exists d' trade before after,
    TradingManager._close_position self d now symbol (Some exit_price) quantity
    = Py.Ok d'
    /\ DB.trade_history d' = (DB.trade_history d ++ [trade])%list
    /\ TradeHistory.quantity trade = quantity
    /\ Position.quantity position < TradeHistory.quantity trade
    /\ TradeHistory.pnl trade
       == (exit_price - Position.entry_price position) * quantity
    /\ DB.positions d = (before ++ position :: after)%list
    /\ DB.positions d' = (before ++ after)%list.
Proof.
  intros Hfirst Hlt. unfold TradingManager._close_position. rewrite Hfirst. simpl.
  assert (Hge : Py.ge quantity (Position.quantity position) = true).
  { apply py_ge_true. apply Qlt_le_weak. exact Hlt. }
  rewrite Hge.
  destruct (delete_first_split _ _ _ Hfirst) as (l1 & l2 & Hl & Hdel).
  eexists _, _, l1, l2. split; [reflexivity|]. simpl.
  split; [reflexivity|]. simpl.
  split; [reflexivity|]. split; [exact Hlt|].
  split; [reflexivity|]. split; assumption.
Qed.

Lemma C10_oversized_sell_records_requested_quantity_witness :
  exists d' trade,
    TradingManager._close_position Sample.tm Sample.db_position 20 "BTC/USDT"
      (Some 110) 5 = Py.Ok d'
    /\ DB.trade_history d' = [trade]
    /\ TradeHistory.quantity trade = 5
    /\ TradeHistory.pnl trade == 50
    /\ DB.positions d' = [].
Proof.
  destruct (C10_oversized_sell_records_requested_quantity Sample.tm
              Sample.db_position 20 "BTC/USDT" 110 5 Sample.position_1_at_100
              eq_refl)
    as (d' & t & l1 & l2 & H & Hh & Hq & _ & Hpnl & Hl & Hd).
  - vm_compute. reflexivity.
  - exists d', t.
    split; [exact H|]. split; [exact Hh|]. split; [exact Hq|].
    split; [rewrite Hpnl; vm_compute; reflexivity|].
    rewrite Hd.
    destruct l1 as [|x l1]; simpl in Hl.
    + injection Hl as <-. reflexivity.
    + destruct l1; discriminate.
Defined.

(** ** Fills reach the position table through [fill_order]                *)

(** A fill of a BUY order is [_open_position] at the fill price (the
    order's price when none is given) for the order's quantity; a fill of
    a SELL order is [_close_position].  The order row is written FILLED
    when the position step succeeds, and nothing is written when it
    raises. *)
Lemma fill_order_reaches_positions (self : TradingManager.t) (d : DB.t) (now : Z)
    (order_id : string) (o : Order.t) (filled_price stop_loss take_profit : option Q) :
  DB.first (TradingManager.has_order_id order_id) (DB.orders d) = Some o ->
  let actual_price :=
    if Py.truthy filled_price then filled_price else Order.price o in
  let step :=
    if String.eqb (Order.side o) "BUY"
    then TradingManager._open_position self d now (Order.symbol o) actual_price
           (Order.quantity o) stop_loss take_profit
    else if String.eqb (Order.side o) "SELL"
    then TradingManager._close_position self d now (Order.symbol o) actual_price
           (Order.quantity o)
    else Py.Ok d in
  match step with
  | Py.Ok d' =>
      exists row,
        TradingManager.fill_order self d now order_id filled_price stop_loss
          take_profit
        = DB.with_orders
            (DB.update_first (TradingManager.has_order_id order_id)
                             (fun _ => row) (DB.orders d')) d'
        /\ Order.status row = "FILLED"
        /\ Order.filled_quantity row = Some (Order.quantity o)
  | Py.Raise _ =>
      TradingManager.fill_order self d now order_id filled_price stop_loss
        take_profit = d
  end.
Proof.
  intros Hfirst. unfold TradingManager.fill_order. rewrite Hfirst.
  unfold TradingManager.fill_order_try.
  destruct (Py.truthy filled_price); simpl;
    destruct (String.eqb (Order.side o) "BUY");
    try destruct (TradingManager._open_position _ _ _ _ _ _ _ _); simpl;
    try (eexists; repeat split; reflexivity); try reflexivity;
    destruct (String.eqb (Order.side o) "SELL");
    try destruct (TradingManager._close_position _ _ _ _ _ _); simpl;
    try (eexists; repeat split; reflexivity); reflexivity.
Qed.

(** ** The gates of [execute_signal] (C5)                                 *)

Lemma update_position_placed (w : SignalProcessor.world) (now : Z)
    (symbol : string) (signal : TradingSignal.t) (order : Exchange.order) :
  SignalProcessor.placed (SignalProcessor._update_position w now symbol signal order)
  = SignalProcessor.placed w.
Proof. reflexivity. Qed.

Section Gates.
Variable get_testnet_balance : list Exchange.request -> Q.
Variable place_market_order :
  list Exchange.request -> Exchange.request -> option Exchange.order.

Let execute_signal :=
  SignalProcessor.execute_signal get_testnet_balance place_market_order.

(** The order size that [execute_signal] uses. *)
Let size_of (w : SignalProcessor.world) (signal : TradingSignal.t)
    (order_size : option Q) : Q :=
  match order_size with
  | None => SignalProcessor._calculate_order_size get_testnet_balance w signal
  | Some s => s
  end.

(** Past the two gates, the order goes to the venue exactly when the size
    is positive and the position gate lets it through. *)
Lemma execute_signal_past_gates (self : SignalProcessor.t)
    (w : SignalProcessor.world) (uuid12 : string) (now : Z) (symbol : string)
    (signal : TradingSignal.t) (order_size : option Q) :
  TradingSignal.signal signal = SignalType.BUY ->
  SignalProcessor.min_confidence self <= TradingSignal.confidence signal ->
  let out := execute_signal self w uuid12 now symbol signal order_size in
  let size := size_of w signal order_size in
  (0 < size /\ SignalProcessor._should_execute self w symbol signal = true ->
   SignalProcessor.placed (fst out)
   = (SignalProcessor.placed w ++ [Exchange.mk_request symbol "buy" size])%list)
  /\ (~ (0 < size /\ SignalProcessor._should_execute self w symbol signal = true) ->
      out = (w, false)).
Proof.
  intros Hbuy Hconf out size. subst out size execute_signal size_of.
  unfold SignalProcessor.execute_signal. rewrite Hbuy. simpl.
  assert (Hlt : Py.lt (TradingSignal.confidence signal)
                      (SignalProcessor.min_confidence self) = false).
  { apply not_true_iff_false. intros H. apply py_lt_true in H.
    exact (Qlt_not_le _ _ H Hconf). }
  rewrite Hlt.
  set (size := match order_size with
               | Some s => s
               | None => SignalProcessor._calculate_order_size
                           get_testnet_balance w signal
               end).
  destruct (Py.le size 0) eqn:Hsize.
  - apply py_le_true in Hsize. split.
    + intros [Hpos _]. exfalso. exact (Qlt_not_le _ _ Hpos Hsize).
    + reflexivity.
  - assert (Hpos : 0 < size).
    { apply Qnot_le_lt. intros H. apply py_le_true in H. congruence. }
    destruct (SignalProcessor._should_execute self w symbol signal) eqn:Hgate;
      simpl.
    + split; [intros _ | intros H; exfalso; apply H; split; auto].
      destruct (place_market_order _ _) as [order|]; simpl; [|reflexivity].
      destruct (Py.float _); reflexivity.
    + split; [intros [_ H]; discriminate | reflexivity].
Qed.

(** C5: [execute_signal] of a processor built by [__init__] returns
    [False] and leaves the world (so the venue) untouched for a HOLD
    signal and for a confidence below 50; a BUY signal of confidence 50
    is past both gates: it is placed exactly when its size is positive
    and the position gate allows it, and refused without a trace
    otherwise. *)
Theorem C5_execute_signal_gates (bot_execution_id user_id : option Z)
    (w : SignalProcessor.world) (uuid12 : string) (now : Z) (symbol : string)
    (signal : TradingSignal.t) (order_size : option Q) :
  let self := SignalProcessor.init bot_execution_id user_id in
  let out := execute_signal self w uuid12 now symbol signal order_size in
  let size := size_of w signal order_size in
  (TradingSignal.signal signal = SignalType.HOLD -> out = (w, false))
  /\ (TradingSignal.confidence signal < 50 -> out = (w, false))
  /\ (TradingSignal.signal signal = SignalType.BUY ->
      TradingSignal.confidence signal == 50 ->
      (SignalProcessor.placed (fst out)
       = (SignalProcessor.placed w ++ [Exchange.mk_request symbol "buy" size])%list
       <-> 0 < size /\ SignalProcessor._should_execute self w symbol signal = true)
      /\ (~ (0 < size /\ SignalProcessor._should_execute self w symbol signal = true)
          -> out = (w, false))).
Proof.
  intros self out size. split; [|split].
  - intros Hhold. subst out execute_signal.
    unfold SignalProcessor.execute_signal. rewrite Hhold. reflexivity.
  - intros Hlow. subst out execute_signal.
    unfold SignalProcessor.execute_signal.
    destruct (SignalType.eqb _ _); [reflexivity|].
    assert (H : Py.lt (TradingSignal.confidence signal)
                      (SignalProcessor.min_confidence self) = true)
      by (apply py_lt_true; exact Hlow).
    rewrite H. reflexivity.
  - intros Hbuy Hconf.
    assert (Hmin : SignalProcessor.min_confidence self
                   <= TradingSignal.confidence signal).
    { change (SignalProcessor.min_confidence self) with 50.
      rewrite Hconf. apply Qle_refl. }
    destruct (execute_signal_past_gates self w uuid12 now symbol signal
                order_size Hbuy Hmin) as [Hplaced Hrefused].
    split; [split|].
    + intros Heq.
      destruct (Qlt_le_dec 0 size) as [Hpos|Hneg];
        [destruct (SignalProcessor._should_execute self w symbol signal) eqn:Hg;
         [auto|] |];
        exfalso.
      * assert (Hout : out = (w, false)) by (apply Hrefused; intros [_ H]; discriminate).
        rewrite Hout in Heq. simpl in Heq.
        apply (f_equal (@length _)) in Heq. rewrite List.length_app in Heq.
        simpl in Heq. lia.
      * assert (Hout : out = (w, false)).
        { apply Hrefused. intros [H _]. exact (Qlt_not_le _ _ H Hneg). }
        rewrite Hout in Heq. simpl in Heq.
        apply (f_equal (@length _)) in Heq. rewrite List.length_app in Heq.
        simpl in Heq. lia.
    + exact Hplaced.
    + exact Hrefused.
Qed.
End Gates.

Lemma C5_execute_signal_gates_witness :
  SignalProcessor.execute_signal Sample.balance Sample.venue Sample.processor
    Sample.world0 "AAAAAAAAAAAA" 10 "BTC/USDT" Sample.signal_hold (Some 1)
  = (Sample.world0, false)
  /\ SignalProcessor.execute_signal Sample.balance Sample.venue Sample.processor
       Sample.world0 "AAAAAAAAAAAA" 10 "BTC/USDT" Sample.signal_buy_49 (Some 1)
     = (Sample.world0, false)
  /\ SignalProcessor.placed
       (fst (SignalProcessor.execute_signal Sample.balance Sample.venue
               Sample.processor Sample.world0 "AAAAAAAAAAAA" 10 "BTC/USDT"
               Sample.signal_buy_50 (Some 1)))
     = [Exchange.mk_request "BTC/USDT" "buy" 1].
Proof.
  pose proof (C5_execute_signal_gates Sample.balance Sample.venue (Some 1%Z)
                (Some 7%Z) Sample.world0 "AAAAAAAAAAAA" 10 "BTC/USDT"
                Sample.signal_hold (Some 1)) as (Hhold & _ & _).
  pose proof (C5_execute_signal_gates Sample.balance Sample.venue (Some 1%Z)
                (Some 7%Z) Sample.world0 "AAAAAAAAAAAA" 10 "BTC/USDT"
                Sample.signal_buy_49 (Some 1)) as (_ & Hlow & _).
  pose proof (C5_execute_signal_gates Sample.balance Sample.venue (Some 1%Z)
                (Some 7%Z) Sample.world0 "AAAAAAAAAAAA" 10 "BTC/USDT"
                Sample.signal_buy_50 (Some 1)) as (_ & _ & Hbuy).
  split; [exact (Hhold eq_refl)|].
  split; [apply Hlow; reflexivity|].
  destruct (Hbuy eq_refl (Qeq_refl 50)) as [[_ Hplaced] _].
  apply Hplaced. split; reflexivity.
Defined.

(** With a trading manager, the BUY of confidence 50 is also recorded:
    the call returns [True], one order is FILLED and one position opened. *)
Example execute_signal_buy_50_is_recorded :
  let out :=
    SignalProcessor.execute_signal Sample.balance Sample.venue Sample.processor
      Sample.world0 "AAAAAAAAAAAA" 10 "BTC/USDT" Sample.signal_buy_50 (Some 1) in
  snd out = true
  /\ List.map Order.status (DB.orders (SignalProcessor.db (fst out))) = ["FILLED"]
  /\ List.map Position.stop_loss (DB.positions (SignalProcessor.db (fst out)))
     = [Some 95].
Proof. vm_compute. repeat split. Qed.

(** The order size is computed on doubles.  With a balance of 21.5, a
    confidence of 100 and an entry price of 2, the quantity is the double
    just below 1.075 and rounds to 1.07 (the exact quotient 1.075 would
    round to 1.08); with 1, 50 and 150000 it is just above 0.0000005 and
    rounds to 0.000001 (the exact quotient would round to 0); with 14, 50
    and 1000 it rounds to 0.0011 (the exact quotient 0.00105 to 0.001). *)
Example calculate_order_size_in_binary64 :
  SignalProcessor._calculate_order_size (fun _ => 215 # 10) Sample.world0
    (TradingSignal.mk SignalType.BUY 100 "breakout" (Some 2) None None)
  = Float64.fl (107 # 100)
  /\ SignalProcessor._calculate_order_size (fun _ => 1) Sample.world0
       (TradingSignal.mk SignalType.BUY 50 "breakout" (Some 150000) None None)
     = Float64.fl (1 # 1000000)
  /\ SignalProcessor._calculate_order_size (fun _ => 14) Sample.world0
       (TradingSignal.mk SignalType.BUY 50 "breakout" (Some 1000) None None)
     = Float64.fl (11 # 10000).
Proof. repeat split; vm_compute; reflexivity. Qed.

(** ** The position monitor (C6)                                          *)

Lemma stop_loss_hit_true (stop_loss : option Q) (current_price : Q) :
  TradingBot.stop_loss_hit stop_loss current_price = true
  <-> exists sl, stop_loss = Some sl /\ ~ sl == 0 /\ current_price <= sl.
Proof.
  unfold TradingBot.stop_loss_hit. destruct stop_loss as [sl|].
  - rewrite andb_true_iff, py_truthy_Some, py_le_true. split.
    + intros [H1 H2]. exists sl. auto.
    + intros (s & Hs & H1 & H2). injection Hs as <-. auto.
  - split; [discriminate | intros (s & Hs & _); discriminate].
Qed.

Lemma take_profit_hit_true (take_profit : option Q) (current_price : Q) :
  TradingBot.take_profit_hit take_profit current_price = true
  <-> exists tp, take_profit = Some tp /\ ~ tp == 0 /\ tp <= current_price.
Proof.
  unfold TradingBot.take_profit_hit. destruct take_profit as [tp|].
  - rewrite andb_true_iff, py_truthy_Some, py_ge_true. split.
    + intros [H1 H2]. exists tp. auto.
    + intros (s & Hs & H1 & H2). injection Hs as <-. auto.
  - split; [discriminate | intros (s & Hs & _); discriminate].
Qed.

(** The in-place update writes two columns and no other. *)
Lemma with_mark_other_columns (cp pnl : Q) (p : Position.t) :
  let p' := Position.with_mark cp pnl p in
  Position.id p' = Position.id p
  /\ Position.bot_execution_id p' = Position.bot_execution_id p
  /\ Position.user_id p' = Position.user_id p
  /\ Position.symbol p' = Position.symbol p
  /\ Position.entry_price p' = Position.entry_price p
  /\ Position.quantity p' = Position.quantity p
  /\ Position.stop_loss p' = Position.stop_loss p
  /\ Position.take_profit p' = Position.take_profit p
  /\ Position.opened_at p' = Position.opened_at p
  /\ Position.current_price p' = Some cp
  /\ Position.unrealized_pnl p' = Some pnl.
Proof. repeat split. Qed.

Section MonitorProperties.
Variable get_latest_price : string -> option Q.

(** The branch that a turn takes on a position whose price was observed
    (the entry price, which the turn divides by, is not zero): the
    stop-loss sell exactly when a stop-loss is set and the price is at or
    below it; otherwise the take-profit sell exactly when a take-profit is
    set and the price is at or above it; otherwise the mark. *)
Lemma decide_branches (position : Position.t) (current_price : Q) :
  ~ current_price == 0 ->
  ~ Position.entry_price position == 0 ->
  let stop := exists sl, Position.stop_loss position = Some sl
                         /\ ~ sl == 0 /\ current_price <= sl in
  let take := exists tp, Position.take_profit position = Some tp
                         /\ ~ tp == 0 /\ tp <= current_price in
  let pnl := (current_price - Position.entry_price position)
             * Position.quantity position in
  let action := TradingBot.decide position (Some current_price) in
  (action = TradingBot.ForceSell "Stop Loss Triggered" current_price <-> stop)
  /\ (action = TradingBot.ForceSell "Take Profit Triggered" current_price
      <-> ~ stop /\ take)
  /\ (action = TradingBot.Mark current_price pnl <-> ~ stop /\ ~ take).
Proof.
  intros Hobs Hentry stop take pnl action.
  assert (Hdecide : action =
    if TradingBot.stop_loss_hit (Position.stop_loss position) current_price
    then TradingBot.ForceSell "Stop Loss Triggered" current_price
    else if TradingBot.take_profit_hit (Position.take_profit position) current_price
    then TradingBot.ForceSell "Take Profit Triggered" current_price
    else TradingBot.Mark current_price pnl).
  { subst action. unfold TradingBot.decide.
    apply py_truthy_Some in Hobs. rewrite Hobs. simpl negb. cbv iota.
    rewrite (py_div_ok _ _ Hentry). reflexivity. }
  pose proof (stop_loss_hit_true (Position.stop_loss position) current_price)
    as Hstop.
  pose proof (take_profit_hit_true (Position.take_profit position) current_price)
    as Htake.
  fold stop in Hstop. fold take in Htake.
  rewrite Hdecide.
  destruct (TradingBot.stop_loss_hit _ _) eqn:Es;
    [|destruct (TradingBot.take_profit_hit _ _) eqn:Et].
  - assert (Hs : stop) by (apply Hstop; reflexivity).
    repeat split; try discriminate; try tauto; auto.
  - assert (Hs : ~ stop) by (intros H; apply Hstop in H; discriminate).
    assert (Ht : take) by (apply Htake; reflexivity).
    repeat split; try discriminate; try tauto; auto.
  - assert (Hs : ~ stop) by (intros H; apply Hstop in H; discriminate).
    assert (Ht : ~ take) by (intros H; apply Htake in H; discriminate).
    repeat split; try discriminate; try tauto; auto.
Qed.

(** What a turn writes on the position table. *)
Let row_step (table : list Position.t) (p : Position.t) : list Position.t :=
  match TradingBot.decide p (get_latest_price (Position.symbol p)) with
  | TradingBot.Mark cp pnl =>
      DB.update_first (TradingBot.has_id p) (Position.with_mark cp pnl) table
  | _ => table
  end.

(** What a pass leaves of a row that it visits. *)
Let visited (p : Position.t) : Position.t :=
  match TradingBot.decide p (get_latest_price (Position.symbol p)) with
  | TradingBot.Mark cp pnl => Position.with_mark cp pnl p
  | _ => p
  end.

Lemma update_first_no_match {A : Type} (f : A -> bool) (g : A -> A)
    (l : list A) :
  existsb f l = false -> DB.update_first f g l = l.
Proof.
  induction l as [|x r IH]; simpl; [reflexivity|].
  destruct (f x); simpl; [discriminate|]. intros H. rewrite IH; auto.
Qed.

(** A turn of the code as it is: it closes nothing, places nothing, and
    touches the position table in the mark branch only. *)
Lemma monitor_position_rows (w : SignalProcessor.world) (n : nat)
    (p : Position.t) :
  let out := TradingBot.monitor_position get_latest_price w n p in
  snd out = n
  /\ SignalProcessor.placed (fst out) = SignalProcessor.placed w
  /\ SignalProcessor.positions (fst out) = SignalProcessor.positions w
  /\ DB.orders (SignalProcessor.db (fst out)) = DB.orders (SignalProcessor.db w)
  /\ DB.trade_history (SignalProcessor.db (fst out))
     = DB.trade_history (SignalProcessor.db w)
  /\ DB.positions (SignalProcessor.db (fst out))
     = row_step (DB.positions (SignalProcessor.db w)) p.
Proof.
  unfold TradingBot.monitor_position, TradingBot.monitor_position_with, row_step.
  destruct (TradingBot.decide _ _) as [|e|reason cp|cp pnl]; simpl;
    try (repeat split; reflexivity).
  unfold TradingBot.commit_mark.
  destruct (existsb _ _) eqn:E; simpl.
  - repeat split; reflexivity.
  - rewrite (update_first_no_match _ _ _ E). repeat split; reflexivity.
Qed.

Lemma monitor_fold_rows (l : list Position.t) :
  forall (w : SignalProcessor.world) (n : nat),
    let out := fold_left
                 (fun '(w, n) position =>
                    TradingBot.monitor_position_with get_latest_price
                      SignalProcessor._execute_sell_order w n position)
                 l (w, n) in
    snd out = n
    /\ SignalProcessor.placed (fst out) = SignalProcessor.placed w
    /\ SignalProcessor.positions (fst out) = SignalProcessor.positions w
    /\ DB.orders (SignalProcessor.db (fst out)) = DB.orders (SignalProcessor.db w)
    /\ DB.trade_history (SignalProcessor.db (fst out))
       = DB.trade_history (SignalProcessor.db w)
    /\ DB.positions (SignalProcessor.db (fst out))
       = fold_left row_step l (DB.positions (SignalProcessor.db w)).
Proof.
  induction l as [|p r IH]; intros w n; [simpl; repeat split; reflexivity|].
  pose proof (monitor_position_rows w n p) as Hp.
  unfold TradingBot.monitor_position in Hp.
  cbn [fold_left].
  destruct (TradingBot.monitor_position_with get_latest_price
              SignalProcessor._execute_sell_order w n p) as [w1 n1] eqn:E.
  simpl in Hp. destruct Hp as (H1 & H2 & H3 & H4 & H5 & H6).
  destruct (IH w1 n1) as (K1 & K2 & K3 & K4 & K5 & K6).
  rewrite K1, K2, K3, K4, K5, K6, H1, H2, H3, H4, H5, H6.
  repeat split; reflexivity.
Qed.

(** With distinct primary keys, the update of the row with the key of [p]
    is the update of every row with that key. *)
Lemma update_first_by_id (p : Position.t) (g : Position.t -> Position.t)
    (table : list Position.t) :
  List.NoDup (List.map Position.id table) ->
  DB.update_first (TradingBot.has_id p) g table
  = List.map (fun q => if TradingBot.has_id p q then g q else q) table.
Proof.
  induction table as [|x r IH]; simpl; [reflexivity|].
  intros H. apply List.NoDup_cons_iff in H. destruct H as [Hx Hr].
  destruct (TradingBot.has_id p x) eqn:E.
  - f_equal. symmetry. rewrite <- (List.map_id r) at 2.
    apply List.map_ext_in. intros q Hq.
    destruct (TradingBot.has_id p q) eqn:Eq; [|reflexivity].
    exfalso. apply Hx. unfold TradingBot.has_id in E, Eq.
    apply Z.eqb_eq in E, Eq. rewrite E, <- Eq.
    apply List.in_map, Hq.
  - f_equal. apply IH, Hr.
Qed.

Lemma same_id_same_row (table : list Position.t) (p q : Position.t) :
  List.NoDup (List.map Position.id table) ->
  List.In p table -> List.In q table -> Position.id p = Position.id q -> p = q.
Proof.
  induction table as [|x r IH]; simpl; [tauto|].
  intros H Hp Hq Hid. apply List.NoDup_cons_iff in H. destruct H as [Hx Hr].
  destruct Hp as [<-|Hp], Hq as [<-|Hq]; auto.
  - exfalso. apply Hx. rewrite Hid. apply List.in_map, Hq.
  - exfalso. apply Hx. rewrite <- Hid. apply List.in_map, Hp.
Qed.

Lemma visited_id (q : Position.t) : Position.id (visited q) = Position.id q.
Proof.
  unfold visited. destruct (TradingBot.decide _ _); reflexivity.
Qed.

(** The turns over a list of rows of the table, with distinct keys, mark
    each of these rows and leave the other rows alone. *)
Lemma fold_row_step (l : list Position.t) :
  forall table : list Position.t,
    List.NoDup (List.map Position.id l) ->
    (forall p, List.In p l -> List.In p table) ->
    List.NoDup (List.map Position.id table) ->
    fold_left row_step l table
    = List.map (fun q => if existsb (TradingBot.has_id q) l then visited q else q)
               table.
Proof.
  induction l as [|p r IH]; intros table Hl Hin Ht.
  - simpl. symmetry. apply List.map_id.
  - apply List.NoDup_cons_iff in Hl. destruct Hl as [Hp Hr].
    cbn [fold_left].
    set (h := fun q : Position.t =>
                if TradingBot.has_id q p then visited q else q).
    assert (Hstep : row_step table p = List.map h table).
    { unfold row_step.
      assert (Hsame : forall q, List.In q table ->
                TradingBot.has_id q p = true -> q = p).
      { intros q Hq E. unfold TradingBot.has_id in E. apply Z.eqb_eq in E.
        symmetry. apply (same_id_same_row table); auto.
        apply Hin. left. reflexivity. }
      destruct (TradingBot.decide p (get_latest_price (Position.symbol p)))
        as [|e|reason cp|cp pnl] eqn:Ed.
      - rewrite <- (List.map_id table) at 1. apply List.map_ext_in.
        intros q Hq. unfold h. destruct (TradingBot.has_id q p) eqn:E;
          [|reflexivity].
        rewrite (Hsame q Hq E). unfold visited. rewrite Ed. reflexivity.
      - rewrite <- (List.map_id table) at 1. apply List.map_ext_in.
        intros q Hq. unfold h. destruct (TradingBot.has_id q p) eqn:E;
          [|reflexivity].
        rewrite (Hsame q Hq E). unfold visited. rewrite Ed. reflexivity.
      - rewrite <- (List.map_id table) at 1. apply List.map_ext_in.
        intros q Hq. unfold h. destruct (TradingBot.has_id q p) eqn:E;
          [|reflexivity].
        rewrite (Hsame q Hq E). unfold visited. rewrite Ed. reflexivity.
      - rewrite (update_first_by_id p _ table Ht). apply List.map_ext_in.
        intros q Hq. unfold h.
        assert (Hsym : TradingBot.has_id p q = TradingBot.has_id q p).
        { unfold TradingBot.has_id. apply Z.eqb_sym. }
        rewrite Hsym. destruct (TradingBot.has_id q p) eqn:E; [|reflexivity].
        rewrite (Hsame q Hq E). unfold visited. rewrite Ed. reflexivity. }
    rewrite Hstep.
    assert (Hid : forall q, Position.id (h q) = Position.id q).
    { intros q. unfold h. destruct (TradingBot.has_id q p);
        [apply visited_id|reflexivity]. }
    assert (Hids : List.map Position.id (List.map h table)
                   = List.map Position.id table).
    { rewrite List.map_map. apply List.map_ext. exact Hid. }
    assert (Hfresh : forall q, List.In q r -> TradingBot.has_id q p = false).
    { intros q Hq. unfold TradingBot.has_id. apply Z.eqb_neq. intros E.
      apply Hp. rewrite E. apply List.in_map, Hq. }
    rewrite IH.
    + rewrite List.map_map. apply List.map_ext_in. intros q Hq.
      assert (Hex : existsb (TradingBot.has_id (h q)) r
                    = existsb (TradingBot.has_id q) r).
      { unfold TradingBot.has_id. rewrite Hid. reflexivity. }
      rewrite Hex. cbn [existsb]. unfold h.
      destruct (TradingBot.has_id q p) eqn:E.
      * assert (Hr0 : existsb (TradingBot.has_id q) r = false).
        { apply not_true_iff_false. intros H. apply List.existsb_exists in H.
          destruct H as (x & Hx & Hxq). apply Hp.
          unfold TradingBot.has_id in E, Hxq. apply Z.eqb_eq in E, Hxq.
          rewrite E, <- Hxq. apply List.in_map, Hx. }
        rewrite Hr0. reflexivity.
      * simpl. reflexivity.
    + exact Hr.
    + intros q Hq. apply List.in_map_iff. exists q. split.
      * unfold h. rewrite (Hfresh q Hq). reflexivity.
      * apply Hin. right. exact Hq.
    + rewrite Hids. exact Ht.
Qed.
Lemma NoDup_map_filter {A B : Type} (key : A -> B) (f : A -> bool)
    (l : list A) :
  List.NoDup (List.map key l) -> List.NoDup (List.map key (List.filter f l)).
Proof.
  induction l as [|x r IH]; simpl; [auto|].
  intros H. apply List.NoDup_cons_iff in H. destruct H as [Hx Hr].
  destruct (f x); simpl; [|auto].
  apply List.NoDup_cons; [|auto].
  intros H. apply Hx. apply List.in_map_iff in H.
  destruct H as (y & Hy & Hin). apply List.filter_In in Hin.
  rewrite <- Hy. apply List.in_map, Hin.
Qed.

Lemma Forall2_map_self {A : Type} (R : A -> A -> Prop) (g : A -> A)
    (l : list A) :
  (forall x, List.In x l -> R x (g x)) -> Forall2 R l (List.map g l).
Proof.
  induction l as [|x r IH]; intros H; simpl; constructor.
  - apply H. left. reflexivity.
  - apply IH. intros y Hy. apply H. right. exact Hy.
Qed.

(** The position table after a pass of the code as it is: the rows of the
    execution are the visited ones. *)
Lemma monitor_positions_rows (bot_execution_id : Z)
    (w : SignalProcessor.world) :
  List.NoDup (List.map Position.id (DB.positions (SignalProcessor.db w))) ->
  let out := TradingBot._monitor_positions get_latest_price bot_execution_id w in
  snd out = 0%nat
  /\ SignalProcessor.placed (fst out) = SignalProcessor.placed w
  /\ SignalProcessor.positions (fst out) = SignalProcessor.positions w
  /\ DB.orders (SignalProcessor.db (fst out)) = DB.orders (SignalProcessor.db w)
  /\ DB.trade_history (SignalProcessor.db (fst out))
     = DB.trade_history (SignalProcessor.db w)
  /\ DB.positions (SignalProcessor.db (fst out))
     = List.map
         (fun q => if Z.eqb (Position.bot_execution_id q) bot_execution_id
                   then visited q else q)
         (DB.positions (SignalProcessor.db w)).
Proof.
  intros Hkeys out. subst out.
  unfold TradingBot._monitor_positions, TradingBot._monitor_positions_with.
  set (table := DB.positions (SignalProcessor.db w)) in *.
  set (mine := fun p : Position.t =>
                 Z.eqb (Position.bot_execution_id p) bot_execution_id).
  destruct (monitor_fold_rows (List.filter mine table) w 0)
    as (H1 & H2 & H3 & H4 & H5 & H6).
  split; [exact H1|]. split; [exact H2|]. split; [exact H3|].
  split; [exact H4|]. split; [exact H5|].
  rewrite H6. fold table.
  rewrite (fold_row_step (List.filter mine table) table).
  - apply List.map_ext_in. intros q Hq.
    destruct (mine q) eqn:Em.
    + assert (Hex : existsb (TradingBot.has_id q) (List.filter mine table) = true).
      { apply List.existsb_exists. exists q. split.
        - apply List.filter_In. split; assumption.
        - unfold TradingBot.has_id. apply Z.eqb_refl. }
      rewrite Hex. unfold mine in Em. rewrite Em. reflexivity.
    + assert (Hex : existsb (TradingBot.has_id q) (List.filter mine table) = false).
      { apply not_true_iff_false. intros H. apply List.existsb_exists in H.
        destruct H as (x & Hx & Hxq). apply List.filter_In in Hx.
        destruct Hx as [Hx Hmx]. unfold TradingBot.has_id in Hxq.
        apply Z.eqb_eq in Hxq.
        rewrite (same_id_same_row table x q Hkeys Hx Hq Hxq) in Hmx.
        congruence. }
      rewrite Hex. unfold mine in Em. rewrite Em. reflexivity.
  - apply NoDup_map_filter, Hkeys.
  - intros p Hp. apply List.filter_In in Hp. apply Hp.
  - exact Hkeys.
Qed.

Lemma decide_observed (position : Position.t) (current_price : Q) :
  ~ current_price == 0 ->
  ~ Position.entry_price position == 0 ->
  TradingBot.decide position (Some current_price)
  = if TradingBot.stop_loss_hit (Position.stop_loss position) current_price
    then TradingBot.ForceSell "Stop Loss Triggered" current_price
    else if TradingBot.take_profit_hit (Position.take_profit position)
              current_price
    then TradingBot.ForceSell "Take Profit Triggered" current_price
    else TradingBot.Mark current_price
           ((current_price - Position.entry_price position)
            * Position.quantity position).
Proof.
  intros Hobs Hentry. unfold TradingBot.decide.
  apply py_truthy_Some in Hobs. rewrite Hobs. simpl negb. cbv iota.
  rewrite (py_div_ok _ _ Hentry). reflexivity.
Qed.

(** C6 (the code as it is): a pass of [_monitor_positions] over a table
    with distinct primary keys never sells.  It reports 0 closed
    positions, sends nothing to the venue and leaves the orders, the
    trades and the tracked symbols as they were.  A position of the
    execution whose price was observed (and whose entry price, which the
    turn divides by, is not zero) and that is at or below its stop-loss, or
    at or above its take-profit, reaches the call of
    [_execute_sell_order], which raises: the row stays exactly as it was,
    neither sold nor marked.  A position that reaches neither level has its
    current price and its unrealized pnl written; no other column of any
    row changes, and the rows of other executions are untouched. *)
Theorem C6_monitor_sell_raises (bot_execution_id : Z)
    (w : SignalProcessor.world) :
  List.NoDup (List.map Position.id (DB.positions (SignalProcessor.db w))) ->
  let out := TradingBot._monitor_positions get_latest_price bot_execution_id w in
  snd out = 0%nat
  /\ SignalProcessor.placed (fst out) = SignalProcessor.placed w
  /\ SignalProcessor.positions (fst out) = SignalProcessor.positions w
  /\ DB.orders (SignalProcessor.db (fst out)) = DB.orders (SignalProcessor.db w)
  /\ DB.trade_history (SignalProcessor.db (fst out))
     = DB.trade_history (SignalProcessor.db w)
  /\ Forall2
       (fun p p' =>
          Position.id p' = Position.id p
          /\ Position.bot_execution_id p' = Position.bot_execution_id p
          /\ Position.user_id p' = Position.user_id p
          /\ Position.symbol p' = Position.symbol p
          /\ Position.entry_price p' = Position.entry_price p
          /\ Position.quantity p' = Position.quantity p
          /\ Position.stop_loss p' = Position.stop_loss p
          /\ Position.take_profit p' = Position.take_profit p
          /\ Position.opened_at p' = Position.opened_at p
          /\ (Position.bot_execution_id p <> bot_execution_id -> p' = p)
          /\ (forall current_price,
                 Position.bot_execution_id p = bot_execution_id ->
                 get_latest_price (Position.symbol p) = Some current_price ->
                 ~ current_price == 0 ->
                 ~ Position.entry_price p == 0 ->
                 let stop := exists sl, Position.stop_loss p = Some sl
                                        /\ ~ sl == 0 /\ current_price <= sl in
                 let take := exists tp, Position.take_profit p = Some tp
                                        /\ ~ tp == 0 /\ tp <= current_price in
                 (stop \/ take -> p' = p)
                 /\ (~ stop /\ ~ take ->
                     Position.current_price p' = Some current_price
                     /\ Position.unrealized_pnl p'
                        = Some ((current_price - Position.entry_price p)
                                * Position.quantity p))))
       (DB.positions (SignalProcessor.db w))
       (DB.positions (SignalProcessor.db (fst out))).
Proof.
  intros Hkeys out.
  destruct (monitor_positions_rows bot_execution_id w Hkeys)
    as (H1 & H2 & H3 & H4 & H5 & H6).
  fold out in H1, H2, H3, H4, H5, H6.
  split; [exact H1|]. split; [exact H2|]. split; [exact H3|].
  split; [exact H4|]. split; [exact H5|].
  rewrite H6. apply Forall2_map_self. intros p _.
  assert (Hcols : forall q,
            q = p \/ (exists cp pnl, q = Position.with_mark cp pnl p) ->
            Position.id q = Position.id p
            /\ Position.bot_execution_id q = Position.bot_execution_id p
            /\ Position.user_id q = Position.user_id p
            /\ Position.symbol q = Position.symbol p
            /\ Position.entry_price q = Position.entry_price p
            /\ Position.quantity q = Position.quantity p
            /\ Position.stop_loss q = Position.stop_loss p
            /\ Position.take_profit q = Position.take_profit p
            /\ Position.opened_at q = Position.opened_at p).
  { intros q [->|(cp & pnl & ->)]; repeat split; reflexivity. }
  assert (Hshape : visited p = p
                   \/ exists cp pnl, visited p = Position.with_mark cp pnl p).
  { unfold visited. destruct (TradingBot.decide _ _) as [|e|reason cp|cp pnl];
      [left|left|left|right; exists cp, pnl]; reflexivity. }
  destruct (Z.eqb (Position.bot_execution_id p) bot_execution_id) eqn:Em.
  - destruct (Hcols (visited p) Hshape)
      as (C1 & C2 & C3 & C4 & C5 & C6 & C7 & C8 & C9).
    do 9 (split; [assumption|]). split.
    + intros Hne. apply Z.eqb_eq in Em. contradiction.
    + intros current_price _ Hprice Hobs Hentry stop take.
      pose proof (stop_loss_hit_true (Position.stop_loss p) current_price)
        as Hstop.
      pose proof (take_profit_hit_true (Position.take_profit p) current_price)
        as Htake.
      fold stop in Hstop. fold take in Htake.
      unfold visited. rewrite Hprice, (decide_observed p current_price Hobs Hentry).
      destruct (TradingBot.stop_loss_hit _ _) eqn:Es;
        [|destruct (TradingBot.take_profit_hit _ _) eqn:Et].
      * split; [reflexivity|]. intros [Hs _]. exfalso. apply Hs, Hstop. reflexivity.
      * split; [reflexivity|]. intros [_ Ht]. exfalso. apply Ht, Htake. reflexivity.
      * split; [|intros _; split; reflexivity].
        intros [Hs|Ht]; exfalso.
        -- apply Hstop in Hs. discriminate.
        -- apply Htake in Ht. discriminate.
  - destruct (Hcols p (or_introl eq_refl))
      as (C1 & C2 & C3 & C4 & C5 & C6 & C7 & C8 & C9).
    do 9 (split; [assumption|]). split.
    + intros _. reflexivity.
    + intros current_price Hmine. apply Z.eqb_neq in Em. contradiction.
Qed.
End MonitorProperties.

Lemma C6_monitor_sell_raises_witness :
  let w := SignalProcessor.mk_world Sample.db_three ∅ [] in
  let out := TradingBot._monitor_positions Sample.latest_prices 1 w in
  List.NoDup (List.map Position.id (DB.positions (SignalProcessor.db w)))
  /\ snd out = 0%nat
  /\ SignalProcessor.placed (fst out) = []
  /\ DB.trade_history (SignalProcessor.db (fst out)) = []
  /\ List.map Position.current_price
       (DB.positions (SignalProcessor.db (fst out)))
     = [Some 100; Some 100; Some (9501 # 100)].
Proof.
  intros w out.
  assert (Hkeys : List.NoDup
                    (List.map Position.id (DB.positions (SignalProcessor.db w)))).
  { simpl. repeat (apply List.NoDup_cons; [simpl; intuition discriminate|]).
    apply List.NoDup_nil. }
  destruct (C6_monitor_sell_raises Sample.latest_prices 1 w Hkeys)
    as (H1 & H2 & _ & _ & H5 & _).
  split; [exact Hkeys|]. split; [exact H1|]. split; [exact H2|].
  split; [exact H5|]. vm_compute. reflexivity.
Defined.

(** The pass at the stop-loss of the spec's example: the position bought
    at 100 with stop-loss 95 is observed at 95.  The sell is attempted, the
    lookup of [_execute_sell_order] raises, nothing is counted as closed and
    the row is left as it was, with its old current price. *)
Example monitor_positions_stop_loss_pass :
  TradingBot._monitor_positions (fun _ => Some 95) 1
    (SignalProcessor.mk_world Sample.db_position ∅ [])
  = (SignalProcessor.mk_world Sample.db_position ∅ [], 0%nat)
  /\ TradingBot.decide Sample.position_1_at_100 (Some 95)
     = TradingBot.ForceSell "Stop Loss Triggered" 95.
Proof. split; vm_compute; reflexivity. Qed.

(** The same at the take-profit of 110. *)
Example monitor_positions_take_profit_pass :
  TradingBot._monitor_positions (fun _ => Some 110) 1
    (SignalProcessor.mk_world Sample.db_position ∅ [])
  = (SignalProcessor.mk_world Sample.db_position ∅ [], 0%nat)
  /\ TradingBot.decide Sample.position_1_at_100 (Some 110)
     = TradingBot.ForceSell "Take Profit Triggered" 110.
Proof. split; vm_compute; reflexivity. Qed.

(** At 109.99 the take-profit of 110 is not reached: the position is marked. *)
Example monitor_below_take_profit_marks :
  exists pnl,
    TradingBot.decide Sample.position_1_at_100 (Some (10999 # 100))
    = TradingBot.Mark (10999 # 100) pnl.
Proof. eexists. vm_compute. reflexivity. Qed.

(** ** The Bollinger breakout levels and the ATR column (C7)              *)

Lemma set_column_other (name key : string) (values : list DataFrame.cell)
    (df : DataFrame.t) :
  name <> key ->
  DataFrame.cols (DataFrame.set_column name values df) !! key
  = DataFrame.cols df !! key.
Proof. intros H. unfold DataFrame.set_column. simpl. apply lookup_insert_ne, H. Qed.

Lemma set_column_same (name : string) (values : list DataFrame.cell)
    (df : DataFrame.t) :
  DataFrame.cols (DataFrame.set_column name values df) !! name = Some values.
Proof. unfold DataFrame.set_column. simpl. apply lookup_insert_eq. Qed.

Section Indicators.
Variable ta_ema ta_sma ta_rsi : list DataFrame.cell -> nat -> list DataFrame.cell.
Variable ta_atr :
  list DataFrame.cell -> list DataFrame.cell -> list DataFrame.cell -> nat ->
  list DataFrame.cell.
Variable ta_macd ta_bbands :
  list DataFrame.cell ->
  option (list DataFrame.cell * list DataFrame.cell * list DataFrame.cell).
Variable ta_stoch :
  list DataFrame.cell -> list DataFrame.cell -> list DataFrame.cell ->
  option (list DataFrame.cell * list DataFrame.cell).

Lemma keeps_bind (key : string) (f g : DataFrame.t -> Py.result DataFrame.t) :
  Ledger.keeps key f -> Ledger.keeps key g ->
  Ledger.keeps key (fun df => Py.bind (f df) g).
Proof.
  intros Hf Hg df df'. destruct (f df) as [d1|] eqn:E; simpl; [|discriminate].
  intros H. rewrite (Hg _ _ H). apply Hf, E.
Qed.

Lemma add_averages_keeps (key : string)
    (ta : list DataFrame.cell -> nat -> list DataFrame.cell)
    (periods : list (string * nat)) :
  List.Forall (fun x => fst x <> key) periods ->
  Ledger.keeps key (TechnicalIndicators.add_averages ta periods).
Proof.
  induction 1 as [|[name period] r Hn Hr IH]; intros df df'; simpl.
  - intros H; injection H as <-. reflexivity.
  - destruct (DataFrame.column df "close") as [c|]; simpl; [|discriminate].
    intros H. rewrite (IH _ _ H). apply set_column_other. exact Hn.
Qed.

Lemma add_atr_keeps (key : string) (period : nat) :
  "atr" <> key ->
  Ledger.keeps key (fun df => TechnicalIndicators.add_atr ta_atr df period).
Proof.
  intros Hk df df'. unfold TechnicalIndicators.add_atr.
  destruct (DataFrame.column df "high"); simpl; [|discriminate].
  destruct (DataFrame.column df "low"); simpl; [|discriminate].
  destruct (DataFrame.column df "close"); simpl; [|discriminate].
  intros H; injection H as <-. apply set_column_other, Hk.
Qed.

(** [add_atr] writes the average true range under the name [atr]. *)
Lemma add_atr_writes_atr (df df' : DataFrame.t) (period : nat) :
  TechnicalIndicators.add_atr ta_atr df period = Py.Ok df' ->
  exists high low close,
    DataFrame.cols df !! "high" = Some high
    /\ DataFrame.cols df !! "low" = Some low
    /\ DataFrame.cols df !! "close" = Some close
    /\ DataFrame.cols df' !! "atr" = Some (ta_atr high low close period).
Proof.
  unfold TechnicalIndicators.add_atr, DataFrame.column.
  destruct (DataFrame.cols df !! "high") as [h|]; simpl; [|discriminate].
  destruct (DataFrame.cols df !! "low") as [l|]; simpl; [|discriminate].
  destruct (DataFrame.cols df !! "close") as [c|]; simpl; [|discriminate].
  intros H; injection H as <-. exists h, l, c.
  repeat split. apply set_column_same.
Qed.

(** The engine never writes a column named [atr_14]. *)
Lemma add_all_indicators_keeps_atr_14 :
  Ledger.keeps "atr_14"
    (TechnicalIndicators.add_all_indicators ta_ema ta_sma ta_rsi ta_atr ta_macd
       ta_bbands ta_stoch).
Proof.
  intros df df'. unfold TechnicalIndicators.add_all_indicators.
  destruct (_ || _); [intros H; injection H as <-; reflexivity|].
  revert df df'.
  change (Ledger.keeps "atr_14" (fun df =>
    Py.bind (TechnicalIndicators.add_ema ta_ema df
               [("ema_9", 9%nat); ("ema_20", 20%nat); ("ema_21", 21%nat);
                ("ema_50", 50%nat); ("ema_200", 200%nat)])
      (fun df => Py.bind (TechnicalIndicators.add_sma ta_sma df
                            [("sma_20", 20%nat); ("sma_50", 50%nat);
                             ("sma_200", 200%nat)])
      (fun df => Py.bind (TechnicalIndicators.add_rsi ta_rsi df 14)
      (fun df => Py.bind (TechnicalIndicators.add_macd ta_macd df)
      (fun df => Py.bind (TechnicalIndicators.add_stochastic ta_stoch df)
      (fun df => Py.bind (TechnicalIndicators.add_bollinger_bands ta_bbands df)
      (fun df => Py.bind (TechnicalIndicators.add_atr ta_atr df 14)
      (fun df => TechnicalIndicators.add_volume_sma ta_sma df 20))))))))).
  repeat apply keeps_bind.
  - apply add_averages_keeps. repeat constructor; discriminate.
  - apply add_averages_keeps. repeat constructor; discriminate.
  - intros df df'. unfold TechnicalIndicators.add_rsi.
    destruct (DataFrame.column df "close"); simpl; [|discriminate].
    intros H; injection H as <-. apply set_column_other. discriminate.
  - intros df df'. unfold TechnicalIndicators.add_macd.
    destruct (DataFrame.column df "close"); simpl; [|discriminate].
    destruct (ta_macd _) as [[[m s] h]|]; intros H; injection H as <-;
      [|reflexivity].
    rewrite !set_column_other by discriminate. reflexivity.
  - intros df df'. unfold TechnicalIndicators.add_stochastic.
    destruct (DataFrame.column df "high"); simpl; [|discriminate].
    destruct (DataFrame.column df "low"); simpl; [|discriminate].
    destruct (DataFrame.column df "close"); simpl; [|discriminate].
    destruct (ta_stoch _ _ _) as [[k d]|]; intros H; injection H as <-;
      [|reflexivity].
    rewrite !set_column_other by discriminate. reflexivity.
  - intros df df'. unfold TechnicalIndicators.add_bollinger_bands.
    destruct (DataFrame.column df "close"); simpl; [|discriminate].
    destruct (ta_bbands _) as [[[l m] u]|]; intros H; injection H as <-;
      [|reflexivity].
    rewrite !set_column_other by discriminate. reflexivity.
  - apply add_atr_keeps. discriminate.
  - intros df df'. unfold TechnicalIndicators.add_volume_sma.
    destruct (DataFrame.column df "volume"); simpl; [|discriminate].
    intros H; injection H as <-. apply set_column_other. discriminate.
Qed.
End Indicators.

Lemma latest_get_missing (df : DataFrame.t) (name : string)
    (default : DataFrame.cell) :
  DataFrame.cols df !! name = None ->
  DataFrame.latest_get df name default = default.
Proof. unfold DataFrame.latest_get. intros ->. reflexivity. Qed.

(** On a table without a column [atr_14], the levels of a BUY or SELL
    signal are built from 2% of the price, whatever the column [atr]
    holds. *)
Lemma analyze_levels_without_atr_14 (fmt2 fmt1 : DataFrame.cell -> string)
    (symbol : string) (data : gmap string DataFrame.t) (df : DataFrame.t)
    (current_price : Q) :
  data !! "1h" = Some df ->
  DataFrame.cols df !! "atr_14" = None ->
  let s := BollingerBreakoutStrategy.analyze fmt2 fmt1 symbol data current_price in
  let atr := current_price * (2 # 100) in
  match BollingerBreakoutStrategy.signal_type s with
  | SignalType.BUY =>
      Ledger.level_is (BollingerBreakoutStrategy.stop_loss s) (current_price - 2 * atr)
      /\ Ledger.level_is (BollingerBreakoutStrategy.take_profit s) (current_price + 3 * atr)
  | SignalType.SELL =>
      Ledger.level_is (BollingerBreakoutStrategy.stop_loss s) (current_price + 2 * atr)
      /\ Ledger.level_is (BollingerBreakoutStrategy.take_profit s) (current_price - 3 * atr)
  | SignalType.HOLD => True
  end.
Proof.
  intros Hdata Hcol. unfold BollingerBreakoutStrategy.analyze. rewrite Hdata.
  destruct (_ || _); [exact I|].
  rewrite (latest_get_missing df "atr_14" _ Hcol).
  destruct (DataFrame.cgt (Some current_price) _);
    [|destruct (DataFrame.clt (Some current_price) _)];
    try destruct (DataFrame.cgt _ (Some BollingerBreakoutStrategy.volume_threshold));
    simpl; try exact I; split; reflexivity.
Qed.

(** C7 (the code on a table of the engine): fifty candles go through
    [add_all_indicators], which writes an average true range of 5 in the
    column [atr]; at price 100 the strategy gives BUY.  The claim gives
    stop-loss 100 - 2 x 5 = 90 and take-profit 100 + 3 x 5 = 115; the
    strategy reads the column [atr_14], which the engine never writes,
    falls back to 2% of the price, and gives 96 and 106. *)
Theorem C7_bollinger_levels_ignore_atr_column :
  exists df,
    Sample.add_all_indicators Sample.candles = Py.Ok df
    /\ DataFrame.latest_get df "atr" None = Some 5
    /\ DataFrame.cols df !! "atr_14" = None
    /\ let s := BollingerBreakoutStrategy.analyze Sample.fmt Sample.fmt "BTC/USDT"
                  {[ "1h" := df ]} 100 in
       BollingerBreakoutStrategy.signal_type s = SignalType.BUY
       /\ Ledger.level_is (BollingerBreakoutStrategy.stop_loss s) 96
       /\ Ledger.level_is (BollingerBreakoutStrategy.take_profit s) 106
       /\ ~ Ledger.level_is (BollingerBreakoutStrategy.stop_loss s) (100 - 2 * 5)
       /\ ~ Ledger.level_is (BollingerBreakoutStrategy.take_profit s) (100 + 3 * 5).
Proof.
  eexists. split; [vm_compute; reflexivity|].
  vm_compute. repeat split; discriminate.
Qed.

(** ** [normalize_environment] (C8)                                       *)

Lemma lstrip_all_space_app (pre s : string) :
  Whitespace.all_space pre = true -> PyStr.lstrip (pre ++ s) = PyStr.lstrip s.
Proof.
  induction pre as [|c r IH]; simpl; [reflexivity|].
  intros H. apply andb_true_iff in H. destruct H as [Hc Hr].
  rewrite Hc. apply IH, Hr.
Qed.

Lemma lstrip_all_space (s : string) :
  Whitespace.all_space s = true -> PyStr.lstrip s = "".
Proof.
  induction s as [|c r IH]; simpl; [reflexivity|].
  intros H. apply andb_true_iff in H. destruct H as [Hc Hr].
  rewrite Hc. apply IH, Hr.
Qed.

Lemma lstrip_no_leading_space (s : string) :
  Whitespace.starts_space s = false -> PyStr.lstrip s = s.
Proof. destruct s as [|c r]; simpl; [reflexivity|]. intros ->. reflexivity. Qed.

Lemma rstrip_all_space (s : string) :
  Whitespace.all_space s = true -> PyStr.rstrip s = "".
Proof.
  induction s as [|c r IH]; simpl; [reflexivity|].
  intros H. apply andb_true_iff in H. destruct H as [Hc Hr].
  rewrite (IH Hr), Hc. reflexivity.
Qed.

Lemma rstrip_no_trailing_space (s : string) :
  Whitespace.ends_space s = false -> PyStr.rstrip s = s.
Proof.
  induction s as [|c r IH]; [reflexivity|].
  destruct r as [|c' r'].
  - simpl. intros ->. reflexivity.
  - intros H. change (Whitespace.ends_space (String c' r') = false) in H.
    change (PyStr.rstrip (String c (String c' r')))
      with (match PyStr.rstrip (String c' r') with
            | EmptyString => if PyStr.isspace c then EmptyString
                             else String c EmptyString
            | r0 => String c r0
            end).
    rewrite (IH H). reflexivity.
Qed.

Lemma rstrip_app_all_space (s post : string) :
  Whitespace.all_space post = true ->
  PyStr.rstrip (s ++ post) = PyStr.rstrip s.
Proof.
  intros Hpost. induction s as [|c r IH]; simpl.
  - apply rstrip_all_space, Hpost.
  - rewrite IH. reflexivity.
Qed.

(** Trimming removes the white space around a core that has none at its
    ends. *)
Lemma strip_around (pre core post : string) :
  Whitespace.all_space pre = true -> Whitespace.all_space post = true ->
  Whitespace.starts_space core = false -> Whitespace.ends_space core = false ->
  PyStr.strip (pre ++ core ++ post) = core.
Proof.
  intros Hpre Hpost Hs He. unfold PyStr.strip.
  rewrite (lstrip_all_space_app _ _ Hpre).
  destruct core as [|c r].
  - change (PyStr.rstrip (PyStr.lstrip post) = "").
    rewrite (lstrip_all_space post Hpost). reflexivity.
  - rewrite lstrip_no_leading_space by exact Hs.
    rewrite (rstrip_app_all_space _ _ Hpost).
    apply rstrip_no_trailing_space, He.
Qed.

(** Every string is a core without white space at its ends, between two
    runs of white space; the core is what [strip] returns. *)
Lemma strip_decomposition (s : string) :
  exists pre post,
    s = pre ++ PyStr.strip s ++ post
    /\ Whitespace.all_space pre = true /\ Whitespace.all_space post = true
    /\ Whitespace.starts_space (PyStr.strip s) = false
    /\ Whitespace.ends_space (PyStr.strip s) = false.
Proof.
  assert (Hl : forall s, exists pre,
             s = pre ++ PyStr.lstrip s /\ Whitespace.all_space pre = true
             /\ Whitespace.starts_space (PyStr.lstrip s) = false).
  { clear s. induction s as [|c r (pre & Hr & Hpre & Hst)].
    - exists "". repeat split.
    - simpl PyStr.lstrip. destruct (PyStr.isspace c) eqn:Ec.
      + exists (String c pre). split; [|split].
        * change (String c r = String c (pre ++ PyStr.lstrip r)).
          f_equal. exact Hr.
        * simpl. rewrite Ec. exact Hpre.
        * exact Hst.
      + exists "". split; [reflexivity|]. split; [reflexivity|exact Ec]. }
  assert (Hr : forall t, exists post,
             t = PyStr.rstrip t ++ post /\ Whitespace.all_space post = true
             /\ Whitespace.ends_space (PyStr.rstrip t) = false
             /\ (Whitespace.starts_space t = false ->
                 Whitespace.starts_space (PyStr.rstrip t) = false)).
  { clear s Hl. induction t as [|c r (post & Hr & Hpost & Hend & _)].
    - exists "". repeat split.
    - simpl PyStr.rstrip. destruct (PyStr.rstrip r) as [|c' r'] eqn:Er.
      + change (r = post) in Hr. destruct (PyStr.isspace c) eqn:Ec.
        * exists (String c post). split; [|split; [|split]].
          -- change (String c r = String c post). f_equal. exact Hr.
          -- simpl. rewrite Ec. exact Hpost.
          -- reflexivity.
          -- intros _. reflexivity.
        * exists post. split; [|split; [|split]].
          -- change (String c r = String c post). f_equal. exact Hr.
          -- exact Hpost.
          -- exact Ec.
          -- intros H. exact H.
      + exists post. split; [|split; [|split]].
        * change (String c r = String c (String c' r' ++ post)).
          f_equal. exact Hr.
        * exact Hpost.
        * exact Hend.
        * intros H. exact H. }
  destruct (Hl s) as (pre & Hs & Hpre & Hst).
  destruct (Hr (PyStr.lstrip s)) as (post & Ht & Hpost & Hend & Hkeep).
  exists pre, post. unfold PyStr.strip.
  split; [|split; [exact Hpre|split; [exact Hpost|split; [exact (Hkeep Hst)|exact Hend]]]].
  rewrite <- Ht. exact Hs.
Qed.

(** Lower-casing maps the ASCII capitals to the small letters and leaves
    the small letters, digits and punctuation as they are. *)
Lemma lower_char_ascii (c : ascii) :
  (nat_of_ascii c < 128)%nat ->
  PyStr.lower_char c
  = if ((65 <=? nat_of_ascii c) && (nat_of_ascii c <=? 90))%nat
    then ascii_of_nat (nat_of_ascii c + 32) else c.
Proof.
  intros H. unfold PyStr.lower_char.
  destruct ((65 <=? nat_of_ascii c) && (nat_of_ascii c <=? 90))%nat eqn:E;
    [reflexivity|].
  assert (H192 : (192 <=? nat_of_ascii c)%nat = false)
    by (apply Nat.leb_gt; lia).
  rewrite H192. reflexivity.
Qed.

Lemma lower_idempotent (s : string) : PyStr.lower (PyStr.lower s) = PyStr.lower s.
Proof.
  induction s as [|c r IH]; simpl; [reflexivity|]. rewrite IH. f_equal.
  clear. destruct c as [[] [] [] [] [] [] [] []]; reflexivity.
Qed.

Lemma mem_In (x : string) (l : list string) : PyStr.mem x l = true <-> List.In x l.
Proof.
  unfold PyStr.mem. rewrite List.existsb_exists. split.
  - intros (y & Hy & E). apply String.eqb_eq in E. subst. exact Hy.
  - intros H. exists x. split; [exact H|apply String.eqb_refl].
Qed.

(** C8: a non-empty environment string, read as white space, a core
    without white space at its ends, and white space, is normalised from
    its lower-cased core: to [production] when that is one of production,
    prod, mainnet, live; to [testnet] when it is one of testnet, sandbox,
    demo; and it raises the 400 error otherwise. *)
Theorem C8_normalize_environment (pre core post : string) :
  Whitespace.all_space pre = true -> Whitespace.all_space post = true ->
  Whitespace.starts_space core = false -> Whitespace.ends_space core = false ->
  pre ++ core ++ post <> "" ->
  WalletService.normalize_environment (Some (pre ++ core ++ post))
  = if PyStr.mem (PyStr.lower core) ["production"; "prod"; "mainnet"; "live"]
    then Py.Ok "production"
    else if PyStr.mem (PyStr.lower core) ["testnet"; "sandbox"; "demo"]
    then Py.Ok "testnet"
    else Py.Raise (Py.HTTPException 400
                     "Unsupported environment. Use 'production' or 'testnet'.").
Proof.
  intros Hpre Hpost Hs He Hne.
  unfold WalletService.normalize_environment.
  rewrite (strip_around pre core post Hpre Hpost Hs He).
  destruct (pre ++ core ++ post) as [|c r] eqn:E; [contradiction|].
  set (n := PyStr.lower core).
  unfold WalletService.find_target, WalletService.SUPPORTED_ENVIRONMENTS,
    WalletService.production_aliases, WalletService.testnet_aliases,
    WalletService.unsupported, PyStr.mem.
  simpl existsb.
  destruct (String.eqb n "production"), (String.eqb n "prod"),
    (String.eqb n "mainnet"), (String.eqb n "live"),
    (String.eqb n "testnet"), (String.eqb n "sandbox"),
    (String.eqb n "demo"); reflexivity.
Qed.

Lemma C8_normalize_environment_witness :
  WalletService.normalize_environment (Some " Live ") = Py.Ok "production"
  /\ WalletService.normalize_environment (Some "staging")
     = Py.Raise (Py.HTTPException 400
                   "Unsupported environment. Use 'production' or 'testnet'.").
Proof.
  split.
  - exact (C8_normalize_environment " " "Live" " " eq_refl eq_refl eq_refl eq_refl
             ltac:(discriminate)).
  - exact (C8_normalize_environment "" "staging" "" eq_refl eq_refl eq_refl eq_refl
             ltac:(discriminate)).
Defined.

(** The inputs of the spec, and the default for no value. *)
Example normalize_environment_examples :
  WalletService.normalize_environment (Some "PROD") = Py.Ok "production"
  /\ WalletService.normalize_environment (Some "mainnet") = Py.Ok "production"
  /\ WalletService.normalize_environment (Some "Sandbox") = Py.Ok "testnet"
  /\ WalletService.normalize_environment (Some "DEMO") = Py.Ok "testnet"
  /\ WalletService.normalize_environment (Some "   ")
     = Py.Raise WalletService.unsupported
  /\ WalletService.normalize_environment (Some "") = Py.Ok "production"
  /\ WalletService.normalize_environment None = Py.Ok "production".
Proof. repeat split. Qed.

(** ** [GET /logs] (C9)                                                   *)

(** An execution id is set when it is a number other than 0 (ids are
    primary keys, which start at 1). *)
Lemma truthy_int_true (x : option Z) :
  Py.truthy_int x = true <-> exists n, x = Some n /\ n <> 0%Z.
Proof.
  destruct x as [n|]; simpl.
  - rewrite negb_true_iff, Z.eqb_neq. split.
    + intros H. exists n. auto.
    + intros (m & Hm & H). injection Hm as <-. exact H.
  - split; [discriminate | intros (m & Hm & _); discriminate].
Qed.

(** C9: the answer of [GET /logs] is the same for any two callers; it
    holds exactly the buffered entries whose execution id is set, in the
    order of the buffer; and an entry of an execution that another user
    owns is in the answer to this caller. *)
Theorem C9_logs_do_not_depend_on_caller (bot_logs : list ApiServer.log_entry)
    (user_a user_b : Z) (d : DB.t) :
  ApiServer.get_bot_logs user_a bot_logs = ApiServer.get_bot_logs user_b bot_logs
  /\ (forall e,
         List.In e (ApiServer.get_bot_logs user_a bot_logs)
         <-> List.In e bot_logs
             /\ exists n, ApiServer.bot_execution_id e = Some n /\ n <> 0%Z)
  /\ (forall older newer,
         bot_logs = (older ++ newer)%list ->
         ApiServer.get_bot_logs user_a bot_logs
         = (ApiServer.get_bot_logs user_a older
            ++ ApiServer.get_bot_logs user_a newer)%list)
  /\ (forall e execution other,
         List.In e bot_logs ->
         ApiServer.bot_execution_id e = Some execution -> execution <> 0%Z ->
         ApiServer.owner d execution = Some other -> other <> user_a ->
         List.In e (ApiServer.get_bot_logs user_a bot_logs)).
Proof.
  split; [reflexivity|]. split; [|split].
  - intros e. unfold ApiServer.get_bot_logs.
    rewrite List.filter_In, truthy_int_true. reflexivity.
  - intros older newer ->. unfold ApiServer.get_bot_logs. apply List.filter_app.
  - intros e execution other Hin He Hnz _ _. unfold ApiServer.get_bot_logs.
    apply List.filter_In. split; [exact Hin|].
    apply truthy_int_true. exists execution. auto.
Qed.

Lemma C9_logs_do_not_depend_on_caller_witness :
  ApiServer.owner (SignalProcessor.db Sample.world0) 1 = Some 7%Z
  /\ ApiServer.get_bot_logs 8 Sample.bot_logs
     = ApiServer.get_bot_logs 7 Sample.bot_logs
  /\ List.In Sample.log_of_user_7 (ApiServer.get_bot_logs 8 Sample.bot_logs)
  /\ ~ List.In Sample.log_of_system (ApiServer.get_bot_logs 8 Sample.bot_logs).
Proof.
  destruct (C9_logs_do_not_depend_on_caller Sample.bot_logs 8 7
              (SignalProcessor.db Sample.world0)) as (Hsame & Hexact & _ & Hleak).
  split; [reflexivity|]. split; [exact Hsame|]. split.
  - apply (Hleak Sample.log_of_user_7 1%Z 7%Z).
    + left. reflexivity.
    + reflexivity.
    + discriminate.
    + reflexivity.
    + discriminate.
  - intros H. apply Hexact in H. destruct H as (_ & n & Hn & _). discriminate.
Defined.

(** The buffer keeps the last [MAX_LOG_LINES] entries. *)
Lemma append_log_bounded (bot_logs : list ApiServer.log_entry)
    (entry : ApiServer.log_entry) :
  (length bot_logs <= ApiServer.MAX_LOG_LINES)%nat ->
  (length (ApiServer.append_log bot_logs entry) <= ApiServer.MAX_LOG_LINES)%nat.
Proof.
  intros H. unfold ApiServer.append_log.
  destruct (_ <? _)%nat eqn:E.
  - assert (Hl : length (bot_logs ++ [entry])%list = S (length bot_logs))
      by (rewrite List.length_app; simpl; lia).
    destruct (bot_logs ++ [entry])%list as [|x r]; simpl in *; lia.
  - apply Nat.ltb_ge in E. exact E.
Qed.

(* ===================================================================== *)
(** * Further properties of the order ledger                              *)
(* ===================================================================== *)

Section TableKeys.
Context {A K : Type}.
Variable key : A -> K.
Variable p : A -> bool.

Lemma map_update_first (f : A -> A) (l : list A) :
  (forall x, key (f x) = key x) ->
  List.map key (DB.update_first p f l) = List.map key l.
Proof.
  intros Hf. induction l as [|x r IH]; simpl; [reflexivity|].
  destruct (p x); simpl; [rewrite Hf; reflexivity | rewrite IH; reflexivity].
Qed.

Lemma map_update_first_found (f : A -> A) (l : list A) (x : A) :
  DB.first p l = Some x -> key (f x) = key x ->
  List.map key (DB.update_first p f l) = List.map key l.
Proof.
  unfold DB.first. induction l as [|y r IH]; simpl; [discriminate|].
  destruct (p y); intros H Hf; simpl.
  - injection H as ->. rewrite Hf. reflexivity.
  - rewrite IH; auto.
Qed.

Lemma In_map_delete_first (l : list A) (k : K) :
  List.In k (List.map key (DB.delete_first p l)) -> List.In k (List.map key l).
Proof.
  induction l as [|x r IH]; simpl; [auto|].
  destruct (p x); simpl; [auto|]. intros [H|H]; auto.
Qed.

Lemma NoDup_map_delete_first (l : list A) :
  List.NoDup (List.map key l) -> List.NoDup (List.map key (DB.delete_first p l)).
Proof.
  induction l as [|x r IH]; simpl; [auto|].
  intros H. apply List.NoDup_cons_iff in H. destruct H as [Hx Hr].
  destruct (p x); simpl; [exact Hr|].
  apply List.NoDup_cons; [|auto].
  intros H. apply Hx. apply In_map_delete_first, H.
Qed.

Lemma first_None_forall (l : list A) :
  DB.first p l = None -> forall x, List.In x l -> p x = false.
Proof. unfold DB.first. apply List.find_none. Qed.

Lemma update_first_missing (f : A -> A) (l : list A) :
  DB.first p l = None -> DB.update_first p f l = l.
Proof.
  unfold DB.first. induction l as [|x r IH]; simpl; [reflexivity|].
  destruct (p x); [discriminate|]. intros H. rewrite IH; auto.
Qed.
End TableKeys.

Lemma first_app_new {A : Type} (p : A -> bool) (l : list A) (x : A) :
  DB.first p l = None -> p x = true -> DB.first p (l ++ [x])%list = Some x.
Proof.
  unfold DB.first. induction l as [|y r IH]; simpl.
  - intros _ ->. reflexivity.
  - destruct (p y); [discriminate|]. auto.
Qed.

Lemma first_app_old {A : Type} (p : A -> bool) (l : list A) (x : A) :
  p x = false -> DB.first p (l ++ [x])%list = DB.first p l.
Proof.
  unfold DB.first. intros Hx. induction l as [|y r IH]; simpl.
  - rewrite Hx. reflexivity.
  - destruct (p y); auto.
Qed.

Lemma first_update_first_other {A : Type} (p q : A -> bool) (f : A -> A)
    (l : list A) :
  (forall x, p x = true -> q x = false) ->
  (forall x, p x = true -> q (f x) = false) ->
  DB.first q (DB.update_first p f l) = DB.first q l.
Proof.
  unfold DB.first. intros H1 H2. induction l as [|y r IH]; simpl; [reflexivity|].
  destruct (p y) eqn:E; simpl.
  - rewrite (H1 y E), (H2 y E). reflexivity.
  - destruct (q y); auto.
Qed.

Lemma has_order_id_exists (order_id : string) (l : list Order.t) :
  existsb (TradingManager.has_order_id order_id) l = true
  <-> List.In order_id (List.map Order.order_id l).
Proof.
  rewrite List.existsb_exists, List.in_map_iff. unfold TradingManager.has_order_id.
  split; intros (o & H1 & H2).
  - apply String.eqb_eq in H2. eauto.
  - exists o. split; [exact H2|]. apply String.eqb_eq. exact H1.
Qed.

Lemma has_order_id_first_None (order_id : string) (l : list Order.t) :
  ~ List.In order_id (List.map Order.order_id l) ->
  DB.first (TradingManager.has_order_id order_id) l = None.
Proof.
  intros H. unfold DB.first.
  destruct (List.find _ l) as [o|] eqn:E; [|reflexivity].
  apply List.find_some in E. destruct E as [Hin Ho].
  exfalso. apply H. apply has_order_id_exists.
  apply List.existsb_exists. eauto.
Qed.

(** X1: [create_order] with an id that is not in the table returns the id
    and adds one row that a query by that id finds: PENDING, nothing
    filled, with the arguments of the call and the manager's execution and
    user; queries by any other id answer as before, and positions and
    trades are untouched.  With an id that is in the table it returns
    [None] and leaves the database as it was. *)
Theorem create_order_then_query (self : TradingManager.t) (d : DB.t)
    (uuid12 : string) (now : Z) (symbol side order_type : string) (quantity : Q)
    (price : option Q) :
  let order_id := "ORD-" ++ uuid12 in
  let out := TradingManager.create_order self d uuid12 now symbol side
               order_type quantity price in
  (~ List.In order_id (Books.order_ids d) ->
   snd out = Some order_id
   /\ (exists o,
          DB.first (TradingManager.has_order_id order_id) (DB.orders (fst out))
          = Some o
          /\ Order.status o = "PENDING"
          /\ Order.filled_quantity o = Some 0
          /\ Order.quantity o = quantity /\ Order.price o = price
          /\ Order.symbol o = symbol /\ Order.side o = side
          /\ Order.order_type o = order_type
          /\ Order.bot_execution_id o = TradingManager.bot_execution_id self
          /\ Order.user_id o = TradingManager.user_id self)
   /\ (forall other, other <> order_id ->
          DB.first (TradingManager.has_order_id other) (DB.orders (fst out))
          = DB.first (TradingManager.has_order_id other) (DB.orders d))
   /\ DB.positions (fst out) = DB.positions d
   /\ DB.trade_history (fst out) = DB.trade_history d)
  /\ (List.In order_id (Books.order_ids d) -> out = (d, None)).
Proof.
  intros order_id out. subst out. unfold TradingManager.create_order.
  fold order_id. split.
  - intros Hfresh.
    assert (He : existsb (TradingManager.has_order_id order_id) (DB.orders d)
                 = false).
    { apply not_true_iff_false. intros H. apply Hfresh.
      apply has_order_id_exists, H. }
    rewrite He. simpl. split; [reflexivity|]. split; [|split; [|split]].
    + eexists. split.
      * apply first_app_new; [apply has_order_id_first_None, Hfresh|].
        change (String.eqb order_id order_id = true). apply String.eqb_refl.
      * simpl. repeat split.
    + intros other Hne. apply first_app_old.
      change (String.eqb order_id other = false). apply String.eqb_neq.
      intros H. apply Hne. symmetry. exact H.
    + reflexivity.
    + reflexivity.
  - intros Hdup. apply has_order_id_exists in Hdup. rewrite Hdup. reflexivity.
Qed.

Lemma create_order_then_query_witness :
  snd (TradingManager.create_order Sample.tm DB.empty "0123456789AB" 10
         "BTC/USDT" "BUY" "LIMIT" 3 (Some 100)) = Some "ORD-0123456789AB"
  /\ TradingManager.create_order Sample.tm Sample.db_2_of_3 "0123456789AB" 10
       "BTC/USDT" "BUY" "LIMIT" 3 (Some 100) = (Sample.db_2_of_3, None).
Proof.
  destruct (create_order_then_query Sample.tm DB.empty "0123456789AB" 10
              "BTC/USDT" "BUY" "LIMIT" 3 (Some 100)) as [Hfresh _].
  destruct (create_order_then_query Sample.tm Sample.db_2_of_3 "0123456789AB" 10
              "BTC/USDT" "BUY" "LIMIT" 3 (Some 100)) as [_ Hdup].
  split.
  - apply Hfresh. intros H. exact H.
  - apply Hdup. left. reflexivity.
Defined.

(** X2: [cancel_order] on an order that exists writes CANCELLED whatever
    the status was (FILLED too), keeps the filled quantity, the quantity,
    the price and the fill time, and touches no other order, no position
    and no trade; on an id that does not exist it changes nothing. *)
Theorem cancel_order_any_status (self : TradingManager.t) (d : DB.t)
    (order_id : string) :
  let d' := TradingManager.cancel_order self d order_id in
  (forall o,
      DB.first (TradingManager.has_order_id order_id) (DB.orders d) = Some o ->
      (exists o',
          DB.first (TradingManager.has_order_id order_id) (DB.orders d') = Some o'
          /\ Order.status o' = "CANCELLED"
          /\ Order.filled_quantity o' = Order.filled_quantity o
          /\ Order.quantity o' = Order.quantity o
          /\ Order.price o' = Order.price o
          /\ Order.filled_at o' = Order.filled_at o)
      /\ (forall other, other <> order_id ->
             DB.first (TradingManager.has_order_id other) (DB.orders d')
             = DB.first (TradingManager.has_order_id other) (DB.orders d))
      /\ DB.positions d' = DB.positions d
      /\ DB.trade_history d' = DB.trade_history d)
  /\ (DB.first (TradingManager.has_order_id order_id) (DB.orders d) = None ->
      d' = d).
Proof.
  intros d'. subst d'. unfold TradingManager.cancel_order. split.
  - intros o Hfirst. rewrite Hfirst. simpl. split; [|split; [|split]].
    + exists (Order.with_status "CANCELLED" o). split; [|repeat split].
      apply first_update_first; [exact Hfirst|].
      apply (first_In _ _ _ Hfirst).
    + intros other Hne. apply first_update_first_other.
      * intros x Hx. unfold TradingManager.has_order_id in *.
        apply String.eqb_eq in Hx. apply String.eqb_neq. congruence.
      * intros x Hx. unfold TradingManager.has_order_id in *.
        apply String.eqb_eq in Hx. apply String.eqb_neq.
        destruct x; simpl in *. congruence.
    + reflexivity.
    + reflexivity.
  - intros ->. reflexivity.
Qed.

Lemma cancel_order_any_status_witness :
  let filled := TradingManager.run DB.empty (firstn 3 Sample.ops_overfill) in
  let cancelled := TradingManager.cancel_order Sample.tm filled "ORD-0123456789AB" in
  List.map Order.status (DB.orders filled) = ["FILLED"]
  /\ (exists o',
         DB.first (TradingManager.has_order_id "ORD-0123456789AB")
                  (DB.orders cancelled) = Some o'
         /\ Order.status o' = "CANCELLED"
         /\ Order.filled_quantity o' = Some 3)
  /\ length (DB.positions cancelled) = 1%nat.
Proof.
  intros filled cancelled.
  destruct (cancel_order_any_status Sample.tm filled "ORD-0123456789AB")
    as [Hfound _].
  assert (Ho : exists o,
             DB.first (TradingManager.has_order_id "ORD-0123456789AB")
                      (DB.orders filled) = Some o
             /\ Order.filled_quantity o = Some 3).
  { eexists. split; vm_compute; reflexivity. }
  destruct Ho as (o & Ho & Hf).
  destruct (Hfound o Ho) as ((o' & Ho' & Hs & Hq & _) & _ & Hp & _).
  split; [vm_compute; reflexivity|]. split.
  - exists o'. split; [exact Ho'|]. split; [exact Hs|]. rewrite Hq. exact Hf.
  - fold cancelled in Hp. rewrite Hp. vm_compute. reflexivity.
Defined.

(** ** Keys stay unique                                                   *)

Lemma NoDup_snoc {K : Type} (l : list K) (k : K) :
  List.NoDup l -> ~ List.In k l -> List.NoDup (l ++ [k])%list.
Proof.
  induction l as [|x r IH]; simpl; intros Hl Hk.
  - constructor; [intros []|constructor].
  - apply List.NoDup_cons_iff in Hl. destruct Hl as [Hx Hr].
    apply List.NoDup_cons.
    + intros H. apply List.in_app_or in H. destruct H as [H|[H|[]]]; auto.
    + apply IH; auto.
Qed.

Lemma fill_order_try_order_id (self : TradingManager.t) (d d' : DB.t) (now : Z)
    (o : Order.t) (fp sl tp : option Q) (order : Order.instance) :
  TradingManager.fill_order_try self d now o fp sl tp = Py.Ok (order, d') ->
  Order.order_id (Order.row order) = Order.order_id o.
Proof.
  unfold TradingManager.fill_order_try.
  destruct (Py.truthy fp); simpl;
    destruct (String.eqb _ _);
    try (destruct (TradingManager._open_position _ _ _ _ _ _ _ _); simpl;
         [|discriminate]; intros H; injection H as <- _; reflexivity);
    destruct (String.eqb _ _);
    try (destruct (TradingManager._close_position _ _ _ _ _ _); simpl;
         [|discriminate]; intros H; injection H as <- _; reflexivity);
    simpl; intros H; injection H as <- _; reflexivity.
Qed.

Lemma step_order_ids (self : TradingManager.t) (now : Z) (d : DB.t)
    (o : TradingManager.op) :
  Books.order_ids (TradingManager.step self now d o) = Books.order_ids d
  \/ exists id, ~ List.In id (Books.order_ids d)
               /\ Books.order_ids (TradingManager.step self now d o)
                  = (Books.order_ids d ++ [id])%list.
Proof.
  destruct o as [u sy si ty q p|oid q p|oid p sl tp|oid]; simpl.
  - unfold TradingManager.create_order.
    destruct (existsb _ _) eqn:E; simpl; [left; reflexivity|].
    right. exists ("ORD-" ++ u). split.
    + intros H. apply has_order_id_exists in H. congruence.
    + unfold Books.order_ids. simpl. rewrite List.map_app. reflexivity.
  - rewrite partial_fill_inert. left. reflexivity.
  - left. unfold TradingManager.fill_order.
    destruct (DB.first _ _) as [o|] eqn:Hfirst; [|reflexivity].
    destruct (TradingManager.fill_order_try _ _ _ _ _ _ _) as [[order d']|] eqn:E;
      [|reflexivity].
    pose proof (fill_order_try_order_id _ _ _ _ _ _ _ _ _ E) as Hid.
    apply fill_order_try_order in E. destruct E as (Ho & _).
    unfold Books.order_ids. simpl. rewrite Ho.
    apply (map_update_first_found _ _ _ _ o Hfirst). exact Hid.
  - left. unfold TradingManager.cancel_order.
    destruct (DB.first _ _); [|reflexivity].
    unfold Books.order_ids. simpl. apply map_update_first.
    intros x. reflexivity.
Qed.

(** X3: over any run of create, partial-fill, fill and cancel operations
    the exchange order ids stay pairwise distinct and no order is ever
    removed: the ids of the start are still there, in the same order, at
    the front of the table. *)
Theorem order_ids_stay_unique (d : DB.t)
    (ops : list (TradingManager.t * Z * TradingManager.op)) :
  List.NoDup (Books.order_ids d) ->
  List.NoDup (Books.order_ids (TradingManager.run d ops))
  /\ exists added,
       Books.order_ids (TradingManager.run d ops)
       = (Books.order_ids d ++ added)%list.
Proof.
  unfold TradingManager.run. revert d.
  induction ops as [|[[self now] o] r IH]; intros d Hd; simpl.
  - split; [exact Hd|]. exists []. rewrite List.app_nil_r. reflexivity.
  - destruct (step_order_ids self now d o) as [Heq|(id & Hid & Heq)].
    + destruct (IH (TradingManager.step self now d o)) as [H1 (added & H2)].
      { rewrite Heq. exact Hd. }
      split; [exact H1|]. exists added. rewrite H2, Heq. reflexivity.
    + destruct (IH (TradingManager.step self now d o)) as [H1 (added & H2)].
      { rewrite Heq. apply NoDup_snoc; assumption. }
      split; [exact H1|]. exists (id :: added).
      rewrite H2, Heq, <- List.app_assoc. reflexivity.
Qed.

Lemma order_ids_stay_unique_witness :
  List.NoDup (Books.order_ids (TradingManager.run DB.empty Sample.ops_overfill))
  /\ exists added,
       Books.order_ids (TradingManager.run DB.empty Sample.ops_overfill)
       = (Books.order_ids DB.empty ++ added)%list.
Proof.
  apply (order_ids_stay_unique DB.empty Sample.ops_overfill). constructor.
Defined.

Lemma position_of_key (self : TradingManager.t) (symbol : string)
    (p : Position.t) :
  TradingManager.position_of self symbol p = true
  <-> Books.position_key p = (TradingManager.bot_execution_id self, symbol).
Proof.
  unfold TradingManager.position_of, Books.position_key.
  rewrite andb_true_iff, Z.eqb_eq, String.eqb_eq. split.
  - intros [-> ->]. reflexivity.
  - intros H. injection H as -> ->. auto.
Qed.

Lemma open_position_keys (self : TradingManager.t) (d d' : DB.t) (now : Z)
    (symbol : string) (ep : option Q) (q : Q) (sl tp : option Q) :
  TradingManager._open_position self d now symbol ep q sl tp = Py.Ok d' ->
  List.NoDup (Books.position_keys d) -> List.NoDup (Books.position_keys d').
Proof.
  unfold TradingManager._open_position, Books.position_keys.
  destruct (DB.first _ _) as [position|] eqn:Hfirst;
    destruct ep as [e|]; simpl; try discriminate.
  - destruct (Py.div _ _); simpl; [|discriminate].
    intros H; injection H as <-. simpl.
    rewrite map_update_first; [auto|]. intros x. reflexivity.
  - intros H; injection H as <-. simpl. rewrite List.map_app. simpl.
    intros Hd. apply NoDup_snoc; [exact Hd|].
    intros Hin. apply List.in_map_iff in Hin. destruct Hin as (x & Hk & Hx).
    pose proof (first_None_forall _ _ Hfirst x Hx) as Hno.
    apply not_true_iff_false in Hno. apply Hno.
    apply position_of_key. exact Hk.
Qed.

Lemma close_position_keys (self : TradingManager.t) (d d' : DB.t) (now : Z)
    (symbol : string) (xp : option Q) (q : Q) :
  TradingManager._close_position self d now symbol xp q = Py.Ok d' ->
  List.NoDup (Books.position_keys d) -> List.NoDup (Books.position_keys d').
Proof.
  unfold TradingManager._close_position, Books.position_keys.
  destruct (DB.first _ _) as [position|].
  - destruct xp as [x|]; simpl; [|discriminate].
    destruct (Py.ge _ _); intros H; injection H as <-; simpl.
    + apply NoDup_map_delete_first.
    + rewrite map_update_first; [auto|]. intros y. reflexivity.
  - intros H; injection H as <-. auto.
Qed.

Lemma step_position_keys (self : TradingManager.t) (now : Z) (d : DB.t)
    (o : TradingManager.op) :
  List.NoDup (Books.position_keys d) ->
  List.NoDup (Books.position_keys (TradingManager.step self now d o)).
Proof.
  intros Hd. destruct o as [u sy si ty q p|oid q p|oid p sl tp|oid]; simpl.
  - unfold TradingManager.create_order. destruct (existsb _ _); exact Hd.
  - rewrite partial_fill_inert. exact Hd.
  - unfold TradingManager.fill_order.
    destruct (DB.first _ _) as [o|]; [|exact Hd].
    destruct (TradingManager.fill_order_try _ _ _ _ _ _ _) as [[order d']|] eqn:E;
      [|exact Hd].
    change (List.NoDup (Books.position_keys d')).
    unfold TradingManager.fill_order_try in E.
    destruct (Py.truthy p); simpl in E;
      destruct (String.eqb (Order.side o) "BUY");
      try (destruct (TradingManager._open_position _ _ _ _ _ _ _ _) eqn:E1;
           simpl in E; [|discriminate]; injection E as _ <-;
           exact (open_position_keys _ _ _ _ _ _ _ _ _ E1 Hd));
      destruct (String.eqb (Order.side o) "SELL");
      try (destruct (TradingManager._close_position _ _ _ _ _ _) eqn:E1;
           simpl in E; [|discriminate]; injection E as _ <-;
           exact (close_position_keys _ _ _ _ _ _ _ E1 Hd));
      simpl in E; injection E as _ <-; exact Hd.
  - unfold TradingManager.cancel_order. destruct (DB.first _ _); exact Hd.
Qed.

(** X4: an execution never holds two positions in one symbol.  From a
    table in which the pairs (execution, symbol) are distinct, every run of
    create, partial-fill, fill and cancel operations leaves them distinct:
    a BUY fill merges into the position there is, and adds one only when
    there is none. *)
Theorem one_position_per_symbol (d : DB.t)
    (ops : list (TradingManager.t * Z * TradingManager.op)) :
  List.NoDup (Books.position_keys d) ->
  List.NoDup (Books.position_keys (TradingManager.run d ops)).
Proof.
  unfold TradingManager.run. revert d.
  induction ops as [|[[self now] o] r IH]; intros d Hd; simpl; [exact Hd|].
  apply IH. apply step_position_keys. exact Hd.
Qed.

Lemma one_position_per_symbol_witness :
  List.NoDup (Books.position_keys (TradingManager.run DB.empty Sample.ops_overfill))
  /\ Books.position_keys (TradingManager.run DB.empty Sample.ops_overfill)
     = [(1%Z, "BTC/USDT")].
Proof.
  split.
  - apply (one_position_per_symbol DB.empty Sample.ops_overfill). constructor.
  - vm_compute. reflexivity.
Defined.

(** ** Fills that change less than one expects                            *)

(** X5: [fill_order] changes nothing for an id that is not in the table,
    and nothing for a BUY order that has no price of its own when no fill
    price is given (the position step raises and the session is rolled
    back: the order is not marked FILLED). *)
Theorem fill_order_without_price_rolls_back (self : TradingManager.t) (d : DB.t)
    (now : Z) (order_id : string) (filled_price stop_loss take_profit : option Q) :
  (DB.first (TradingManager.has_order_id order_id) (DB.orders d) = None ->
   TradingManager.fill_order self d now order_id filled_price stop_loss
     take_profit = d)
  /\ (forall o,
         DB.first (TradingManager.has_order_id order_id) (DB.orders d) = Some o ->
         Order.side o = "BUY" -> Order.price o = None ->
         Py.truthy filled_price = false ->
         TradingManager.fill_order self d now order_id filled_price stop_loss
           take_profit = d).
Proof.
  split.
  - intros H. unfold TradingManager.fill_order. rewrite H. reflexivity.
  - intros o Hfirst Hside Hprice Hfp.
    pose proof (fill_order_reaches_positions self d now order_id o filled_price
                  stop_loss take_profit Hfirst) as H.
    simpl in H. rewrite Hside, Hfp, Hprice in H. simpl in H.
    unfold TradingManager._open_position in H.
    destruct (DB.first _ (DB.positions d)); simpl in H; exact H.
Qed.

Lemma fill_order_without_price_rolls_back_witness :
  let d := fst (TradingManager.create_order Sample.tm DB.empty "0123456789AB" 10
                  "BTC/USDT" "BUY" "MARKET" 3 None) in
  TradingManager.fill_order Sample.tm d 11 "ORD-0123456789AB" None None None = d
  /\ List.map Order.status (DB.orders d) = ["PENDING"].
Proof.
  intros d.
  destruct (fill_order_without_price_rolls_back Sample.tm d 11 "ORD-0123456789AB"
              None None None) as [_ H].
  split; [|reflexivity].
  eapply H; reflexivity.
Defined.

(** X6: a SELL order for a symbol in which the execution holds no position
    is still marked FILLED for its whole quantity, while no trade is
    recorded and the position table is left as it was. *)
Theorem fill_order_sell_without_position (self : TradingManager.t) (d : DB.t)
    (now : Z) (order_id : string) (o : Order.t)
    (filled_price stop_loss take_profit : option Q) :
  DB.first (TradingManager.has_order_id order_id) (DB.orders d) = Some o ->
  Order.side o = "SELL" ->
  DB.first (TradingManager.position_of self (Order.symbol o)) (DB.positions d)
  = None ->
  let d' := TradingManager.fill_order self d now order_id filled_price
              stop_loss take_profit in
  (exists o',
      DB.first (TradingManager.has_order_id order_id) (DB.orders d') = Some o'
      /\ Order.status o' = "FILLED"
      /\ Order.filled_quantity o' = Some (Order.quantity o))
  /\ DB.trade_history d' = DB.trade_history d
  /\ DB.positions d' = DB.positions d.
Proof.
  intros Hfirst Hside Hnone d'. subst d'.
  pose proof (first_In _ _ _ Hfirst) as [_ Hid].
  unfold TradingManager.fill_order. rewrite Hfirst.
  unfold TradingManager.fill_order_try.
  destruct (Py.truthy filled_price); simpl; rewrite Hside; simpl;
    unfold TradingManager._close_position; simpl; rewrite Hnone; simpl;
    (split; [|split; reflexivity]);
    eexists; (split; [apply first_update_first; [exact Hfirst|exact Hid]|]);
    split; reflexivity.
Qed.

Lemma fill_order_sell_without_position_witness :
  let d := fst (TradingManager.create_order Sample.tm DB.empty "0123456789AB" 10
                  "BTC/USDT" "SELL" "MARKET" 3 (Some 100)) in
  let d' := TradingManager.fill_order Sample.tm d 11 "ORD-0123456789AB"
              (Some 100) None None in
  (exists o',
      DB.first (TradingManager.has_order_id "ORD-0123456789AB") (DB.orders d')
      = Some o'
      /\ Order.status o' = "FILLED" /\ Order.filled_quantity o' = Some 3)
  /\ DB.trade_history d' = [] /\ DB.positions d' = [].
Proof.
  intros d d'.
  assert (Ho : exists o,
             DB.first (TradingManager.has_order_id "ORD-0123456789AB")
                      (DB.orders d) = Some o
             /\ Order.side o = "SELL" /\ Order.symbol o = "BTC/USDT"
             /\ Order.quantity o = 3).
  { eexists. repeat split. }
  destruct Ho as (o & Ho & Hside & Hsym & Hq).
  destruct (fill_order_sell_without_position Sample.tm d 11 "ORD-0123456789AB" o
              (Some 100) None None Ho Hside) as ((o' & H1 & H2 & H3) & H4 & H5).
  { rewrite Hsym. reflexivity. }
  split; [|split; assumption].
  exists o'. split; [exact H1|]. split; [exact H2|]. rewrite H3, Hq. reflexivity.
Defined.

(** ** Closing part of a position, and opening then closing               *)

(** X7: selling less than the position holds reduces the position by the
    quantity sold and keeps its entry price, stop-loss and take-profit; the
    row stays in the table and one trade of the quantity sold is added. *)
Theorem close_position_partial (self : TradingManager.t) (d : DB.t) (now : Z)
    (symbol : string) (exit_price quantity : Q) (position : Position.t) :
  DB.first (TradingManager.position_of self symbol) (DB.positions d)
  = Some position ->
  quantity < Position.quantity position ->
  exists d' position' trade,
    TradingManager._close_position self d now symbol (Some exit_price) quantity
    = Py.Ok d'
    /\ DB.first (TradingManager.position_of self symbol) (DB.positions d')
       = Some position'
    /\ Position.quantity position' = Position.quantity position - quantity
    /\ Position.entry_price position' = Position.entry_price position
    /\ Position.stop_loss position' = Position.stop_loss position
    /\ Position.take_profit position' = Position.take_profit position
    /\ length (DB.positions d') = length (DB.positions d)
    /\ DB.trade_history d' = (DB.trade_history d ++ [trade])%list
    /\ TradeHistory.quantity trade = quantity.
Proof.
  intros Hfirst Hlt. unfold TradingManager._close_position. rewrite Hfirst. simpl.
  assert (Hge : Py.ge quantity (Position.quantity position) = false).
  { apply not_true_iff_false. intros H. apply py_ge_true in H.
    exact (Qlt_not_le _ _ Hlt H). }
  rewrite Hge. eexists _, _, _. split; [reflexivity|]. simpl.
  split.
  { apply first_update_first; [exact Hfirst|]. apply (first_In _ _ _ Hfirst). }
  simpl. repeat split. apply update_first_length.
Qed.

Lemma close_position_partial_witness :
  exists d' position',
    TradingManager._close_position Sample.tm Sample.db_position 20 "BTC/USDT"
      (Some 110) (1 # 4) = Py.Ok d'
    /\ DB.first (TradingManager.position_of Sample.tm "BTC/USDT") (DB.positions d')
       = Some position'
    /\ Position.quantity position' == 3 # 4
    /\ length (DB.trade_history d') = 1%nat.
Proof.
  destruct (close_position_partial Sample.tm Sample.db_position 20 "BTC/USDT"
              110 (1 # 4) Sample.position_1_at_100 eq_refl)
    as (d' & p' & t & H & Hf & Hq & _ & _ & _ & _ & Ht & _).
  - reflexivity.
  - exists d', p'. split; [exact H|]. split; [exact Hf|]. split.
    + rewrite Hq. vm_compute. reflexivity.
    + rewrite Ht. reflexivity.
Defined.

Lemma delete_first_app_new {A : Type} (p : A -> bool) (l : list A) (x : A) :
  DB.first p l = None -> p x = true -> DB.delete_first p (l ++ [x])%list = l.
Proof.
  unfold DB.first. induction l as [|y r IH]; simpl.
  - intros _ ->. reflexivity.
  - destruct (p y); [discriminate|]. intros H Hx. rewrite IH; auto.
Qed.

(** X8: opening a position where there was none and then selling the same
    quantity brings the position table back to what it was and adds one
    trade, bought at the entry price, sold at the exit price, with pnl
    (exit - entry) x quantity, opened at the time of the buy. *)
Theorem open_then_close_round_trip (self : TradingManager.t) (d : DB.t)
    (opened closed : Z) (symbol : string) (entry_price exit_price quantity : Q)
    (stop_loss take_profit : option Q) :
  DB.first (TradingManager.position_of self symbol) (DB.positions d) = None ->
  exists d1 d2 trade,
    TradingManager._open_position self d opened symbol (Some entry_price)
      quantity stop_loss take_profit = Py.Ok d1
    /\ TradingManager._close_position self d1 closed symbol (Some exit_price)
         quantity = Py.Ok d2
    /\ DB.positions d2 = DB.positions d
    /\ DB.orders d2 = DB.orders d
    /\ DB.trade_history d2 = (DB.trade_history d ++ [trade])%list
    /\ TradeHistory.buy_price trade = entry_price
    /\ TradeHistory.sell_price trade = exit_price
    /\ TradeHistory.quantity trade = quantity
    /\ TradeHistory.pnl trade == (exit_price - entry_price) * quantity
    /\ TradeHistory.opened_at trade = opened
    /\ TradeHistory.closed_at trade = closed.
Proof.
  intros Hnone.
  set (position :=
         Position.mk (DB.next_id d) (TradingManager.bot_execution_id self)
           (TradingManager.user_id self) symbol entry_price quantity
           (Some entry_price) (Some 0) stop_loss take_profit opened).
  assert (Hkey : TradingManager.position_of self symbol position = true).
  { unfold TradingManager.position_of. simpl.
    rewrite Z.eqb_refl, String.eqb_refl. reflexivity. }
  unfold TradingManager._open_position. rewrite Hnone. simpl.
  eexists _, _, _. split; [reflexivity|].
  unfold TradingManager._close_position. simpl.
  fold position. rewrite (first_app_new _ _ _ Hnone Hkey). simpl.
  assert (Hge : Py.ge quantity quantity = true)
    by (apply py_ge_true, Qle_refl).
  rewrite Hge. split; [reflexivity|]. simpl.
  rewrite (delete_first_app_new _ _ _ Hnone Hkey).
  repeat split; reflexivity.
Qed.

Lemma open_then_close_round_trip_witness :
  exists d1 d2 trade,
    TradingManager._open_position Sample.tm DB.empty 10 "BTC/USDT" (Some 100) 2
      (Some 95) (Some 110) = Py.Ok d1
    /\ TradingManager._close_position Sample.tm d1 20 "BTC/USDT" (Some 103) 2
       = Py.Ok d2
    /\ DB.positions d2 = []
    /\ DB.trade_history d2 = [trade]
    /\ TradeHistory.pnl trade == 6.
Proof.
  destruct (open_then_close_round_trip Sample.tm DB.empty 10 20 "BTC/USDT"
              100 103 2 (Some 95) (Some 110) eq_refl)
    as (d1 & d2 & t & H1 & H2 & Hp & _ & Ht & _ & _ & _ & Hpnl & _).
  exists d1, d2, t. split; [exact H1|]. split; [exact H2|].
  split; [exact Hp|]. split; [exact Ht|].
  rewrite Hpnl. vm_compute. reflexivity.
Defined.

(** ** Marking positions to market                                        *)

Lemma position_of_with_mark (self : TradingManager.t) (symbol : string)
    (cp pnl : Q) (p : Position.t) :
  TradingManager.position_of self symbol (Position.with_mark cp pnl p)
  = TradingManager.position_of self symbol p.
Proof. reflexivity. Qed.

(** X10: [update_positions_price] writes the price and the unrealized pnl
    (price - entry) x quantity on the positions of this execution in this
    symbol and on no other row; it moves no entry price, quantity,
    stop-loss or take-profit, adds and removes no row, and leaves orders
    and trades alone.  Doing it twice with one price is doing it once. *)
Theorem update_positions_price_marks_only (self : TradingManager.t) (d : DB.t)
    (symbol : string) (current_price : Q) :
  let d' := TradingManager.update_positions_price self d symbol current_price in
  Forall2
    (fun p p' =>
       Position.id p' = Position.id p
       /\ Books.position_key p' = Books.position_key p
       /\ Position.entry_price p' = Position.entry_price p
       /\ Position.quantity p' = Position.quantity p
       /\ Position.stop_loss p' = Position.stop_loss p
       /\ Position.take_profit p' = Position.take_profit p
       /\ (Books.position_key p = (TradingManager.bot_execution_id self, symbol) ->
           Position.current_price p' = Some current_price
           /\ Position.unrealized_pnl p'
              = Some ((current_price - Position.entry_price p)
                      * Position.quantity p))
       /\ (Books.position_key p <> (TradingManager.bot_execution_id self, symbol) ->
           p' = p))
    (DB.positions d) (DB.positions d')
  /\ DB.orders d' = DB.orders d
  /\ DB.trade_history d' = DB.trade_history d
  /\ TradingManager.update_positions_price self d' symbol current_price = d'.
Proof.
  intros d'. subst d'. unfold TradingManager.update_positions_price. simpl.
  split; [|split; [reflexivity|split; [reflexivity|]]].
  - induction (DB.positions d) as [|p r IH]; simpl; constructor; [|exact IH].
    destruct (TradingManager.position_of self symbol p) eqn:E;
      do 6 (split; [reflexivity|]); split.
    + intros _. split; reflexivity.
    + intros Hk. exfalso. apply Hk. apply position_of_key, E.
    + intros Hk. apply position_of_key in Hk. congruence.
    + intros _. reflexivity.
  - unfold DB.with_positions. simpl. f_equal.
    rewrite List.map_map. apply List.map_ext. intros p.
    destruct (TradingManager.position_of self symbol p) eqn:E.
    + rewrite position_of_with_mark, E. reflexivity.
    + rewrite E. reflexivity.
Qed.

(* ===================================================================== *)
(** * Further properties of the signal processor                          *)
(* ===================================================================== *)

Section Executions.
Variable get_testnet_balance : list Exchange.request -> Q.
Variable place_market_order :
  list Exchange.request -> Exchange.request -> option Exchange.order.

(** X11: a call of [execute_signal] either changes nothing at all and
    returns [False], or sends exactly one market order, for the symbol of
    the call, on the side of the signal and for a positive amount; it
    returns [True] only in the second case. *)
Theorem execute_signal_one_order_or_nothing (self : SignalProcessor.t)
    (w : SignalProcessor.world) (uuid12 : string) (now : Z) (symbol : string)
    (signal : TradingSignal.t) (order_size : option Q) :
  let out := SignalProcessor.execute_signal get_testnet_balance
               place_market_order self w uuid12 now symbol signal order_size in
  out = (w, false)
  \/ exists req,
       SignalProcessor.placed (fst out) = (SignalProcessor.placed w ++ [req])%list
       /\ Exchange.req_symbol req = symbol
       /\ Exchange.req_side req
          = (match TradingSignal.signal signal with
             | SignalType.BUY => "buy"
             | _ => "sell"
             end)
       /\ 0 < Exchange.req_amount req
       /\ TradingSignal.signal signal <> SignalType.HOLD
       /\ SignalProcessor.min_confidence self <= TradingSignal.confidence signal.
Proof.
  intros out. subst out. unfold SignalProcessor.execute_signal.
  destruct (SignalType.eqb (TradingSignal.signal signal) SignalType.HOLD) eqn:Eh;
    [left; reflexivity|].
  destruct (Py.lt _ _) eqn:Ec; [left; reflexivity|].
  set (size := match order_size with
               | Some s => s
               | None => SignalProcessor._calculate_order_size
                           get_testnet_balance w signal
               end).
  destruct (Py.le size 0) eqn:Es; [left; reflexivity|].
  destruct (SignalProcessor._should_execute self w symbol signal);
    [|left; reflexivity].
  right. simpl.
  exists (Exchange.mk_request symbol
            (if SignalType.eqb (TradingSignal.signal signal) SignalType.BUY
             then "buy" else "sell") size).
  split; [|split; [reflexivity|split; [|split; [|split]]]].
  - destruct (place_market_order _ _) as [order|]; simpl; [|reflexivity].
    destruct (Py.float _); reflexivity.
  - simpl. destruct (TradingSignal.signal signal); reflexivity.
  - simpl. apply Qnot_le_lt. intros H. apply py_le_true in H. congruence.
  - intros H. rewrite H in Eh. discriminate.
  - apply Qnot_lt_le. intros H. apply py_lt_true in H. congruence.
Qed.

(** X12: a BUY that reached the venue and was answered makes the processor
    track the symbol on the buy side, and from then on it refuses every
    further BUY signal for that symbol, whatever its confidence or size:
    the call returns [False] and changes nothing. *)
Theorem no_second_buy_on_tracked_symbol (self : SignalProcessor.t)
    (w : SignalProcessor.world) (uuid12 uuid12' : string) (now now' : Z)
    (symbol : string) (signal signal' : TradingSignal.t)
    (order_size order_size' : option Q) (order : Exchange.order) :
  let out := SignalProcessor.execute_signal get_testnet_balance
               place_market_order self w uuid12 now symbol signal order_size in
  TradingSignal.signal signal = SignalType.BUY ->
  TradingSignal.signal signal' = SignalType.BUY ->
  SignalProcessor.placed (fst out) <> SignalProcessor.placed w ->
  place_market_order (SignalProcessor.placed w)
    (Exchange.mk_request symbol "buy"
       (match order_size with
        | Some s => s
        | None => SignalProcessor._calculate_order_size get_testnet_balance w signal
        end)) = Some order ->
  (exists entry,
      SignalProcessor.positions (fst out) !! symbol = Some entry
      /\ SignalProcessor.pos_side entry = "buy")
  /\ SignalProcessor.execute_signal get_testnet_balance place_market_order self
       (fst out) uuid12' now' symbol signal' order_size'
     = (fst out, false).
Proof.
  intros out Hbuy Hbuy' Hplaced Hanswer.
  assert (Htracked : exists entry,
             SignalProcessor.positions (fst out) !! symbol = Some entry
             /\ SignalProcessor.pos_side entry = "buy").
  { subst out. revert Hplaced. unfold SignalProcessor.execute_signal.
    rewrite Hbuy. simpl.
    destruct (Py.lt _ _); [intros H; exfalso; apply H; reflexivity|].
    destruct (Py.le _ 0); [intros H; exfalso; apply H; reflexivity|].
    destruct (SignalProcessor._should_execute _ _ _ _);
      [|intros H; exfalso; apply H; reflexivity].
    simpl. rewrite Hanswer. intros _.
    eexists. split.
    - destruct (Py.float _); simpl; apply lookup_insert_eq.
    - rewrite Hbuy. reflexivity. }
  split; [exact Htracked|].
  destruct Htracked as (entry & Hentry & Hside).
  unfold SignalProcessor.execute_signal at 1. rewrite Hbuy'. simpl.
  destruct (Py.lt _ _); [reflexivity|].
  destruct (Py.le _ 0); [reflexivity|].
  unfold SignalProcessor._should_execute. rewrite Hbuy', Hentry, Hside.
  reflexivity.
Qed.

(** X13: a SELL signal for a symbol that the processor does not track is
    never sent to the venue, whatever its confidence and size: the call
    returns [False] and changes nothing.  A processor starts with nothing
    tracked. *)
Theorem sell_needs_tracked_position (self : SignalProcessor.t)
    (w : SignalProcessor.world) (uuid12 : string) (now : Z) (symbol : string)
    (signal : TradingSignal.t) (order_size : option Q) :
  TradingSignal.signal signal = SignalType.SELL ->
  SignalProcessor.positions w !! symbol = None ->
  SignalProcessor.execute_signal get_testnet_balance place_market_order self w
    uuid12 now symbol signal order_size = (w, false).
Proof.
  intros Hsell Hnone. unfold SignalProcessor.execute_signal.
  rewrite Hsell. simpl.
  destruct (Py.lt _ _); [reflexivity|].
  destruct (Py.le _ 0); [reflexivity|].
  unfold SignalProcessor._should_execute. rewrite Hsell, Hnone. reflexivity.
Qed.

(** X14: when the venue does not answer the order (an error, or nothing),
    the call returns [False]; the order was sent, but nothing is written
    to the database and the symbol is not tracked. *)
Theorem rejected_order_leaves_no_record (self : SignalProcessor.t)
    (w : SignalProcessor.world) (uuid12 : string) (now : Z) (symbol : string)
    (signal : TradingSignal.t) (order_size : option Q) :
  (forall req, place_market_order (SignalProcessor.placed w) req = None) ->
  let out := SignalProcessor.execute_signal get_testnet_balance
               place_market_order self w uuid12 now symbol signal order_size in
  snd out = false
  /\ SignalProcessor.db (fst out) = SignalProcessor.db w
  /\ SignalProcessor.positions (fst out) = SignalProcessor.positions w.
Proof.
  intros Hnone out. subst out. unfold SignalProcessor.execute_signal.
  destruct (SignalType.eqb _ SignalType.HOLD); [repeat split|].
  destruct (Py.lt _ _); [repeat split|].
  destruct (Py.le _ 0); [repeat split|].
  destruct (SignalProcessor._should_execute _ _ _ _); [|repeat split].
  simpl. rewrite Hnone. repeat split.
Qed.

(** X15: when the venue answers with an order that carries no price and the
    signal has no entry price to stand in for it (or the answer carries the
    key [price] with [None]), the order has been sent and the symbol is
    tracked, yet the call returns [False]: the success banner formats the
    price as a number and raises. *)
Theorem answered_order_without_price_returns_false (self : SignalProcessor.t)
    (w : SignalProcessor.world) (uuid12 : string) (now : Z) (symbol : string)
    (signal : TradingSignal.t) (order_size : option Q) (order : Exchange.order) :
  let out := SignalProcessor.execute_signal get_testnet_balance
               place_market_order self w uuid12 now symbol signal order_size in
  SignalProcessor.placed (fst out) <> SignalProcessor.placed w ->
  (forall req, place_market_order (SignalProcessor.placed w) req = Some order) ->
  Exchange.get_or (Exchange.price order) (TradingSignal.entry_price signal) = None ->
  snd out = false
  /\ exists entry,
       SignalProcessor.positions (fst out) !! symbol = Some entry
       /\ SignalProcessor.pos_order_id entry = Exchange.id order.
Proof.
  intros out Hplaced Hanswer Hprice. subst out. revert Hplaced.
  unfold SignalProcessor.execute_signal.
  destruct (SignalType.eqb _ SignalType.HOLD);
    [intros H; exfalso; apply H; reflexivity|].
  destruct (Py.lt _ _); [intros H; exfalso; apply H; reflexivity|].
  destruct (Py.le _ 0); [intros H; exfalso; apply H; reflexivity|].
  destruct (SignalProcessor._should_execute _ _ _ _);
    [|intros H; exfalso; apply H; reflexivity].
  simpl. rewrite Hanswer, Hprice. simpl. intros _.
  split; [reflexivity|].
  eexists. split; [apply lookup_insert_eq|reflexivity].
Qed.

(** X16: without an order size from the caller, a signal that has no entry
    price, or one that is not positive, gets size 0 and is not executed. *)
Theorem no_entry_price_no_order (self : SignalProcessor.t)
    (w : SignalProcessor.world) (uuid12 : string) (now : Z) (symbol : string)
    (signal : TradingSignal.t) :
  (forall ep, TradingSignal.entry_price signal = Some ep -> ep <= 0) ->
  SignalProcessor._calculate_order_size get_testnet_balance w signal == 0
  /\ SignalProcessor.execute_signal get_testnet_balance place_market_order self w
       uuid12 now symbol signal None = (w, false).
Proof.
  intros Hep.
  assert (Hsize : SignalProcessor._calculate_order_size get_testnet_balance w signal
                  = PyStr.round 0 6).
  { unfold SignalProcessor._calculate_order_size.
    destruct (TradingSignal.entry_price signal) as [ep|] eqn:E; [|reflexivity].
    assert (Hgt : Py.gt ep 0 = false).
    { apply not_true_iff_false. intros H. apply py_gt_true in H.
      exact (Qlt_not_le _ _ H (Hep ep eq_refl)). }
    rewrite Hgt, andb_false_r. reflexivity. }
  split.
  - rewrite Hsize. vm_compute. reflexivity.
  - unfold SignalProcessor.execute_signal.
    destruct (SignalType.eqb _ SignalType.HOLD); [reflexivity|].
    destruct (Py.lt _ _); [reflexivity|].
    rewrite Hsize. reflexivity.
Qed.
End Executions.

Lemma no_second_buy_on_tracked_symbol_witness :
  let out := SignalProcessor.execute_signal Sample.balance Sample.venue
               Sample.processor Sample.world0 "AAAAAAAAAAAA" 10 "BTC/USDT"
               Sample.signal_buy_50 (Some 1) in
  snd out = true
  /\ SignalProcessor.execute_signal Sample.balance Sample.venue Sample.processor
       (fst out) "BBBBBBBBBBBB" 20 "BTC/USDT" Sample.signal_buy_50 (Some 1)
     = (fst out, false).
Proof.
  intros out. split; [vm_compute; reflexivity|].
  apply (no_second_buy_on_tracked_symbol Sample.balance Sample.venue
           Sample.processor Sample.world0 "AAAAAAAAAAAA" "BBBBBBBBBBBB" 10 20
           "BTC/USDT" Sample.signal_buy_50 Sample.signal_buy_50 (Some 1) (Some 1)
           (Exchange.mk_order (Some "42") (Some (Some 100)) (Some 1) (Some 1)
              (Some "closed"))).
  - reflexivity.
  - reflexivity.
  - vm_compute. discriminate.
  - reflexivity.
Defined.

Lemma sell_needs_tracked_position_witness :
  SignalProcessor.execute_signal Sample.balance Sample.venue Sample.processor
    (SignalProcessor.mk_world Sample.db_position ∅ []) "AAAAAAAAAAAA" 10
    "BTC/USDT" Scenario.signal_sell_90 (Some 1)
  = (SignalProcessor.mk_world Sample.db_position ∅ [], false).
Proof.
  apply sell_needs_tracked_position; reflexivity.
Defined.

Lemma rejected_order_leaves_no_record_witness :
  let out := SignalProcessor.execute_signal Sample.balance Scenario.venue_down
               Sample.processor Sample.world0 "AAAAAAAAAAAA" 10 "BTC/USDT"
               Sample.signal_buy_50 (Some 1) in
  snd out = false
  /\ SignalProcessor.db (fst out) = SignalProcessor.db Sample.world0
  /\ SignalProcessor.positions (fst out) = SignalProcessor.positions Sample.world0
  /\ length (SignalProcessor.placed (fst out)) = 1%nat.
Proof.
  intros out.
  destruct (rejected_order_leaves_no_record Sample.balance Scenario.venue_down
              Sample.processor Sample.world0 "AAAAAAAAAAAA" 10 "BTC/USDT"
              Sample.signal_buy_50 (Some 1)) as (H1 & H2 & H3).
  - intros req. reflexivity.
  - split; [exact H1|]. split; [exact H2|]. split; [exact H3|].
    vm_compute. reflexivity.
Defined.

Lemma answered_order_without_price_returns_false_witness :
  let out := SignalProcessor.execute_signal Sample.balance Scenario.venue_unpriced
               Sample.processor Sample.world0 "AAAAAAAAAAAA" 10 "BTC/USDT"
               Sample.signal_buy_50 (Some 1) in
  snd out = false
  /\ (exists entry,
         SignalProcessor.positions (fst out) !! "BTC/USDT" = Some entry
         /\ SignalProcessor.pos_order_id entry = Some "43")
  /\ List.map Order.status (DB.orders (SignalProcessor.db (fst out))) = ["FILLED"]
  /\ length (DB.positions (SignalProcessor.db (fst out))) = 1%nat.
Proof.
  intros out.
  destruct (answered_order_without_price_returns_false Sample.balance
              Scenario.venue_unpriced Sample.processor Sample.world0
              "AAAAAAAAAAAA" 10 "BTC/USDT" Sample.signal_buy_50 (Some 1)
              Scenario.unpriced_order) as (H1 & H2).
  - vm_compute. discriminate.
  - intros req. reflexivity.
  - reflexivity.
  - split; [exact H1|]. split; [exact H2|].
    split; vm_compute; reflexivity.
Defined.

Lemma no_entry_price_no_order_witness :
  SignalProcessor.execute_signal Sample.balance Sample.venue Sample.processor
    Sample.world0 "AAAAAAAAAAAA" 10 "BTC/USDT" Scenario.signal_buy_no_price None
  = (Sample.world0, false).
Proof.
  apply (no_entry_price_no_order Sample.balance Sample.venue Sample.processor
           Sample.world0 "AAAAAAAAAAAA" 10 "BTC/USDT" Scenario.signal_buy_no_price).
  intros ep H. discriminate.
Defined.

(* ===================================================================== *)
(** * Further properties of the position monitor                          *)
(* ===================================================================== *)

Section Passes.
Variable get_latest_price : string -> option Q.

Lemma monitor_position_count
    (helper : SignalProcessor.world -> string -> Q -> string ->
              SignalProcessor.world * Py.result bool)
    (w : SignalProcessor.world) (n : nat) (position : Position.t) :
  (n <= snd (TradingBot.monitor_position_with get_latest_price helper w n position)
   <= S n)%nat.
Proof.
  unfold TradingBot.monitor_position_with.
  destruct (TradingBot.decide _ _) as [|e|reason cp|cp pnl]; simpl; try lia.
  - destruct (helper _ _ _ _) as [w' [[|]|e]]; simpl; lia.
  - destruct (TradingBot.commit_mark _ _ _ _); simpl; lia.
Qed.

Lemma monitor_fold_count
    (helper : SignalProcessor.world -> string -> Q -> string ->
              SignalProcessor.world * Py.result bool)
    (l : list Position.t) (w : SignalProcessor.world) (n : nat) :
  (n <= snd (fold_left
               (fun '(w, n) position =>
                  TradingBot.monitor_position_with get_latest_price helper w n position)
               l (w, n))
   <= n + length l)%nat.
Proof.
  revert w n. induction l as [|p r IH]; intros w n; simpl; [lia|].
  pose proof (monitor_position_count helper w n p) as Hp.
  destruct (TradingBot.monitor_position_with get_latest_price helper w n p)
    as [w' n'] eqn:E.
  simpl in Hp. specialize (IH w' n'). lia.
Qed.

(** X17: a pass of the monitor reports at most as many closed positions as
    the execution has rows in the position table, whatever the call in the
    sell branches does (in the code as it is, it raises); with no row it
    reports 0 and changes nothing. *)
Theorem monitor_closes_at_most_its_positions
    (helper : SignalProcessor.world -> string -> Q -> string ->
              SignalProcessor.world * Py.result bool)
    (bot_execution_id : Z) (w : SignalProcessor.world) :
  let mine :=
    List.filter (fun p => Z.eqb (Position.bot_execution_id p) bot_execution_id)
                (DB.positions (SignalProcessor.db w)) in
  (snd (TradingBot._monitor_positions_with get_latest_price helper bot_execution_id w)
   <= length mine)%nat
  /\ (mine = [] ->
      TradingBot._monitor_positions_with get_latest_price helper bot_execution_id w
      = (w, 0%nat)).
Proof.
  intros mine. unfold TradingBot._monitor_positions_with. fold mine. split.
  - pose proof (monitor_fold_count helper mine w 0) as H. simpl in H. lia.
  - intros ->. reflexivity.
Qed.

(** The monitor calls the helper only in the two sell branches. *)
Lemma decide_without_levels (position : Position.t) (latest : option Q) :
  Position.stop_loss position = None -> Position.take_profit position = None ->
  forall reason cp, TradingBot.decide position latest
                    <> TradingBot.ForceSell reason cp.
Proof.
  intros Hsl Htp reason cp. unfold TradingBot.decide.
  destruct latest as [c|]; [|discriminate].
  destruct (negb _); [discriminate|].
  destruct (Py.div _ _); [|discriminate].
  rewrite Hsl, Htp. simpl. discriminate.
Qed.

(** X18: positions that have neither a stop-loss nor a take-profit are never
    sold by the monitor: the pass does not depend on what the call in the
    sell branches does, reports 0 closed positions, sends nothing to the
    venue and leaves the orders, the trades and the tracked symbols as they
    were. *)
Theorem monitor_never_sells_without_levels
    (helper helper' : SignalProcessor.world -> string -> Q -> string ->
                      SignalProcessor.world * Py.result bool)
    (bot_execution_id : Z) (w : SignalProcessor.world) :
  (forall p, List.In p (DB.positions (SignalProcessor.db w)) ->
             Position.stop_loss p = None /\ Position.take_profit p = None) ->
  let out := TradingBot._monitor_positions_with get_latest_price helper
               bot_execution_id w in
  out = TradingBot._monitor_positions_with get_latest_price helper' bot_execution_id w
  /\ snd out = 0%nat
  /\ SignalProcessor.placed (fst out) = SignalProcessor.placed w
  /\ SignalProcessor.positions (fst out) = SignalProcessor.positions w
  /\ DB.orders (SignalProcessor.db (fst out)) = DB.orders (SignalProcessor.db w)
  /\ DB.trade_history (SignalProcessor.db (fst out))
     = DB.trade_history (SignalProcessor.db w).
Proof.
  intros Hlevels out. subst out. unfold TradingBot._monitor_positions_with.
  set (mine := List.filter _ _).
  assert (Hmine : forall p, List.In p mine ->
            Position.stop_loss p = None /\ Position.take_profit p = None).
  { intros p Hp. apply List.filter_In in Hp. apply Hlevels, Hp. }
  clearbody mine. clear Hlevels.
  assert (Hgen : forall (n : nat) (w0 : SignalProcessor.world),
    let run h := fold_left
                   (fun '(w, n) position =>
                      TradingBot.monitor_position_with get_latest_price h w n position)
                   mine (w0, n) in
    run helper = run helper'
    /\ snd (run helper) = n
    /\ SignalProcessor.placed (fst (run helper)) = SignalProcessor.placed w0
    /\ SignalProcessor.positions (fst (run helper)) = SignalProcessor.positions w0
    /\ DB.orders (SignalProcessor.db (fst (run helper)))
       = DB.orders (SignalProcessor.db w0)
    /\ DB.trade_history (SignalProcessor.db (fst (run helper)))
       = DB.trade_history (SignalProcessor.db w0)).
  { induction mine as [|p r IH]; intros n w0; simpl; [repeat split|].
    destruct (Hmine p (or_introl eq_refl)) as [Hsl Htp].
    assert (Hstep : forall h,
      TradingBot.monitor_position_with get_latest_price h w0 n p
      = match TradingBot.decide p (get_latest_price (Position.symbol p)) with
        | TradingBot.Mark cp pnl =>
            match TradingBot.commit_mark (SignalProcessor.db w0) p cp pnl with
            | Py.Ok d => (SignalProcessor.mk_world d (SignalProcessor.positions w0)
                            (SignalProcessor.placed w0), n)
            | Py.Raise _ => (w0, n)
            end
        | _ => (w0, n)
        end).
    { intros h. unfold TradingBot.monitor_position_with.
      pose proof (decide_without_levels p
                    (get_latest_price (Position.symbol p)) Hsl Htp) as Hno.
      destruct (TradingBot.decide _ _) as [|e|reason cp|cp pnl];
        try reflexivity.
      exfalso. exact (Hno reason cp eq_refl). }
    rewrite !Hstep.
    assert (Hr : forall q, List.In q r ->
              Position.stop_loss q = None /\ Position.take_profit q = None)
      by (intros q Hq; apply Hmine; right; exact Hq).
    destruct (TradingBot.decide _ _) as [|e|reason cp|cp pnl];
      try exact (IH Hr n w0).
    unfold TradingBot.commit_mark.
    destruct (existsb _ _); [|exact (IH Hr n w0)].
    destruct (IH Hr n
                (SignalProcessor.mk_world
                   (DB.with_positions
                      (DB.update_first (TradingBot.has_id p)
                         (Position.with_mark cp pnl)
                         (DB.positions (SignalProcessor.db w0)))
                      (SignalProcessor.db w0))
                   (SignalProcessor.positions w0) (SignalProcessor.placed w0)))
      as (H1 & H2 & H3 & H4 & H5 & H6).
    repeat split; assumption. }
  exact (Hgen 0%nat w).
Qed.

(** X19: when no price can be had for any symbol (the ticker is missing, or
    its last price is 0), a pass of the monitor does nothing: every
    position is skipped, even one whose stop-loss would be hit. *)
Theorem monitor_skips_without_price
    (helper : SignalProcessor.world -> string -> Q -> string ->
              SignalProcessor.world * Py.result bool)
    (bot_execution_id : Z) (w : SignalProcessor.world) :
  (forall symbol, Py.truthy (get_latest_price symbol) = false) ->
  TradingBot._monitor_positions_with get_latest_price helper bot_execution_id w
  = (w, 0%nat).
Proof.
  intros Hprice. unfold TradingBot._monitor_positions_with.
  induction (List.filter _ _) as [|p r IH]; simpl; [reflexivity|].
  assert (Hstep : TradingBot.monitor_position_with get_latest_price helper w 0 p
                  = (w, 0%nat)).
  { unfold TradingBot.monitor_position_with, TradingBot.decide.
    specialize (Hprice (Position.symbol p)).
    destruct (get_latest_price (Position.symbol p)) as [c|]; [|reflexivity].
    rewrite Hprice. reflexivity. }
  rewrite Hstep. exact IH.
Qed.
End Passes.

Lemma monitor_never_sells_without_levels_witness :
  let out := TradingBot._monitor_positions_with (fun _ => Some 50)
               Scenario.sell_helper_succeeds 1 Scenario.world_plain in
  out = TradingBot._monitor_positions_with (fun _ => Some 50) Sample.sell_helper_raises
          1 Scenario.world_plain
  /\ snd out = 0%nat
  /\ List.map Position.current_price (DB.positions (SignalProcessor.db (fst out)))
     = [Some 50].
Proof.
  intros out.
  destruct (monitor_never_sells_without_levels (fun _ => Some 50)
              Scenario.sell_helper_succeeds Sample.sell_helper_raises 1
              Scenario.world_plain) as (H1 & H2 & _).
  - intros p [<-|[]]. split; reflexivity.
  - split; [exact H1|]. split; [exact H2|]. vm_compute. reflexivity.
Defined.

Lemma monitor_skips_without_price_witness :
  TradingBot._monitor_positions_with (fun _ => Some 0) Scenario.sell_helper_succeeds 1
    (SignalProcessor.mk_world Sample.db_position ∅ [])
  = (SignalProcessor.mk_world Sample.db_position ∅ [], 0%nat).
Proof.
  apply (monitor_skips_without_price (fun _ => Some 0)).
  intros symbol. reflexivity.
Defined.

(* ===================================================================== *)
(** * Further properties of the indicator engine and the strategies       *)
(* ===================================================================== *)

Lemma bind_Ok_inv {A B : Type} (r : Py.result A) (k : A -> Py.result B) (b : B) :
  Py.bind r k = Py.Ok b -> exists a, r = Py.Ok a /\ k a = Py.Ok b.
Proof. destruct r as [a|e]; simpl; [eauto|discriminate]. Qed.

Lemma set_column_nrows (name : string) (values : list (option Q))
    (df : DataFrame.t) :
  DataFrame.nrows (DataFrame.set_column name values df) = DataFrame.nrows df.
Proof. reflexivity. Qed.

Section EngineSteps.
Variable ta_ema ta_sma ta_rsi : list (option Q) -> nat -> list (option Q).
Variable ta_atr :
  list (option Q) -> list (option Q) -> list (option Q) -> nat -> list (option Q).
Variable ta_macd ta_bbands :
  list (option Q) ->
  option (list (option Q) * list (option Q) * list (option Q)).
Variable ta_stoch :
  list (option Q) -> list (option Q) -> list (option Q) ->
  option (list (option Q) * list (option Q)).

Lemma step_writes_weaken (names names' : list string)
    (f : DataFrame.t -> Py.result DataFrame.t) :
  List.incl names names' -> Engine.step_writes names f -> Engine.step_writes names' f.
Proof.
  intros Hincl Hf df df' H. destruct (Hf df df' H) as [Hn Hk].
  split; [exact Hn|]. intros key Hkey. apply Hk. intros Hin.
  apply Hkey, Hincl, Hin.
Qed.

Lemma step_writes_bind (names : list string)
    (f g : DataFrame.t -> Py.result DataFrame.t) :
  Engine.step_writes names f -> Engine.step_writes names g ->
  Engine.step_writes names (fun df => Py.bind (f df) g).
Proof.
  intros Hf Hg df df'. destruct (f df) as [d1|] eqn:E; simpl; [|discriminate].
  intros H. destruct (Hf _ _ E) as [Hn1 Hk1]. destruct (Hg _ _ H) as [Hn2 Hk2].
  split; [congruence|]. intros key Hkey. rewrite Hk2, Hk1; auto.
Qed.

Lemma set_column_writes (name : string) (values : list (option Q))
    (df : DataFrame.t) (key : string) (names : list string) :
  List.In name names -> ~ List.In key names ->
  DataFrame.cols (DataFrame.set_column name values df) !! key
  = DataFrame.cols df !! key.
Proof.
  intros Hin Hkey. apply set_column_other. intros ->. contradiction.
Qed.

Lemma add_averages_writes (ta : list (option Q) -> nat -> list (option Q))
    (periods : list (string * nat)) :
  Engine.step_writes (List.map fst periods) (TechnicalIndicators.add_averages ta periods).
Proof.
  induction periods as [|[name period] r IH]; intros df df'; simpl.
  - intros H; injection H as <-. split; auto.
  - destruct (DataFrame.column df "close") as [c|]; simpl; [|discriminate].
    intros H. destruct (IH _ _ H) as [Hn Hk]. split; [exact Hn|].
    intros key Hkey. rewrite Hk by tauto.
    apply set_column_other. intros ->. apply Hkey. left. reflexivity.
Qed.

Ltac in_names := simpl; tauto.

Lemma add_rsi_writes (period : nat) :
  Engine.step_writes ["rsi"] (fun df => TechnicalIndicators.add_rsi ta_rsi df period).
Proof.
  intros df df'. unfold TechnicalIndicators.add_rsi.
  destruct (DataFrame.column df "close"); simpl; [|discriminate].
  intros H; injection H as <-. split; [reflexivity|].
  intros key Hkey. apply (set_column_writes _ _ _ _ ["rsi"]); [in_names|exact Hkey].
Qed.

Lemma add_macd_writes :
  Engine.step_writes ["macd"; "macd_signal"; "macd_histogram"]
    (TechnicalIndicators.add_macd ta_macd).
Proof.
  intros df df'. unfold TechnicalIndicators.add_macd.
  destruct (DataFrame.column df "close"); simpl; [|discriminate].
  destruct (ta_macd _) as [[[m s] h]|]; intros H; injection H as <-;
    (split; [reflexivity|]); intros key Hkey; [|reflexivity].
  rewrite !(set_column_writes _ _ _ key ["macd"; "macd_signal"; "macd_histogram"])
    by (in_names || exact Hkey).
  reflexivity.
Qed.

Lemma add_stochastic_writes :
  Engine.step_writes ["stoch_k"; "stoch_d"] (TechnicalIndicators.add_stochastic ta_stoch).
Proof.
  intros df df'. unfold TechnicalIndicators.add_stochastic.
  destruct (DataFrame.column df "high"); simpl; [|discriminate].
  destruct (DataFrame.column df "low"); simpl; [|discriminate].
  destruct (DataFrame.column df "close"); simpl; [|discriminate].
  destruct (ta_stoch _ _ _) as [[k d]|]; intros H; injection H as <-;
    (split; [reflexivity|]); intros key Hkey; [|reflexivity].
  rewrite !(set_column_writes _ _ _ key ["stoch_k"; "stoch_d"])
    by (in_names || exact Hkey).
  reflexivity.
Qed.

Lemma add_bollinger_bands_writes :
  Engine.step_writes ["bb_lower"; "bb_middle"; "bb_upper"]
    (TechnicalIndicators.add_bollinger_bands ta_bbands).
Proof.
  intros df df'. unfold TechnicalIndicators.add_bollinger_bands.
  destruct (DataFrame.column df "close"); simpl; [|discriminate].
  destruct (ta_bbands _) as [[[l m] u]|]; intros H; injection H as <-;
    (split; [reflexivity|]); intros key Hkey; [|reflexivity].
  rewrite !(set_column_writes _ _ _ key ["bb_lower"; "bb_middle"; "bb_upper"])
    by (in_names || exact Hkey).
  reflexivity.
Qed.

Lemma add_atr_writes (period : nat) :
  Engine.step_writes ["atr"] (fun df => TechnicalIndicators.add_atr ta_atr df period).
Proof.
  intros df df'. unfold TechnicalIndicators.add_atr.
  destruct (DataFrame.column df "high"); simpl; [|discriminate].
  destruct (DataFrame.column df "low"); simpl; [|discriminate].
  destruct (DataFrame.column df "close"); simpl; [|discriminate].
  intros H; injection H as <-. split; [reflexivity|].
  intros key Hkey. apply (set_column_writes _ _ _ _ ["atr"]); [in_names|exact Hkey].
Qed.

Lemma add_volume_sma_writes (period : nat) :
  Engine.step_writes ["volume_sma"]
    (fun df => TechnicalIndicators.add_volume_sma ta_sma df period).
Proof.
  intros df df'. unfold TechnicalIndicators.add_volume_sma.
  destruct (DataFrame.column df "volume"); simpl; [|discriminate].
  intros H; injection H as <-. split; [reflexivity|].
  intros key Hkey.
  apply (set_column_writes _ _ _ _ ["volume_sma"]); [in_names|exact Hkey].
Qed.

Lemma incl_indicator_columns (names : list string) :
  forallb (fun n => PyStr.mem n Engine.indicator_columns) names = true ->
  List.incl names Engine.indicator_columns.
Proof.
  intros H name Hin. rewrite List.forallb_forall in H.
  apply mem_In. apply H, Hin.
Qed.

(** Every step of [add_all_indicators] writes under the engine's names. *)
Lemma add_all_indicators_step_writes :
  Engine.step_writes Engine.indicator_columns
    (TechnicalIndicators.add_all_indicators ta_ema ta_sma ta_rsi ta_atr ta_macd
       ta_bbands ta_stoch).
Proof.
  intros d d'. unfold TechnicalIndicators.add_all_indicators.
  destruct (_ || _); [intros H; injection H as <-; split; auto|].
  revert d d'.
  change (Engine.step_writes Engine.indicator_columns (fun df =>
    Py.bind (TechnicalIndicators.add_ema ta_ema df
               [("ema_9", 9%nat); ("ema_20", 20%nat); ("ema_21", 21%nat);
                ("ema_50", 50%nat); ("ema_200", 200%nat)])
      (fun df => Py.bind (TechnicalIndicators.add_sma ta_sma df
                            [("sma_20", 20%nat); ("sma_50", 50%nat);
                             ("sma_200", 200%nat)])
      (fun df => Py.bind (TechnicalIndicators.add_rsi ta_rsi df 14)
      (fun df => Py.bind (TechnicalIndicators.add_macd ta_macd df)
      (fun df => Py.bind (TechnicalIndicators.add_stochastic ta_stoch df)
      (fun df => Py.bind (TechnicalIndicators.add_bollinger_bands ta_bbands df)
      (fun df => Py.bind (TechnicalIndicators.add_atr ta_atr df 14)
      (fun df => TechnicalIndicators.add_volume_sma ta_sma df 20))))))))).
  repeat apply step_writes_bind.
  - eapply step_writes_weaken; [|apply add_averages_writes].
    apply incl_indicator_columns. reflexivity.
  - eapply step_writes_weaken; [|apply add_averages_writes].
    apply incl_indicator_columns. reflexivity.
  - eapply step_writes_weaken; [|apply add_rsi_writes].
    apply incl_indicator_columns. reflexivity.
  - eapply step_writes_weaken; [|apply add_macd_writes].
    apply incl_indicator_columns. reflexivity.
  - eapply step_writes_weaken; [|apply add_stochastic_writes].
    apply incl_indicator_columns. reflexivity.
  - eapply step_writes_weaken; [|apply add_bollinger_bands_writes].
    apply incl_indicator_columns. reflexivity.
  - eapply step_writes_weaken; [|apply add_atr_writes].
    apply incl_indicator_columns. reflexivity.
  - eapply step_writes_weaken; [|apply add_volume_sma_writes].
    apply incl_indicator_columns. reflexivity. 
Qed.

(** X20: the engine only adds columns.  When [add_all_indicators] returns a
    table, it has the rows of the one it was given, and every column that
    is not one of the engine's own names (the candle columns timestamp,
    open, high, low, close and volume among them) is as it was. *)
Theorem add_all_indicators_only_adds (df df' : DataFrame.t) :
  TechnicalIndicators.add_all_indicators ta_ema ta_sma ta_rsi ta_atr ta_macd
    ta_bbands ta_stoch df = Py.Ok df' ->
  DataFrame.nrows df' = DataFrame.nrows df
  /\ (forall key, ~ List.In key Engine.indicator_columns ->
                  DataFrame.cols df' !! key = DataFrame.cols df !! key)
  /\ (forall key, List.In key ["timestamp"; "open"; "high"; "low"; "close"; "volume"]
                  -> DataFrame.cols df' !! key = DataFrame.cols df !! key).
Proof.
  pose proof add_all_indicators_step_writes as Hw.
  intros H. destruct (Hw df df' H) as [Hn Hk].
  split; [exact Hn|]. split; [exact Hk|].
  intros key Hkey. apply Hk. intros Hin.
  simpl in Hkey.
  repeat (destruct Hkey as [<-|Hkey];
          [apply mem_In in Hin; vm_compute in Hin; discriminate|]).
  exact Hkey.
Qed.

(** X21: the engine does nothing to a table of fewer than 50 candles (it
    returns it as it is, with no indicator column added), and on a table of
    50 or more that has no [close] column it raises [KeyError]. *)
Theorem add_all_indicators_edges (df : DataFrame.t) :
  ((DataFrame.nrows df < 50)%nat ->
   TechnicalIndicators.add_all_indicators ta_ema ta_sma ta_rsi ta_atr ta_macd
     ta_bbands ta_stoch df = Py.Ok df)
  /\ ((50 <= DataFrame.nrows df)%nat -> DataFrame.cols df <> ∅ ->
      DataFrame.cols df !! "close" = None ->
      TechnicalIndicators.add_all_indicators ta_ema ta_sma ta_rsi ta_atr ta_macd
        ta_bbands ta_stoch df = Py.Raise (Py.KeyError "close")).
Proof.
  unfold TechnicalIndicators.add_all_indicators. split.
  - intros H. apply Nat.ltb_lt in H. rewrite H, orb_true_r. reflexivity.
  - intros Hn Hcols Hclose.
    assert (He : DataFrame.empty df = false).
    { unfold DataFrame.empty. apply orb_false_iff. split.
      - apply Nat.eqb_neq. lia.
      - apply bool_decide_eq_false. exact Hcols. }
    apply Nat.ltb_ge in Hn. rewrite He, Hn. simpl.
    unfold TechnicalIndicators.add_ema. simpl.
    unfold DataFrame.column. rewrite Hclose. reflexivity.
Qed.
Ltac not_in_names :=
  simpl; intros Hin;
  repeat (destruct Hin as [Hin|Hin]; [discriminate Hin|]); exact Hin.

(** X22: on a table of 50 candles or more, when the engine returns, the
    column [atr] holds the average true range (period 14) of the high, low
    and close columns it was given, [rsi] the RSI (period 14) of the close
    column, and [volume_sma] the 20-period average of the volume column. *)
Theorem add_all_indicators_writes (df df' : DataFrame.t) :
  (50 <= DataFrame.nrows df)%nat -> DataFrame.cols df <> ∅ ->
  TechnicalIndicators.add_all_indicators ta_ema ta_sma ta_rsi ta_atr ta_macd
    ta_bbands ta_stoch df = Py.Ok df' ->
  exists high low close volume,
    DataFrame.cols df !! "high" = Some high
    /\ DataFrame.cols df !! "low" = Some low
    /\ DataFrame.cols df !! "close" = Some close
    /\ DataFrame.cols df !! "volume" = Some volume
    /\ DataFrame.cols df' !! "atr" = Some (ta_atr high low close 14)
    /\ DataFrame.cols df' !! "rsi" = Some (ta_rsi close 14)
    /\ DataFrame.cols df' !! "volume_sma" = Some (ta_sma volume 20).
Proof.
  intros Hn Hcols H.
  assert (He : DataFrame.empty df = false).
  { unfold DataFrame.empty. apply orb_false_iff. split.
    - apply Nat.eqb_neq. lia.
    - apply bool_decide_eq_false. exact Hcols. }
  unfold TechnicalIndicators.add_all_indicators in H.
  apply Nat.ltb_ge in Hn. rewrite He, Hn in H. simpl orb in H. cbv iota in H.
  apply bind_Ok_inv in H. destruct H as (d1 & E1 & H).
  apply bind_Ok_inv in H. destruct H as (d2 & E2 & H).
  apply bind_Ok_inv in H. destruct H as (d3 & E3 & H).
  apply bind_Ok_inv in H. destruct H as (d4 & E4 & H).
  apply bind_Ok_inv in H. destruct H as (d5 & E5 & H).
  apply bind_Ok_inv in H. destruct H as (d6 & E6 & H).
  apply bind_Ok_inv in H. destruct H as (d7 & E7 & H).
  destruct (add_averages_writes ta_ema _ _ _ E1) as [_ K1].
  destruct (add_averages_writes ta_sma _ _ _ E2) as [_ K2].
  destruct (add_rsi_writes 14 _ _ E3) as [_ K3].
  destruct (add_macd_writes _ _ E4) as [_ K4].
  destruct (add_stochastic_writes _ _ E5) as [_ K5].
  destruct (add_bollinger_bands_writes _ _ E6) as [_ K6].
  destruct (add_atr_writes 14 _ _ E7) as [_ K7].
  destruct (add_volume_sma_writes 20 _ _ H) as [_ K8].
  assert (Hkeep6 : forall key,
             List.In key ["high"; "low"; "close"; "volume"] ->
             DataFrame.cols d6 !! key = DataFrame.cols df !! key).
  { intros key Hkey.
    rewrite K6, K5, K4, K3, K2, K1;
      [reflexivity|..];
      simpl in Hkey;
      repeat (destruct Hkey as [<-|Hkey]; [not_in_names|]);
      destruct Hkey. }
  assert (Hkeep2 : DataFrame.cols d2 !! "close" = DataFrame.cols df !! "close").
  { rewrite K2, K1; [reflexivity|not_in_names|not_in_names]. }
  (* the average true range *)
  unfold TechnicalIndicators.add_atr, DataFrame.column in E7.
  rewrite !Hkeep6 in E7 by (simpl; tauto).
  destruct (DataFrame.cols df !! "high") as [high|]; simpl in E7; [|discriminate].
  destruct (DataFrame.cols df !! "low") as [low|]; simpl in E7; [|discriminate].
  destruct (DataFrame.cols df !! "close") as [close|] eqn:Eclose;
    simpl in E7; [|discriminate].
  injection E7 as <-.
  (* the volume average *)
  unfold TechnicalIndicators.add_volume_sma, DataFrame.column in H.
  rewrite set_column_other in H by discriminate.
  rewrite (Hkeep6 "volume") in H by (simpl; tauto).
  destruct (DataFrame.cols df !! "volume") as [volume|]; simpl in H;
    [|discriminate].
  injection H as <-.
  (* the RSI *)
  unfold TechnicalIndicators.add_rsi, DataFrame.column in E3.
  rewrite Hkeep2 in E3. simpl in E3. injection E3 as <-.
  exists high, low, close, volume.
  repeat (split; [reflexivity|]). split; [|split].
  - rewrite set_column_other by discriminate. apply set_column_same.
  - rewrite set_column_other by discriminate.
    rewrite set_column_other by discriminate.
    rewrite K6, K5, K4 by not_in_names. apply set_column_same.
  - apply set_column_same.
Qed.

End EngineSteps.

Lemma add_all_indicators_only_adds_witness :
  exists df',
    Sample.add_all_indicators Sample.candles = Py.Ok df'
    /\ DataFrame.nrows df' = 50%nat
    /\ DataFrame.cols df' !! "close" = DataFrame.cols Sample.candles !! "close".
Proof.
  assert (H : exists df', Sample.add_all_indicators Sample.candles = Py.Ok df').
  { eexists. vm_compute. reflexivity. }
  destruct H as (df' & H). exists df'. split; [exact H|].
  destruct (add_all_indicators_only_adds _ _ _ _ _ _ _ _ _ H) as (Hn & _ & Hk).
  split; [exact Hn|]. apply Hk. simpl. tauto.
Defined.

Lemma add_all_indicators_edges_witness :
  Sample.add_all_indicators Scenario.few_candles = Py.Ok Scenario.few_candles.
Proof.
  destruct (add_all_indicators_edges Sample.ta_flat Sample.ta_flat Sample.ta_flat
              Sample.ta_atr_5 Sample.ta_none3 Sample.ta_bands Sample.ta_none2
              Scenario.few_candles) as [H _].
  apply H. simpl. lia.
Defined.

Lemma add_all_indicators_writes_witness :
  exists df',
    Sample.add_all_indicators Sample.candles = Py.Ok df'
    /\ DataFrame.cols df' !! "atr" = Some (repeat (Some 5) 50).
Proof.
  assert (H : exists df', Sample.add_all_indicators Sample.candles = Py.Ok df').
  { eexists. vm_compute. reflexivity. }
  destruct H as (df' & H). exists df'. split; [exact H|].
  destruct (add_all_indicators_writes Sample.ta_flat Sample.ta_flat Sample.ta_flat
              Sample.ta_atr_5 Sample.ta_none3 Sample.ta_bands Sample.ta_none2
              Sample.candles df')
    as (high & low & close & volume & Hh & Hl & Hc & _ & Hatr & _).
  - simpl. lia.
  - vm_compute. discriminate.
  - exact H.
  - rewrite Hatr. vm_compute in Hc. injection Hc as <-. reflexivity.
Defined.


(** ** The Bollinger breakout strategy                                    *)

Section Breakouts.
Variable fmt2 fmt1 : option Q -> string.

(** X23: a signal of the Bollinger strategy is either HOLD, with no
    stop-loss and no take-profit and confidence 0, 20 or 50, or BUY or
    SELL with confidence 70 and both levels.  So every BUY or SELL it
    gives is above the executor's confidence threshold of 50, and a
    breakout on weak volume (confidence 50) is a HOLD. *)
Theorem bollinger_signal_shapes (symbol : string)
    (data : gmap string DataFrame.t) (current_price : Q) :
  let s := BollingerBreakoutStrategy.analyze fmt2 fmt1 symbol data current_price in
  ((BollingerBreakoutStrategy.signal_type s = SignalType.HOLD
    /\ BollingerBreakoutStrategy.stop_loss s = None
    /\ BollingerBreakoutStrategy.take_profit s = None
    /\ (BollingerBreakoutStrategy.confidence s == 0
        \/ BollingerBreakoutStrategy.confidence s == 20
        \/ BollingerBreakoutStrategy.confidence s == 50))
   \/ (BollingerBreakoutStrategy.signal_type s <> SignalType.HOLD
       /\ BollingerBreakoutStrategy.confidence s == 70
       /\ BollingerBreakoutStrategy.stop_loss s <> None
       /\ BollingerBreakoutStrategy.take_profit s <> None))
  /\ BollingerBreakoutStrategy.entry_price s = current_price.
Proof.
  intros s. subst s. unfold BollingerBreakoutStrategy.analyze.
  assert (Hhold0 : forall reasons,
    let s := BollingerBreakoutStrategy.mk_signal SignalType.HOLD 0 reasons
               current_price None None in
    ((BollingerBreakoutStrategy.signal_type s = SignalType.HOLD
      /\ BollingerBreakoutStrategy.stop_loss s = None
      /\ BollingerBreakoutStrategy.take_profit s = None
      /\ (BollingerBreakoutStrategy.confidence s == 0
          \/ BollingerBreakoutStrategy.confidence s == 20
          \/ BollingerBreakoutStrategy.confidence s == 50))
     \/ (BollingerBreakoutStrategy.signal_type s <> SignalType.HOLD
         /\ BollingerBreakoutStrategy.confidence s == 70
         /\ BollingerBreakoutStrategy.stop_loss s <> None
         /\ BollingerBreakoutStrategy.take_profit s <> None))
    /\ BollingerBreakoutStrategy.entry_price s = current_price).
  { intros reasons. simpl. split; [|reflexivity]. left.
    repeat split. left. reflexivity. }
  destruct (data !! "1h") as [df|]; [|apply Hhold0].
  destruct (_ || _); [apply Hhold0|]. clear Hhold0.
  destruct (DataFrame.cgt (Some current_price) _);
    [|destruct (DataFrame.clt (Some current_price) _)];
    try destruct (DataFrame.cgt _ (Some BollingerBreakoutStrategy.volume_threshold));
    simpl; (split; [|reflexivity]).
  - right. repeat split; discriminate.
  - left. repeat split. right. right. reflexivity.
  - right. repeat split; discriminate.
  - left. repeat split. right. right. reflexivity.
  - left. repeat split. right. left. reflexivity.
Qed.

(** X24: a table that has no band columns (one too short for the engine, or
    one the engine could not compute bands for) never gives a breakout at a
    price that is not negative: the strategy compares the price with 102%
    and 98% of itself and answers HOLD, with confidence 20, or 0 when
    there are fewer than 20 rows. *)
Theorem bollinger_without_bands_holds (symbol : string)
    (data : gmap string DataFrame.t) (df : DataFrame.t) (current_price : Q) :
  data !! "1h" = Some df ->
  DataFrame.cols df !! "bb_upper" = None ->
  DataFrame.cols df !! "bb_lower" = None ->
  0 <= current_price ->
  let s := BollingerBreakoutStrategy.analyze fmt2 fmt1 symbol data current_price in
  BollingerBreakoutStrategy.signal_type s = SignalType.HOLD
  /\ (if DataFrame.empty df || (DataFrame.nrows df <? 20)%nat
      then BollingerBreakoutStrategy.confidence s = 0
           /\ BollingerBreakoutStrategy.reason s = ["Insufficient data"]
      else BollingerBreakoutStrategy.confidence s = 20
           /\ BollingerBreakoutStrategy.reason s = ["Price within Bollinger Bands"]).
Proof.
  intros Hdata Hup Hlow Hpos s. subst s.
  unfold BollingerBreakoutStrategy.analyze. rewrite Hdata.
  destruct (_ || _); [repeat split|].
  rewrite (latest_get_missing df "bb_upper" _ Hup).
  rewrite (latest_get_missing df "bb_lower" _ Hlow).
  assert (Hgt : DataFrame.cgt (Some current_price)
                  (Some (current_price * (102 # 100))) = false).
  { simpl. apply not_true_iff_false. intros H. apply py_gt_true in H. lra. }
  assert (Hlt : DataFrame.clt (Some current_price)
                  (Some (current_price * (98 # 100))) = false).
  { unfold DataFrame.clt. simpl. apply not_true_iff_false. intros H.
    apply py_gt_true in H. lra. }
  rewrite Hgt, Hlt. repeat split.
Qed.

(** X25: on a table that the indicator engine produced from a table without
    a column [atr_14], the levels of a signal are fixed fractions of the
    price: a BUY has its stop-loss at 96% and its take-profit at 106%, a
    SELL its stop-loss at 104% and its take-profit at 94%. *)
Theorem bollinger_levels_on_engine_tables
    (ta_ema ta_sma ta_rsi : list (option Q) -> nat -> list (option Q))
    (ta_atr : list (option Q) -> list (option Q) -> list (option Q) -> nat ->
              list (option Q))
    (ta_macd ta_bbands :
       list (option Q) ->
       option (list (option Q) * list (option Q) * list (option Q)))
    (ta_stoch : list (option Q) -> list (option Q) -> list (option Q) ->
                option (list (option Q) * list (option Q)))
    (symbol : string) (candles df : DataFrame.t) (current_price : Q) :
  DataFrame.cols candles !! "atr_14" = None ->
  TechnicalIndicators.add_all_indicators ta_ema ta_sma ta_rsi ta_atr ta_macd
    ta_bbands ta_stoch candles = Py.Ok df ->
  let s := BollingerBreakoutStrategy.analyze fmt2 fmt1 symbol {[ "1h" := df ]}
             current_price in
  match BollingerBreakoutStrategy.signal_type s with
  | SignalType.BUY =>
      Ledger.level_is (BollingerBreakoutStrategy.stop_loss s)
                      ((96 # 100) * current_price)
      /\ Ledger.level_is (BollingerBreakoutStrategy.take_profit s)
                         ((106 # 100) * current_price)
  | SignalType.SELL =>
      Ledger.level_is (BollingerBreakoutStrategy.stop_loss s)
                      ((104 # 100) * current_price)
      /\ Ledger.level_is (BollingerBreakoutStrategy.take_profit s)
                         ((94 # 100) * current_price)
  | SignalType.HOLD =>
      BollingerBreakoutStrategy.stop_loss s = None
      /\ BollingerBreakoutStrategy.take_profit s = None
  end.
Proof.
  intros Hraw Hengine s. subst s.
  assert (Hcol : DataFrame.cols df !! "atr_14" = None).
  { rewrite (add_all_indicators_keeps_atr_14 _ _ _ _ _ _ _ _ _ Hengine).
    exact Hraw. }
  unfold BollingerBreakoutStrategy.analyze. rewrite lookup_singleton_eq.
  destruct (_ || _); [split; reflexivity|].
  rewrite (latest_get_missing df "atr_14" _ Hcol).
  destruct (DataFrame.cgt (Some current_price) _);
    [|destruct (DataFrame.clt (Some current_price) _)];
    try destruct (DataFrame.cgt _ (Some BollingerBreakoutStrategy.volume_threshold));
    simpl; try (split; reflexivity); split; field.
Qed.
End Breakouts.

Lemma bollinger_without_bands_holds_witness :
  let s := BollingerBreakoutStrategy.analyze Sample.fmt Sample.fmt "BTC/USDT"
             {[ "1h" := Scenario.few_candles ]} 100 in
  BollingerBreakoutStrategy.signal_type s = SignalType.HOLD
  /\ BollingerBreakoutStrategy.confidence s = 20.
Proof.
  intros s.
  destruct (bollinger_without_bands_holds Sample.fmt Sample.fmt "BTC/USDT"
              {[ "1h" := Scenario.few_candles ]} Scenario.few_candles 100)
    as [H1 H2].
  - reflexivity.
  - reflexivity.
  - reflexivity.
  - discriminate.
  - split; [exact H1|]. exact (proj1 H2).
Defined.

Lemma bollinger_levels_on_engine_tables_witness :
  exists df,
    Sample.add_all_indicators Sample.candles = Py.Ok df
    /\ let s := BollingerBreakoutStrategy.analyze Sample.fmt Sample.fmt "BTC/USDT"
                  {[ "1h" := df ]} 100 in
       BollingerBreakoutStrategy.signal_type s = SignalType.BUY
       /\ Ledger.level_is (BollingerBreakoutStrategy.stop_loss s) 96
       /\ Ledger.level_is (BollingerBreakoutStrategy.take_profit s) 106.
Proof.
  assert (H : exists df, Sample.add_all_indicators Sample.candles = Py.Ok df
                         /\ BollingerBreakoutStrategy.signal_type
                              (BollingerBreakoutStrategy.analyze Sample.fmt
                                 Sample.fmt "BTC/USDT" {[ "1h" := df ]} 100)
                            = SignalType.BUY).
  { eexists. split; vm_compute; reflexivity. }
  destruct H as (df & H & Hbuy). exists df. split; [exact H|].
  pose proof (bollinger_levels_on_engine_tables Sample.fmt Sample.fmt
                Sample.ta_flat Sample.ta_flat Sample.ta_flat Sample.ta_atr_5
                Sample.ta_none3 Sample.ta_bands Sample.ta_none2 "BTC/USDT"
                Sample.candles df 100 eq_refl H) as Hlevels.
  simpl in Hlevels. rewrite Hbuy in Hlevels. destruct Hlevels as [Hsl Htp].
  split; [exact Hbuy|]. split.
  - destruct (BollingerBreakoutStrategy.stop_loss _) as [[x|]|];
      simpl in *; try contradiction. rewrite Hsl. reflexivity.
  - destruct (BollingerBreakoutStrategy.take_profit _) as [[x|]|];
      simpl in *; try contradiction. rewrite Htp. reflexivity.
Defined.

(** ** The custom scalping strategy                                       *)

Section Scalping.
Variable fmt2 fmt1 : option Q -> string.

(** The scalping strategy reads the RSI from a column [rsi_14].  On a
    table without that column it takes 50, which is neither below 40 nor
    above 60, so it never gives BUY or SELL. *)
Lemma scalping_holds_without_rsi_14 (symbol : string)
    (data : gmap string DataFrame.t) (df : DataFrame.t) (current_price : Q) :
  data !! "15m" = Some df ->
  DataFrame.cols df !! "rsi_14" = None ->
  let s := CustomScalpingStrategy.analyze fmt2 fmt1 symbol data current_price in
  BollingerBreakoutStrategy.signal_type s = SignalType.HOLD
  /\ BollingerBreakoutStrategy.stop_loss s = None
  /\ BollingerBreakoutStrategy.take_profit s = None
  /\ BollingerBreakoutStrategy.confidence s
     = (if DataFrame.empty df || (DataFrame.nrows df <? 2)%nat then 0 else 25).
Proof.
  intros Hdata Hcol s. subst s. unfold CustomScalpingStrategy.analyze.
  rewrite Hdata. destruct (_ || _); [repeat split|].
  rewrite (latest_get_missing df "rsi_14" _ Hcol).
  change (DataFrame.clt (Some 50) (Some CustomScalpingStrategy.rsi_buy))
    with false.
  change (DataFrame.cgt (Some 50) (Some CustomScalpingStrategy.rsi_sell))
    with false.
  simpl. repeat split.
Qed.

(** X26: the scalping strategy reads the RSI from a column [rsi_14], but the
    indicator engine writes it under [rsi].  On every table that the engine
    returns for candles without a column [rsi_14], the strategy takes an
    RSI of 50, never gives BUY or SELL, and answers HOLD with no levels and
    confidence 25 (0 on fewer than 2 rows). *)
Theorem scalping_never_trades_on_engine_tables
    (ta_ema ta_sma ta_rsi : list (option Q) -> nat -> list (option Q))
    (ta_atr : list (option Q) -> list (option Q) -> list (option Q) -> nat ->
              list (option Q))
    (ta_macd ta_bbands :
       list (option Q) ->
       option (list (option Q) * list (option Q) * list (option Q)))
    (ta_stoch : list (option Q) -> list (option Q) -> list (option Q) ->
                option (list (option Q) * list (option Q)))
    (symbol : string) (candles df : DataFrame.t) (current_price : Q) :
  DataFrame.cols candles !! "rsi_14" = None ->
  TechnicalIndicators.add_all_indicators ta_ema ta_sma ta_rsi ta_atr ta_macd
    ta_bbands ta_stoch candles = Py.Ok df ->
  let s := CustomScalpingStrategy.analyze fmt2 fmt1 symbol {[ "15m" := df ]}
             current_price in
  BollingerBreakoutStrategy.signal_type s = SignalType.HOLD
  /\ BollingerBreakoutStrategy.stop_loss s = None
  /\ BollingerBreakoutStrategy.take_profit s = None
  /\ BollingerBreakoutStrategy.confidence s
     = (if DataFrame.empty df || (DataFrame.nrows df <? 2)%nat then 0 else 25).
Proof.
  intros Hraw Hengine.
  assert (Hcol : DataFrame.cols df !! "rsi_14" = None).
  { destruct (add_all_indicators_step_writes _ _ _ _ _ _ _ _ _ Hengine)
      as [_ Hk].
    rewrite Hk; [exact Hraw|].
    intros Hin. apply mem_In in Hin. vm_compute in Hin. discriminate. }
  apply scalping_holds_without_rsi_14; [apply lookup_singleton_eq|exact Hcol].
Qed.
End Scalping.

Lemma scalping_never_trades_on_engine_tables_witness :
  exists df,
    Sample.add_all_indicators Sample.candles = Py.Ok df
    /\ BollingerBreakoutStrategy.signal_type
         (CustomScalpingStrategy.analyze Sample.fmt Sample.fmt "BTC/USDT"
            {[ "15m" := df ]} 100) = SignalType.HOLD.
Proof.
  assert (H : exists df, Sample.add_all_indicators Sample.candles = Py.Ok df).
  { eexists. vm_compute. reflexivity. }
  destruct H as (df & H). exists df. split; [exact H|].
  exact (proj1 (scalping_never_trades_on_engine_tables Sample.fmt Sample.fmt
                  Sample.ta_flat Sample.ta_flat Sample.ta_flat Sample.ta_atr_5
                  Sample.ta_none3 Sample.ta_bands Sample.ta_none2 "BTC/USDT"
                  Sample.candles df 100 eq_refl H)).
Defined.
(** ** Simulated partial fills                                            *)

Lemma range_last (n : Z) :
  (1 <= n)%Z ->
  ExchangeManager.range n = (ExchangeManager.range (n - 1) ++ [(n - 1)%Z])%list.
Proof.
  intros H. unfold ExchangeManager.range.
  replace (Z.to_nat n) with (Z.to_nat (n - 1) + 1)%nat by lia.
  rewrite List.seq_app, List.map_app. simpl.
  f_equal. f_equal. lia.
Qed.

Lemma range_bounds (n i : Z) :
  List.In i (ExchangeManager.range n) -> (0 <= i < n)%Z.
Proof.
  unfold ExchangeManager.range. intros H.
  apply List.in_map_iff in H. destruct H as (k & <- & Hk).
  apply List.in_seq in Hk. lia.
Qed.

Lemma range_length (n : Z) :
  length (ExchangeManager.range n) = Z.to_nat n.
Proof.
  unfold ExchangeManager.range. now rewrite List.length_map, List.length_seq.
Qed.

Lemma total_amount_snoc (fills : list ExchangeManager.fill)
    (f : ExchangeManager.fill) :
  ExchangeManager.total_amount (fills ++ [f])
  == ExchangeManager.total_amount fills + ExchangeManager.amount f.
Proof.
  unfold ExchangeManager.total_amount.
  induction fills as [|g r IH].
  - change (ExchangeManager.amount f + 0 == 0 + ExchangeManager.amount f). lra.
  - change (ExchangeManager.amount g
            + List.fold_right (fun f acc => ExchangeManager.amount f + acc) 0
                (r ++ [f])
            == ExchangeManager.amount g
               + List.fold_right (fun f acc => ExchangeManager.amount f + acc)
                   0 r
               + ExchangeManager.amount f).
    rewrite IH. lra.
Qed.

Lemma fill_loop_app (now_ms : Z -> Z) (side : string) (base_price : Q)
    (num_fills : Z) (l1 l2 : list Z) (st : Q * list ExchangeManager.fill) :
  ExchangeManager.fill_loop now_ms side base_price num_fills (l1 ++ l2) st
  = Py.bind (ExchangeManager.fill_loop now_ms side base_price num_fills l1 st)
      (ExchangeManager.fill_loop now_ms side base_price num_fills l2).
Proof.
  revert st. induction l1 as [|i r IH]; intros st; simpl; [reflexivity|].
  destruct (ExchangeManager.fill_turn _ _ _ _ _ _); simpl; [apply IH|reflexivity].
Qed.

Lemma fill_loop_cons (now_ms : Z -> Z) (side : string) (base_price : Q)
    (num_fills i : Z) (rest : list Z) (st : Q * list ExchangeManager.fill) :
  ExchangeManager.fill_loop now_ms side base_price num_fills (i :: rest) st
  = Py.bind (ExchangeManager.fill_turn now_ms side base_price num_fills st i)
      (ExchangeManager.fill_loop now_ms side base_price num_fills rest).
Proof. reflexivity. Qed.

(** A turn that is not the last one: the divisor is at least 2, so the
    division is defined. *)
Lemma fill_turn_inner (now_ms : Z -> Z) (side : string) (base_price : Q)
    (num_fills i : Z) (remaining : Q) (fills : list ExchangeManager.fill) :
  (0 <= i < num_fills - 1)%Z ->
  exists f,
    ExchangeManager.fill_turn now_ms side base_price num_fills
      (remaining, fills) i
    = Py.Ok (remaining - ExchangeManager.amount f, (fills ++ [f])%list)
    /\ ExchangeManager.amount f
       = remaining / inject_Z (num_fills - i)
         * ((8 # 10) + inject_Z i * (1 # 10))
    /\ ExchangeManager.priced f.
Proof.
  intros Hi.
  exists (ExchangeManager.mk_fill
            (remaining / inject_Z (num_fills - i)
             * ((8 # 10) + inject_Z i * (1 # 10)))
            (base_price * (if String.eqb side "buy"
                           then 1 + inject_Z i * (3 # 10000)
                           else 1 - inject_Z i * (3 # 10000)))
            (remaining / inject_Z (num_fills - i)
             * ((8 # 10) + inject_Z i * (1 # 10))
             * (base_price * (if String.eqb side "buy"
                              then 1 + inject_Z i * (3 # 10000)
                              else 1 - inject_Z i * (3 # 10000))))
            (now_ms i + i * 100)%Z
            (remaining / inject_Z (num_fills - i)
             * ((8 # 10) + inject_Z i * (1 # 10))
             * (base_price * (if String.eqb side "buy"
                              then 1 + inject_Z i * (3 # 10000)
                              else 1 - inject_Z i * (3 # 10000)))
             * (1 # 1000))).
  unfold ExchangeManager.fill_turn.
  replace (i =? num_fills - 1)%Z with false by (symmetry; apply Z.eqb_neq; lia).
  unfold Py.div.
  replace (Qeq_bool (inject_Z (num_fills - i)) 0) with false.
  2:{ symmetry. apply not_true_is_false. intros E. apply Qeq_bool_iff in E.
      unfold Qeq in E. simpl in E. lia. }
  simpl. split; [reflexivity|]. split; [reflexivity|].
  split; simpl; reflexivity.
Qed.

Lemma fill_turn_last (now_ms : Z -> Z) (side : string) (base_price : Q)
    (num_fills : Z) (remaining : Q) (fills : list ExchangeManager.fill) :
  exists f,
    ExchangeManager.fill_turn now_ms side base_price num_fills
      (remaining, fills) (num_fills - 1)
    = Py.Ok (remaining, (fills ++ [f])%list)
    /\ ExchangeManager.amount f = remaining
    /\ ExchangeManager.priced f.
Proof.
  exists (ExchangeManager.mk_fill remaining
            (base_price * (if String.eqb side "buy"
                           then 1 + inject_Z (num_fills - 1) * (3 # 10000)
                           else 1 - inject_Z (num_fills - 1) * (3 # 10000)))
            (remaining
             * (base_price
                * (if String.eqb side "buy"
                   then 1 + inject_Z (num_fills - 1) * (3 # 10000)
                   else 1 - inject_Z (num_fills - 1) * (3 # 10000))))
            (now_ms (num_fills - 1) + (num_fills - 1) * 100)%Z
            (remaining
             * (base_price
                * (if String.eqb side "buy"
                   then 1 + inject_Z (num_fills - 1) * (3 # 10000)
                   else 1 - inject_Z (num_fills - 1) * (3 # 10000)))
             * (1 # 1000))).
  unfold ExchangeManager.fill_turn. rewrite Z.eqb_refl. simpl.
  split; [reflexivity|]. split; [reflexivity|].
  split; simpl; reflexivity.
Qed.

(** The turns before the last one keep the sum of what is filled and what
    remains. *)
Lemma fill_loop_inner (now_ms : Z -> Z) (side : string) (base_price : Q)
    (num_fills : Z) (indices : list Z) :
  List.Forall (fun i => (0 <= i < num_fills - 1)%Z) indices ->
  forall remaining fills,
    List.Forall ExchangeManager.priced fills ->
    exists remaining' fills',
      ExchangeManager.fill_loop now_ms side base_price num_fills indices
        (remaining, fills) = Py.Ok (remaining', fills')
      /\ length fills' = (length fills + length indices)%nat
      /\ ExchangeManager.total_amount fills' + remaining'
         == ExchangeManager.total_amount fills + remaining
      /\ List.Forall ExchangeManager.priced fills'
      /\ remaining'
         == remaining * ExchangeManager.left_after num_fills indices.
Proof.
  induction 1 as [|i r Hi Hr IH]; intros remaining fills Hp.
  - exists remaining, fills. split; [reflexivity|]. split; [simpl; lia|].
    split; [reflexivity|]. split; [exact Hp|].
    change (remaining == remaining * 1). lra.
  - destruct (fill_turn_inner now_ms side base_price num_fills i remaining
                fills Hi) as (f & E & Ha & Hf).
    destruct (IH (remaining - ExchangeManager.amount f) (fills ++ [f])%list)
      as (remaining' & fills' & E' & Hlen & Hsum & Hp' & Hshare).
    { apply List.Forall_app. split; [exact Hp|]. constructor; [exact Hf|constructor]. }
    exists remaining', fills'. rewrite fill_loop_cons, E. simpl. rewrite E'.
    split; [reflexivity|]. split.
    + rewrite Hlen, List.length_app. simpl. lia.
    + split; [rewrite Hsum, total_amount_snoc; lra|]. split; [exact Hp'|].
      rewrite Hshare, Ha.
      change (ExchangeManager.left_after num_fills (i :: r))
        with (ExchangeManager.left_share num_fills i
              * ExchangeManager.left_after num_fills r).
      unfold ExchangeManager.left_share.
      assert (Hd : ~ inject_Z (num_fills - i) == 0).
      { unfold Qeq. simpl. lia. }
      field. exact Hd.
Qed.

(** X27: [_simulate_partial_fills] for at least one fill returns (no division
    by zero), with exactly [num_fills] fills whose amounts add up to the
    amount of the order (in exact arithmetic), each with cost = amount x
    price and a fee of 0.1% of the cost. *)
Theorem simulated_fills_add_up (now_ms : Z -> Z) (symbol side : string)
    (amount base_price : Q) (num_fills : Z) :
  (1 <= num_fills)%Z ->
  exists fills,
    ExchangeManager._simulate_partial_fills now_ms symbol side amount
      base_price num_fills = Py.Ok fills
    /\ length fills = Z.to_nat num_fills
    /\ ExchangeManager.total_amount fills == amount
    /\ List.Forall ExchangeManager.priced fills.
Proof.
  intros Hn. unfold ExchangeManager._simulate_partial_fills.
  rewrite (range_last num_fills Hn), fill_loop_app.
  destruct (fill_loop_inner now_ms side base_price num_fills
              (ExchangeManager.range (num_fills - 1))) with
    (remaining := amount) (fills := @nil ExchangeManager.fill)
    as (remaining' & fills' & E & Hlen & Hsum & Hp & _).
  { apply List.Forall_forall. intros i Hi. apply range_bounds in Hi. lia. }
  { constructor. }
  rewrite E.
  destruct (fill_turn_last now_ms side base_price num_fills remaining' fills')
    as (f & E' & Hf & Hpf).
  change (Py.bind (Py.Ok (remaining', fills')) ?k) with (k (remaining', fills')).
  rewrite fill_loop_cons, E'. simpl. exists (fills' ++ [f])%list.
  split; [reflexivity|]. split.
  - rewrite List.length_app, Hlen, range_length. simpl. lia.
  - split.
    + rewrite total_amount_snoc, Hf. simpl in Hsum. lra.
    + apply List.Forall_app. split; [exact Hp|].
      constructor; [exact Hpf|constructor].
Qed.

Lemma simulated_fills_add_up_witness :
  exists fills,
    ExchangeManager._simulate_partial_fills (fun _ => 0%Z) "BTC/USDT" "buy"
      3 100 3 = Py.Ok fills
    /\ length fills = 3%nat
    /\ ExchangeManager.total_amount fills == 3.
Proof.
  destruct (simulated_fills_add_up (fun _ => 0%Z) "BTC/USDT" "buy" 3 100 3
              ltac:(lia)) as (fills & E & Hl & Hs & _).
  exists fills. split; [exact E|]. split; [exact Hl|exact Hs].
Defined.



(** ** The log buffer                                                     *)

Lemma newest_app {A : Type} (n : nat) (l r : list A) :
  LogBuffer.newest n (LogBuffer.newest n l ++ r)%list
  = LogBuffer.newest n (l ++ r)%list.
Proof.
  unfold LogBuffer.newest.
  assert (H : (List.skipn (length l - n) l ++ r)%list
              = List.skipn (length l - n) (l ++ r)%list).
  { rewrite List.skipn_app.
    replace (length l - n - length l)%nat with 0%nat by lia. reflexivity. }
  rewrite H, List.skipn_skipn, List.length_skipn, List.length_app.
  f_equal. lia.
Qed.

Lemma newest_all {A : Type} (n : nat) (l : list A) :
  (length l <= n)%nat -> LogBuffer.newest n l = l.
Proof.
  intros H. unfold LogBuffer.newest.
  replace (length l - n)%nat with 0%nat by lia. reflexivity.
Qed.

Lemma newest_length {A : Type} (n : nat) (l : list A) :
  length (LogBuffer.newest n l) = Nat.min n (length l).
Proof. unfold LogBuffer.newest. rewrite List.length_skipn. lia. Qed.

(** Appending and dropping the oldest entry above the limit keeps the
    newest entries. *)
Lemma append_log_newest (bot_logs : list ApiServer.log_entry)
    (entry : ApiServer.log_entry) :
  (length bot_logs <= ApiServer.MAX_LOG_LINES)%nat ->
  ApiServer.append_log bot_logs entry
  = LogBuffer.newest ApiServer.MAX_LOG_LINES (bot_logs ++ [entry])%list.
Proof.
  intros H. unfold ApiServer.append_log, LogBuffer.newest.
  generalize dependent ApiServer.MAX_LOG_LINES. intros m H.
  rewrite List.length_app. simpl.
  destruct (m <? length bot_logs + 1)%nat eqn:E.
  - apply Nat.ltb_lt in E.
    replace (length bot_logs + 1 - m)%nat with 1%nat by lia.
    destruct (bot_logs ++ [entry])%list; reflexivity.
  - apply Nat.ltb_ge in E.
    replace (length bot_logs + 1 - m)%nat with 0%nat by lia. reflexivity.
Qed.

Lemma log_step_newest (bot_logs : list ApiServer.log_entry)
    (c : LogBuffer.call) :
  (length bot_logs <= ApiServer.MAX_LOG_LINES)%nat ->
  LogBuffer.step bot_logs c
  = LogBuffer.newest ApiServer.MAX_LOG_LINES
      (bot_logs ++ LogBuffer.written c)%list.
Proof.
  intros H. destruct c as [cur now level message id|h cur now name lvl msg].
  - apply append_log_newest, H.
  - unfold LogBuffer.step, LogBuffer.written, ApiServer.emit.
    destruct (PyStr.mem name _).
    + rewrite List.app_nil_r, newest_all; [reflexivity|exact H].
    + apply append_log_newest, H.
Qed.

(** X29: the log buffer holds the newest entries.  From a buffer within the
    limit, after any sequence of [add_bot_log] calls and handler [emit]s
    the buffer is exactly the last 1000 of the old entries followed by the
    entries written, in the order of the calls; records of the uvicorn
    loggers write nothing.  So it never passes 1000 entries. *)
Theorem log_buffer_keeps_newest (bot_logs : list ApiServer.log_entry)
    (calls : list LogBuffer.call) :
  (length bot_logs <= ApiServer.MAX_LOG_LINES)%nat ->
  LogBuffer.run bot_logs calls
  = LogBuffer.newest ApiServer.MAX_LOG_LINES
      (bot_logs ++ List.flat_map LogBuffer.written calls)%list
  /\ (length (LogBuffer.run bot_logs calls) <= ApiServer.MAX_LOG_LINES)%nat.
Proof.
  intros H.
  assert (E : LogBuffer.run bot_logs calls
              = LogBuffer.newest ApiServer.MAX_LOG_LINES
                  (bot_logs ++ List.flat_map LogBuffer.written calls)%list).
  { revert bot_logs H. induction calls as [|c r IH]; intros bot_logs H.
    - simpl. rewrite List.app_nil_r, newest_all; [reflexivity|exact H].
    - change (LogBuffer.run bot_logs (c :: r))
        with (LogBuffer.run (LogBuffer.step bot_logs c) r).
      rewrite (log_step_newest bot_logs c H).
      rewrite IH.
      + rewrite newest_app.
        change (List.flat_map LogBuffer.written (c :: r))
          with (LogBuffer.written c ++ List.flat_map LogBuffer.written r)%list.
        rewrite List.app_assoc. reflexivity.
      + rewrite newest_length. lia. }
  split; [exact E|]. rewrite E, newest_length. lia.
Qed.

Lemma log_buffer_keeps_newest_witness :
  LogBuffer.run Sample.bot_logs
    [LogBuffer.Emit (Some 3%Z) None "t1" "uvicorn.access" "INFO" "GET /logs";
     LogBuffer.Add (Some 3%Z) "t2" "INFO" "cycle done" None]
  = LogBuffer.newest ApiServer.MAX_LOG_LINES
      (Sample.bot_logs
       ++ [ApiServer.mk_log "t2" "INFO" "cycle done" (Some 3%Z)])%list.
Proof.
  apply (proj1 (log_buffer_keeps_newest Sample.bot_logs
                  [LogBuffer.Emit (Some 3%Z) None "t1" "uvicorn.access" "INFO"
                     "GET /logs";
                   LogBuffer.Add (Some 3%Z) "t2" "INFO" "cycle done" None]
                  ltac:(vm_compute; lia))).
Defined.
(** ** Candle tables                                                      *)

Section Feeds.
Context {candle : Type}.
Variable mainnet_fetch_ohlcv :
  nat -> string -> string -> Z -> Py.result (option (list candle)).
Variable _convert_to_dataframe : list candle -> Py.result DataFrame.t.

Lemma removelast_cons_length {A : Type} (l : list A) (x : A) (r : list A) :
  List.removelast l = x :: r -> (2 <= length l)%nat.
Proof.
  destruct l as [|a [|b l']]; simpl; try discriminate. intros _. lia.
Qed.

(** A turn of the loop adds at most the frame of its own timeframe, built
    from an answer of two candles or more without its last candle. *)
Lemma fetch_turn_frames (symbol : string) (limit : Z) (calls : nat)
    (data : gmap string DataFrame.t) (timeframe tf : string)
    (df : DataFrame.t) :
  DataFetcher.fetch_turn mainnet_fetch_ohlcv _convert_to_dataframe symbol
    limit calls data timeframe !! tf = Some df ->
  data !! tf = Some df
  \/ (tf = timeframe
      /\ exists candles,
          mainnet_fetch_ohlcv calls symbol timeframe limit
          = Py.Ok (Some candles)
          /\ (2 <= length candles)%nat
          /\ _convert_to_dataframe (List.removelast candles) = Py.Ok df).
Proof.
  unfold DataFetcher.fetch_turn, ExchangeManager.fetch_ohlcv.
  destruct (mainnet_fetch_ohlcv calls symbol timeframe limit)
    as [[candles|]|e] eqn:E; try (intros H; left; exact H).
  destruct candles as [|c cs]; [intros H; left; exact H|].
  destruct (List.removelast (c :: cs)) as [|x r] eqn:El;
    [intros H; left; exact H|].
  destruct (_convert_to_dataframe (x :: r)) as [df'|e] eqn:Ec;
    [|intros H; left; exact H].
  intros H. destruct (decide (tf = timeframe)) as [->|Hne].
  - rewrite lookup_insert_eq in H. injection H as ->. right.
    split; [reflexivity|]. exists (c :: cs).
    split; [reflexivity|]. split; [exact (removelast_cons_length _ _ _ El)|].
    rewrite El. exact Ec.
  - rewrite lookup_insert_ne in H by congruence. left. exact H.
Qed.

Lemma fetch_loop_frames (symbol : string) (limit : Z)
    (timeframes : list string) :
  forall (calls : nat) (data : gmap string DataFrame.t) (tf : string)
         (df : DataFrame.t),
    DataFetcher.fetch_loop mainnet_fetch_ohlcv _convert_to_dataframe symbol
      limit calls timeframes data !! tf = Some df ->
    data !! tf = Some df
    \/ exists i candles,
        List.nth_error timeframes i = Some tf
        /\ mainnet_fetch_ohlcv (calls + i)%nat symbol tf limit
           = Py.Ok (Some candles)
        /\ (2 <= length candles)%nat
        /\ _convert_to_dataframe (List.removelast candles) = Py.Ok df.
Proof.
  induction timeframes as [|timeframe rest IH]; intros calls data tf df H.
  - left. exact H.
  - simpl in H. apply IH in H. destruct H as [H|(i & candles & Hi & Hv & Hl & Hc)].
    + apply fetch_turn_frames in H.
      destruct H as [H|(-> & candles & Hv & Hl & Hc)]; [left; exact H|].
      right. exists 0%nat, candles. rewrite Nat.add_0_r.
      split; [reflexivity|]. split; [exact Hv|]. split; assumption.
    + right. exists (S i), candles.
      replace (calls + S i)%nat with (S calls + i)%nat by lia.
      split; [exact Hi|]. split; [exact Hv|]. split; assumption.
Qed.

(** X30: every table that [fetch_multi_timeframe_data] returns is filed under
    one of the timeframes asked for, and was built from the answer to the
    request of that turn: an answer of at least two candles, without its
    last (still forming) candle.  An answer of one candle, no answer and a
    failed request or conversion give no table. *)
Theorem fetched_tables_hold_closed_candles (symbol : string)
    (timeframes : list string) (limit : Z) (tf : string) (df : DataFrame.t) :
  DataFetcher.fetch_multi_timeframe_data mainnet_fetch_ohlcv
    _convert_to_dataframe symbol timeframes limit !! tf = Some df ->
  exists i candles,
    List.nth_error timeframes i = Some tf
    /\ mainnet_fetch_ohlcv i symbol tf limit = Py.Ok (Some candles)
    /\ (2 <= length candles)%nat
    /\ _convert_to_dataframe (List.removelast candles) = Py.Ok df.
Proof.
  unfold DataFetcher.fetch_multi_timeframe_data. intros H.
  apply fetch_loop_frames in H. destruct H as [H|H].
  - rewrite lookup_empty in H. discriminate.
  - exact H.
Qed.
End Feeds.

Lemma fetched_tables_hold_closed_candles_witness :
  exists i candles,
    List.nth_error ["15m"; "1h"] i = Some "1h"
    /\ Feed.venue i "BTC/USDT" "1h" 200 = Py.Ok (Some candles)
    /\ (2 <= length candles)%nat
    /\ Feed.convert (List.removelast candles)
       = Py.Ok (DataFrame.mk 2 {[ "close" := [Some 98; Some 99] ]}).
Proof.
  apply (fetched_tables_hold_closed_candles Feed.venue Feed.convert "BTC/USDT"
           ["15m"; "1h"] 200 "1h"
           (DataFrame.mk 2 {[ "close" := [Some 98; Some 99] ]})).
  vm_compute. reflexivity.
Defined.
